(** * Retrieval and indexing core of the paperless RAG agent

    A shallow embedding of the chunker ([document_indexer.py]), the vector
    store wrapper ([vector_store.py]), the indexer, the multi-query
    retriever, the confidence estimator and the answer composer
    ([qa_system.py]), together with the post-filter of the search endpoint
    ([web_app.py]). Further on come the store's removal and counting
    operations, re-indexing and the index status, the conversation context
    and the question endpoint.

    Conventions.
    - A Python [str] is a list of Unicode code points ([N]); lengths and
      slices count code points as Python does.
    - A Python [int] is a [Z]. A [float] distance is held as the
      rational it stands for ([Q]), which is what ordering and equality
      look at. Where the source does arithmetic on floats and compares the
      outcome with a threshold (the confidence estimator), the arithmetic
      is that of binary64 on the doubles of these rationals ([PyFloat]).
    - External collaborators (generation, embedding, the document source,
      the store's [query], [add] and [get], the service lookup of the web
      application) are oracles of the call history; an oracle may raise.
    - A [while] loop that the source does not bound runs on fuel: [None]
      is "still running when the fuel ran out".
    - The calls of the maintenance operations to the collection (listing
      by a [where] clause, removing, counting, resetting) are not part of
      the call history; whether one of them raises is a parameter
      ([Maintenance.store_faults]). *)

From Stdlib Require Import ZArith NArith QArith List Bool Lia Ascii String.
From Stdlib Require Import Sorted Permutation DecimalZ.
From Stdlib Require Floats.
From stdpp Require Import gmap.
Import ListNotations.

(** A decimal float literal stands for the nearest double, as it does in
    Python. *)
Set Warnings "-inexact-float".

(** ** Python strings *)

Module Py.

Abbreviation str := (list N).

Fixpoint of_string (s : string) : str :=
  match s with
  | EmptyString => []
  | String a rest => N_of_ascii a :: of_string rest
  end.

Definition len {A} (s : list A) : Z := Z.of_nat (length s).

(** Truthiness of a [str]: the empty string is falsy. *)
Definition truthy (s : str) : bool :=
  match s with [] => false | _ => true end.

(** Normalisation of one slice bound against the length, as
    [PySlice_AdjustIndices] does for step 1: a negative bound counts from
    the end, and the result is clamped to [0 .. len]. *)
Definition adjust_index (n i : Z) : Z :=
  if (i <? 0)%Z then Z.max 0 (i + n) else Z.min i n.

(** [s[lo:hi]], on strings and on lists. *)
Definition slice {A} (s : list A) (lo hi : Z) : list A :=
  let a := adjust_index (len s) lo in
  let b := adjust_index (len s) hi in
  firstn (Z.to_nat (b - a)) (skipn (Z.to_nat a) s).

(** [s[:hi]]. *)
Definition slice_to {A} (s : list A) (hi : Z) : list A := slice s 0 hi.

Fixpoint rfind_from (c : N) (s : str) (i last : Z) : Z :=
  match s with
  | [] => last
  | x :: rest => rfind_from c rest (i + 1) (if N.eqb x c then i else last)
  end.

(** [s.rfind(c)] for a one-character needle: the highest index holding
    [c], or [-1]. *)
Definition rfind (c : N) (s : str) : Z := rfind_from c s 0 (-1).

(** Code points that [str.strip()] removes: those for which
    [str.isspace] holds. *)
Definition isspace (c : N) : bool :=
  ((9 <=? c) && (c <=? 13) || (28 <=? c) && (c <=? 32)
   || (c =? 133) || (c =? 160) || (c =? 5760)
   || (8192 <=? c) && (c <=? 8202)
   || (c =? 8232) || (c =? 8233) || (c =? 8239) || (c =? 8287)
   || (c =? 12288))%N.

Fixpoint lstrip (s : str) : str :=
  match s with
  | [] => []
  | c :: rest => if isspace c then lstrip rest else s
  end.

Definition rstrip (s : str) : str := rev (lstrip (rev s)).

(** [s.strip()]. *)
Definition strip (s : str) : str := rstrip (lstrip s).

(** [s.startswith(p)]. *)
Fixpoint startswith (s p : str) : bool :=
  match p, s with
  | [], _ => true
  | _ :: _, [] => false
  | x :: p', y :: s' => N.eqb x y && startswith s' p'
  end.

(** [p in s]: substring test. *)
Fixpoint contains (s p : str) : bool :=
  startswith s p ||
  match s with
  | [] => false
  | _ :: s' => contains s' p
  end.

Definition dot : N := 46.
Definition newline : N := 10.
Definition space : N := 32.
Definition underscore : N := 95.

(** [sep.join(parts)]. *)
Fixpoint join (sep : str) (parts : list str) : str :=
  match parts with
  | [] => []
  | [p] => p
  | p :: rest => p ++ sep ++ join sep rest
  end.

Definition digit_char (d : N) : N := (48 + d)%N.

Fixpoint uint_chars (u : Decimal.uint) : str :=
  match u with
  | Decimal.Nil => []
  | Decimal.D0 r => digit_char 0 :: uint_chars r
  | Decimal.D1 r => digit_char 1 :: uint_chars r
  | Decimal.D2 r => digit_char 2 :: uint_chars r
  | Decimal.D3 r => digit_char 3 :: uint_chars r
  | Decimal.D4 r => digit_char 4 :: uint_chars r
  | Decimal.D5 r => digit_char 5 :: uint_chars r
  | Decimal.D6 r => digit_char 6 :: uint_chars r
  | Decimal.D7 r => digit_char 7 :: uint_chars r
  | Decimal.D8 r => digit_char 8 :: uint_chars r
  | Decimal.D9 r => digit_char 9 :: uint_chars r
  end.

(** [str(n)] for an [int]: decimal digits, with a minus sign when
    negative. *)
Definition str_of_int (z : Z) : str :=
  match Z.to_int z with
  | Decimal.Pos u => uint_chars u
  | Decimal.Neg u => 45%N :: uint_chars u
  end.

(** [s.find(c)] for a one-character needle: the lowest index holding
    [c], or [-1]. *)
Fixpoint find_from (c : N) (s : str) (i : Z) : Z :=
  match s with
  | [] => (-1)%Z
  | x :: rest => if N.eqb x c then i else find_from c rest (i + 1)
  end.

Definition find (c : N) (s : str) : Z := find_from c s 0.

Fixpoint remove_all_skip (pat s : str) (skip : nat) : str :=
  match s with
  | [] => []
  | c :: rest =>
      match skip with
      | S k => remove_all_skip pat rest k
      | O =>
          if startswith s pat
          then remove_all_skip pat rest (length pat - 1)
          else c :: remove_all_skip pat rest 0
      end
  end.

(** [s.replace(pat, '')] for a non-empty [pat]: every occurrence, found
    left to right without overlap, is dropped. *)
Definition remove_all (pat s : str) : str := remove_all_skip pat s 0.

(** [s.split(sep)[0]] for a non-empty [sep]: what stands before the
    first occurrence, or all of [s]. *)
Fixpoint before_first (sep s : str) : str :=
  match s with
  | [] => []
  | c :: rest => if startswith s sep then [] else c :: before_first sep rest
  end.

(** [s.split(c)] for a one-character separator. *)
Fixpoint split_char (c : N) (s : str) : list str :=
  match s with
  | [] => [[]]
  | x :: rest =>
      if N.eqb x c then [] :: split_char c rest
      else
        match split_char c rest with
        | [] => [[x]]
        | piece :: pieces => (x :: piece) :: pieces
        end
  end.

(** The longest prefix whose code points satisfy [p], and the rest. *)
Fixpoint span (p : N -> bool) (s : str) : str * str :=
  match s with
  | [] => ([], [])
  | x :: rest =>
      if p x then let '(a, b) := span p rest in (x :: a, b)
      else ([], s)
  end.

(** [d.get(key, default)] on one slot of a dict. *)
Definition dict_get {A} (slot : option A) (default : A) : A :=
  match slot with
  | Some v => v
  | None => default
  end.

End Py.

Import Py.

(** ** Python floats *)

Module PyFloat.

Import PrimFloat.

(** The double of a positive integer. It is exact for an integer below
    [2^53], and for such an integer times a power of two. *)
Fixpoint of_pos (p : positive) : float :=
  match p with
  | xH => 1%float
  | xO p => (2 * of_pos p)%float
  | xI p => (2 * of_pos p + 1)%float
  end.

(** [float(n)] for an [int] of moderate size: a length, a score. *)
Definition of_int (z : Z) : float :=
  match z with
  | Z0 => 0%float
  | Zpos p => of_pos p
  | Zneg p => (- of_pos p)%float
  end.

(** The double a rational stands for: the quotient of numerator and
    denominator, rounded once. A dyadic rational that is a double comes
    out as itself, a decimal such as [7 # 10] as the double Python reads
    for [0.7]. *)
Definition of_Q (q : Q) : float := (of_int (Qnum q) / of_pos (Qden q))%float.

(** [sum] as a loop of additions from [0], the way the interpreter adds
    floats up to Python 3.11. *)
Definition sum_left (values : list float) : float :=
  fold_left add values 0%float.

End PyFloat.

(** ** Chunker ([DocumentIndexer._chunk_text]) *)

Module Chunker.

Open Scope Z_scope.

(** One pass through the body of the [while] loop at window start
    [start]: the stripped chunk that is appended and the next [start]. *)
Definition window (text : str) (chunk_size overlap start : Z) : str * Z :=
  let end_ := start + chunk_size in
  let chunk := slice text start end_ in
  let '(chunk, end_) :=
    if end_ <? len text then
      let last_period := rfind dot chunk in
      let last_newline := rfind newline chunk in
      let split_point := Z.max last_period last_newline in
      (* split_point > chunk_size * 0.5 *)
      if chunk_size <? 2 * split_point
      then (slice_to chunk (split_point + 1), start + split_point + 1)
      else (chunk, end_)
    else (chunk, end_) in
  (strip chunk, end_ - overlap).

(** The [while start < len(text)] loop. *)
Fixpoint chunk_loop (fuel : nat) (text : str) (chunk_size overlap start : Z)
  : option (list str) :=
  match fuel with
  | O => None
  | S fuel' =>
      if start <? len text then
        let '(chunk, next) := window text chunk_size overlap start in
        match chunk_loop fuel' text chunk_size overlap next with
        | Some chunks => Some (chunk :: chunks)
        | None => None
        end
      else Some []
  end.

Definition _chunk_text (fuel : nat) (text : str) (chunk_size overlap : Z)
  : option (list str) :=
  if negb (truthy text) || (len text <=? chunk_size)
  then Some [text]
  else chunk_loop fuel text chunk_size overlap 0.

(** A chunk is trimmed when neither end is a whitespace code point. *)
Definition trimmed (c : str) : Prop :=
  (forall x, head c = Some x -> isspace x = false) /\
  (forall x, head (rev c) = Some x -> isspace x = false).

(** A chunk cut from a non-empty contiguous piece of the text and then
    stripped. *)
Definition piece_of (text c : str) : Prop :=
  exists a b, 0 <= a < b /\ b <= len text /\ c = strip (slice text a b).

(** What the specification asks of the chunks of one text: none empty,
    all trimmed, and a text that fits one window returned trimmed. *)
Definition spec_chunks (text : str) (chunk_size : Z) (chunks : list str)
  : Prop :=
  Forall (fun c => c <> [] /\ trimmed c) chunks /\
  (len text <= chunk_size -> chunks = [strip text]).

(** Parameters under which every window advances. *)
Definition advancing (chunk_size overlap : Z) : Prop :=
  0 < chunk_size /\ overlap < chunk_size /\ 2 * overlap <= chunk_size + 2.

End Chunker.


(** ** Effects: exceptions, the call history and the collection *)

Module Effects.

(** Outcome of a Python call: a value, or an exception on its way up. *)
Inductive exc (A : Type) : Type :=
| Ok (a : A)
| Raise.
Arguments Ok {A} a.
Arguments Raise {A}.

(** What the collection keeps under one id. *)
Record entry := {
  e_document : str;
  e_embedding : list Q;
  e_metadata : gmap str str
}.

(** A [where] clause of the collection: exact-match predicates only.
    Both fields absent is the empty dict [{}]. *)
Record where_clause := {
  w_document_type : option str;
  w_correspondent : option str
}.

(** Calls that leave the process. *)
Inductive event :=
| EvGenerate (prompt : str) (temperature : Q)
| EvEmbed (text : str)
| EvGetDocument (doc_id : Z)
| EvGetAllDocuments
| EvCollectionGet (chroma_id : str)
| EvCollectionAdd (chroma_id : str)
| EvCollectionQuery (embedding : list Q) (n_results : Z) (where_ : option where_clause).

Record world := {
  collection : gmap str entry;
  history : list event
}.

Definition M (A : Type) : Type := world -> exc A * world.

Definition ret {A} (a : A) : M A := fun w => (Ok a, w).

Definition raise {A} : M A := fun w => (Raise, w).

Definition bind {A B} (m : M A) (k : A -> M B) : M B :=
  fun w =>
    match m w with
    | (Ok a, w') => k a w'
    | (Raise, w') => (Raise, w')
    end.

(** [try: m except Exception: handler]. Effects done before the
    exception stay done. *)
Definition try_except {A} (m : M A) (handler : M A) : M A :=
  fun w =>
    match m w with
    | (Ok a, w') => (Ok a, w')
    | (Raise, w') => handler w'
    end.

Definition lift_exc {A} (e : exc A) : M A := fun w => (e, w).

Definition log (ev : event) (w : world) : world :=
  {| collection := collection w; history := history w ++ [ev] |}.

(** A call to an outside collaborator: it answers from the history so
    far, and the call is recorded. *)
Definition ask {A} (ev : event) (oracle : list event -> exc A) : M A :=
  fun w => (oracle (history w), log ev w).

Definition get_collection : M (gmap str entry) :=
  fun w => (Ok (collection w), w).

Definition set_collection (c : gmap str entry) : M unit :=
  fun w => (Ok tt, {| collection := c; history := history w |}).

(** [for x in items: acc = body x acc]. *)
Fixpoint for_each {A S} (items : list A) (body : A -> S -> M S) (acc : S)
  : M S :=
  match items with
  | [] => ret acc
  | x :: rest => bind (body x acc) (for_each rest body)
  end.

(** [enumerate(items, start)]. *)
Fixpoint enumerate {A} (start : Z) (items : list A) : list (Z * A) :=
  match items with
  | [] => []
  | x :: rest => (start, x) :: enumerate (start + 1) rest
  end.

(** [m] returns a value from every state of the world. *)
Definition returns {A} (m : M A) : Prop :=
  forall w, exists a w', m w = (Ok a, w').

(** Every value [m] can return satisfies [Q]. *)
Definition post {A} (m : M A) (Q : A -> Prop) : Prop :=
  forall w a w', m w = (Ok a, w') -> Q a.

End Effects.

Import Effects.

Declare Scope py_scope.
Delimit Scope py_scope with py.
Notation "x <- m ;; k" := (bind m (fun x => k))
  (at level 100, m at next level, right associativity) : py_scope.
Notation "m ;;; k" := (bind m (fun _ => k))
  (at level 100, right associativity) : py_scope.

(** The document source's answer for one document: the JSON object's
    fields that the indexer reads. A field is [None] when the key is
    missing or null. *)
Record document := {
  d_title : option str;
  d_content : option str;
  d_correspondent_name : option str;
  d_document_type_name : option str;
  d_created : option str;
  d_tag_names : option (list str);
  d_archive_serial_number : option Z
}.

(** What [collection.query] hands back for the single query embedding:
    parallel lists, and [distances] only when the store included it. *)
Record query_result := {
  q_ids : list str;
  q_metadatas : list (gmap str str);
  q_documents : list str;
  q_distances : option (list Q)
}.

(** The collaborators and the environment switches. [chroma_add_raises]
    and [chroma_get_raises] tell whether [collection.add] and
    [collection.get] raise for an id. [qa_system_ready] is the lookup
    [get_qa_services()['qa_system']] of the web application, which builds
    the services on first use: it raises when that fails, and else tells
    whether the entry is truthy. *)
Record services := {
  ollama_generate : str -> Q -> list event -> exc str;
  ollama_embedding : str -> list event -> exc (list Q);
  paperless_get_document : Z -> list event -> exc (option document);
  paperless_get_all_documents : list event -> exc (list Z);
  chroma_query :
    gmap str entry -> list Q -> Z -> option where_clause ->
    list event -> exc query_result;
  chroma_add_raises : str -> list event -> bool;
  chroma_get_raises : str -> list event -> bool;
  qa_system_ready : list event -> exc bool;
  USE_MULTI_QUERY : bool;
  USE_LLM_EXPANSION : bool
}.

(** The object the generator emits for a query, by the keys that are
    read later, each with a value of the expected JSON type: the four its
    prompt asks for, and the two the patterns set, which the generator's
    object overrides when it has them. *)
Record llm_filters := {
  lf_document_type : option str;
  lf_correspondent : option str;
  lf_tags : option (list str);
  lf_year : option str;
  lf_created_year : option str;
  lf_created_month : option str
}.

(** Library routines whose tables are not reproduced here: Unicode case
    mapping, [int(str)], the regex classes [\d] and [\w], [json.loads]
    on the filter object, [sum] on a list of floats (a loop of additions
    up to Python 3.11, a compensated summation since), the fixed prompt
    templates, and the text [str(e)] of a caught exception. *)
Record runtime := {
  lower : str -> str;
  int_of_str : str -> exc Z;
  is_decimal : N -> bool;
  is_word : N -> bool;
  json_loads : str -> exc llm_filters;
  float_sum : list PrimFloat.float -> PrimFloat.float;
  synonym_prompt : str -> str;
  variants_prompt : Z -> str -> str;
  filter_prompt : str -> str;
  rag_prompt : str -> str -> str;
  exception_text : str
}.

(** ** Vector store ([vector_store.py]) *)

Module VectorStore.

Open Scope py_scope.

(** A [doc_id] argument of type [Union[int, str]]. *)
Inductive doc_ref :=
| IntId (n : Z)
| StrId (s : str).

(** Both [isinstance] branches format the id the same way. *)
Definition chroma_id_of (doc_id : doc_ref) : str :=
  match doc_id with
  | IntId n => of_string "doc_" ++ str_of_int n
  | StrId s => of_string "doc_" ++ s
  end.

(** [collection.add] of one record: an id that is already there is left
    as it is. *)
Definition collection_add (chroma_id : str) (e : entry)
  (c : gmap str entry) : gmap str entry :=
  match c !! chroma_id with
  | Some _ => c
  | None => <[chroma_id := e]> c
  end.

(** One formatted hit of [VectorStore.search]. [r_distance] is the dict
    slot ['distance']: [None] when the key is missing, [Some None] when
    it holds Python's [None], [Some (Some d)] when it holds a number. *)
Record search_result := {
  r_doc_id : Z;
  r_chunk_id : str;
  r_chunk_number : str;
  r_total_chunks : str;
  r_text : str;
  r_metadata : gmap str str;
  r_distance : option (option Q)
}.

Section WithServices.
Variable svc : services.
Variable rt : runtime.

(** [metadata] holds strings only, so the conversion to
    [safe_metadata] leaves it as it is. [collection.add] raising is the
    store's choice. *)
Definition add_document (doc_id : doc_ref) (text : str)
  (embedding : list Q) (metadata : gmap str str) : M bool :=
  try_except
    (let chroma_id := chroma_id_of doc_id in
     failed <- ask (EvCollectionAdd chroma_id)
                 (fun h => Ok (chroma_add_raises svc chroma_id h)) ;;
     if (failed : bool) then raise
     else
       c <- get_collection ;;
       set_collection
         (collection_add chroma_id
            {| e_document := text; e_embedding := embedding;
               e_metadata := metadata |} c) ;;;
       ret true)
    (ret false).

(** [collection.get] raising is the store's choice; the bare [except]
    turns it into [False]. *)
Definition document_exists (doc_id : doc_ref) : M bool :=
  try_except
    (let chroma_id := chroma_id_of doc_id in
     failed <- ask (EvCollectionGet chroma_id)
                 (fun h => Ok (chroma_get_raises svc chroma_id h)) ;;
     if (failed : bool) then raise
     else
       c <- get_collection ;;
       ret (bool_decide (is_Some (c !! chroma_id))))
    (ret false).

(** The document id of a hit: [doc_id_original] when [int] reads it,
    else the number in the collection id. *)
Definition parse_doc_id (chroma_id : str) (metadata : gmap str str) : exc Z :=
  let from_chroma_id :=
    let chroma_id := remove_all (of_string "doc_") chroma_id in
    if contains chroma_id (of_string "_chunk_")
    then int_of_str rt (before_first (of_string "_chunk_") chroma_id)
    else int_of_str rt chroma_id in
  let doc_id_str := dict_get (metadata !! of_string "doc_id_original") [] in
  if truthy doc_id_str then
    match int_of_str rt doc_id_str with
    | Ok n => Ok n
    | Raise => from_chroma_id
    end
  else from_chroma_id.

(** The formatted dict of hit [i]. An index past the end of one of the
    parallel lists raises, as does an id that [int] does not read.
    [distance] is [None] when the answer has no ['distances']. *)
Definition format_result (results : query_result) (i : nat)
  : exc search_result :=
  match q_metadatas results !! i, q_ids results !! i,
        q_documents results !! i with
  | Some metadata, Some id, Some document =>
      match parse_doc_id id metadata with
      | Raise => Raise
      | Ok doc_id =>
          let mk d :=
            Ok {| r_doc_id := doc_id;
                  r_chunk_id := id;
                  r_chunk_number :=
                    dict_get (metadata !! of_string "chunk_number") (of_string "0");
                  r_total_chunks :=
                    dict_get (metadata !! of_string "total_chunks") (of_string "1");
                  r_text := document;
                  r_metadata := metadata;
                  r_distance := Some d |} in
          match q_distances results with
          | None => mk None
          | Some distances =>
              match distances !! i with
              | Some d => mk (Some d)
              | None => Raise
              end
          end
      end
  | _, _, _ => Raise
  end.

Fixpoint format_results (results : query_result) (indices : list nat)
  : exc (list search_result) :=
  match indices with
  | [] => Ok []
  | i :: rest =>
      match format_result results i with
      | Raise => Raise
      | Ok r =>
          match format_results results rest with
          | Raise => Raise
          | Ok rs => Ok (r :: rs)
          end
      end
  end.

Definition search (query_embedding : list Q) (n_results : Z)
  (where_ : option where_clause) : M (list search_result) :=
  try_except
    (c <- get_collection ;;
     results <- ask (EvCollectionQuery query_embedding n_results where_)
                  (chroma_query svc c query_embedding n_results where_) ;;
     lift_exc (format_results results (seq 0 (length (q_ids results)))))
    (ret []).

End WithServices.

End VectorStore.

(** ** Indexer ([document_indexer.py]) *)

Module Indexer.

Import Chunker VectorStore.
Open Scope py_scope.

Record stats := {
  indexed : Z;
  skipped : Z;
  failed : Z
}.

(** The metadata dict of a document, as the store receives it: every
    value a string, the empty string for a missing or null field. *)
Definition document_metadata (document : document) : gmap str str :=
  <[of_string "title" := dict_get (d_title document) []]>
  (<[of_string "correspondent" := dict_get (d_correspondent_name document) []]>
  (<[of_string "document_type" := dict_get (d_document_type_name document) []]>
  (<[of_string "created" := dict_get (d_created document) []]>
  (<[of_string "tags" :=
       join (of_string ",") (dict_get (d_tag_names document) [])]>
  (<[of_string "archive_serial_number" :=
       match d_archive_serial_number document with
       | Some n => str_of_int n
       | None => []
       end]> ∅))))).

Definition chunk_metadata (metadata : gmap str str)
  (chunk_idx total_chunks doc_id : Z) : gmap str str :=
  <[of_string "doc_id_original" := str_of_int doc_id]>
  (<[of_string "total_chunks" := str_of_int total_chunks]>
  (<[of_string "chunk_number" := str_of_int chunk_idx]> metadata)).

(** [f"{doc_id}_chunk_{chunk_idx}"]. *)
Definition chunk_doc_id (doc_id chunk_idx : Z) : str :=
  str_of_int doc_id ++ of_string "_chunk_" ++ str_of_int chunk_idx.

Section WithServices.
Variable svc : services.

(** Body of the loop over the chunks; the accumulator is
    [all_success]. *)
Definition index_chunk (doc_id total_chunks : Z) (metadata : gmap str str)
  (item : Z * str) (all_success : bool) : M bool :=
  let '(chunk_idx, chunk_text) := item in
  let chunk_metadata := chunk_metadata metadata chunk_idx total_chunks doc_id in
  embedding <- ask (EvEmbed chunk_text) (ollama_embedding svc chunk_text) ;;
  match embedding with
  | [] => ret false
  | _ :: _ =>
      success <- add_document svc (StrId (chunk_doc_id doc_id chunk_idx))
                   (slice_to chunk_text 500) embedding chunk_metadata ;;
      ret (if (success : bool) then all_success else false)
  end.

(** The indexer always chunks with [chunk_size=1500, overlap=200]; a
    text of [n] code points needs at most [n] windows, so [S n] is fuel
    enough (lemma [chunk_policy_returns]). *)
Definition chunk_policy (content : str) : option (list str) :=
  _chunk_text (S (length content)) content 1500 200.

Definition index_document (doc_id : Z) (force_reindex : bool) : M bool :=
  try_except
    (let first_chunk_id := chunk_doc_id doc_id 0 in
     already <- (if negb force_reindex
                 then document_exists svc (StrId first_chunk_id)
                 else ret false) ;;
     if (already : bool) then ret true
     else
       document <- ask (EvGetDocument doc_id)
                     (paperless_get_document svc doc_id) ;;
       match document with
       | None => ret false
       | Some document =>
           let content := dict_get (d_content document) [] in
           if negb (truthy content) then ret false
           else
             let metadata := document_metadata document in
             match chunk_policy content with
             | None => raise
             | Some chunks =>
                 let total_chunks := len chunks in
                 for_each (enumerate 0 chunks)
                   (index_chunk doc_id total_chunks metadata) true
             end
       end)
    (ret false).

(** Body of the loop over all documents. *)
Definition index_one (doc_id : Z) (st : stats) : M stats :=
  present <- document_exists svc (IntId doc_id) ;;
  if (present : bool)
  then ret {| indexed := indexed st; skipped := skipped st + 1;
              failed := failed st |}
  else
    success <- index_document doc_id false ;;
    if (success : bool)
    then ret {| indexed := indexed st + 1; skipped := skipped st;
                failed := failed st |}
    else ret {| indexed := indexed st; skipped := skipped st;
                failed := failed st + 1 |}.

(** The loop of [index_all_documents]. [stats] is updated in place in
    the source, so an exception that ended the loop would leave the
    caller with the counts reached so far. *)
Fixpoint index_loop (all_documents : list Z) (st : stats) : M stats :=
  match all_documents with
  | [] => ret st
  | doc_id :: rest =>
      step <- try_except (st' <- index_one doc_id st ;; ret (Some st'))
                (ret None) ;;
      match step with
      | Some st' => index_loop rest st'
      | None => ret st
      end
  end.

Definition index_all_documents : M stats :=
  let st := {| indexed := 0; skipped := 0; failed := 0 |} in
  try_except
    (all_documents <- ask EvGetAllDocuments (paperless_get_all_documents svc) ;;
     index_loop all_documents st)
    (ret st).

End WithServices.

(** The key of chunk [k] of document [doc_id] in the collection. *)
Definition chunk_key (doc_id k : Z) : str :=
  chroma_id_of (StrId (chunk_doc_id doc_id k)).

(** The key a whole document would have. *)
Definition document_key (doc_id : Z) : str := chroma_id_of (IntId doc_id).


(** From [c] to [c'] nothing was removed, and what was added are chunks
    of document [doc_id]. *)
Definition grows (doc_id : Z) (c c' : gmap str entry) : Prop :=
  (forall key, is_Some (c !! key) -> is_Some (c' !! key)) /\
  (forall key, is_Some (c' !! key) ->
               is_Some (c !! key) \/ exists k, key = chunk_key doc_id k).

(** No call to the document source, the embedding provider or
    [collection.add] among the events. *)
Definition no_work (events : list event) : Prop :=
  Forall (fun ev =>
            match ev with
            | EvGetDocument _ | EvEmbed _ | EvCollectionAdd _ => False
            | _ => True
            end) events.

End Indexer.

(** ** Filter extraction ([metadata_extractor.py]) *)

Module MetadataExtractor.

Open Scope py_scope.

(** The merged filter dict, by the keys that are read later. *)
Record extracted_filters := {
  x_document_type : option str;
  x_correspondent : option str;
  x_tags : option (list str);
  x_year : option str;
  x_created_year : option str;
  x_created_month : option str
}.

Definition no_filters : llm_filters :=
  {| lf_document_type := None; lf_correspondent := None;
     lf_tags := None; lf_year := None;
     lf_created_year := None; lf_created_month := None |}.

(** One key of [{**regex_filters, **llm_filters}]: the generator's value
    when its object has the key, else the patterns'. *)
Definition merged {A} (regex llm : option A) : option A :=
  match llm with
  | Some v => Some v
  | None => regex
  end.

Definition months : list (str * str) :=
  [ (of_string "januar", of_string "01");
    (of_string "februar", of_string "02");
    (of_string "m" ++ [228%N] ++ of_string "rz", of_string "03");
    (of_string "april", of_string "04");
    (of_string "mai", of_string "05");
    (of_string "juni", of_string "06");
    (of_string "juli", of_string "07");
    (of_string "august", of_string "08");
    (of_string "september", of_string "09");
    (of_string "oktober", of_string "10");
    (of_string "november", of_string "11");
    (of_string "dezember", of_string "12") ].

Section WithRuntime.
Variable svc : services.
Variable rt : runtime.

(** [\b] between two neighbouring positions; outside the string counts
    as a non-word character. *)
Definition word_boundary (before after : option N) : bool :=
  xorb (from_option (is_word rt) false before)
       (from_option (is_word rt) false after).

(** [re.search(r'\b(202\d)\b', query)], scanning left to right; [prev]
    is the code point before the current position. *)
Fixpoint year_search (prev : option N) (s : str) : option str :=
  match s with
  | [] => None
  | x :: rest =>
      let here :=
        match s with
        | a :: b :: c :: d :: after =>
            if (a =? 50)%N && (b =? 48)%N && (c =? 50)%N && is_decimal rt d
               && word_boundary prev (Some a)
               && word_boundary (Some d) (head after)
            then Some [a; b; c; d] else None
        | _ => None
        end in
      match here with
      | Some year => Some year
      | None => year_search (Some x) rest
      end
  end.

Fixpoint month_search (query_lower : str) (table : list (str * str))
  : option str :=
  match table with
  | [] => None
  | (month_name, month_num) :: rest =>
      if contains query_lower month_name then Some month_num
      else month_search query_lower rest
  end.

(** Returns [(created_year, created_month)]. *)
Definition _extract_filters_regex (query : str) : option str * option str :=
  let query_lower := lower rt query in
  (year_search None query, month_search query_lower months).

Definition _extract_filters_llm (query : str) : M llm_filters :=
  try_except
    (response <- ask (EvGenerate (filter_prompt rt query) (1 # 10))
                   (ollama_generate svc (filter_prompt rt query) (1 # 10)) ;;
     if truthy response then
       let start_idx := find 123 response in
       let end_idx := (rfind 125 response + 1)%Z in
       if negb (start_idx =? -1)%Z && (start_idx <? end_idx)%Z
       then lift_exc (json_loads rt (slice response start_idx end_idx))
       else ret no_filters
     else ret no_filters)
    (ret no_filters).

Definition empty_filters : extracted_filters :=
  {| x_document_type := None; x_correspondent := None; x_tags := None;
     x_year := None; x_created_year := None; x_created_month := None |}.

(** [{**regex_filters, **llm_filters}]. *)
Definition extract_filters (query : str) : M extracted_filters :=
  try_except
    (let '(created_year, created_month) := _extract_filters_regex query in
     llm <- _extract_filters_llm query ;;
     ret {| x_document_type := lf_document_type llm;
            x_correspondent := lf_correspondent llm;
            x_tags := lf_tags llm;
            x_year := lf_year llm;
            x_created_year := merged created_year (lf_created_year llm);
            x_created_month := merged created_month (lf_created_month llm) |})
    (ret empty_filters).

End WithRuntime.

Definition is_empty (f : extracted_filters) : bool :=
  match x_document_type f, x_correspondent f, x_tags f,
        x_year f, x_created_year f, x_created_month f with
  | None, None, None, None, None, None => true
  | _, _, _, _, _, _ => false
  end.

(** Only the two exact-match keys reach the [where] clause; the [tags]
    and year branches end in [pass]. *)
Definition convert_to_chromadb_filter (extracted : extracted_filters)
  : option where_clause :=
  if is_empty extracted then None
  else
    match x_document_type extracted, x_correspondent extracted with
    | None, None => None
    | document_type, correspondent =>
        Some {| w_document_type := document_type;
                w_correspondent := correspondent |}
    end.

(** The year a query resolves to: [year], else [created_year]. *)
Definition resolved_year (extracted : extracted_filters) : option str :=
  match x_year extracted with
  | Some y => if truthy y then Some y else x_created_year extracted
  | None => x_created_year extracted
  end.

End MetadataExtractor.

(** ** Question answering ([qa_system.py]) *)

Module QASystem.

Import VectorStore MetadataExtractor.
Open Scope py_scope.

Inductive confidence := low | medium | high.

Record source_ref := {
  s_doc_id : Z;
  s_title : str;
  s_correspondent : str;
  s_document_type : str;
  s_relevance_score : option Q
}.

Record answered_query := {
  answer : str;
  sources : list source_ref;
  confidence_of : confidence
}.

Definition SYNONYM_MAP : list (str * list str) :=
  [ (of_string "steuer id", [of_string "Steuer-ID"; of_string "Steuer-Identifikationsnummer";
                     of_string "Steuernummer"; of_string "Tax ID"; of_string "TIN"]);
    (of_string "steuernummer", [of_string "Steuer-ID"; of_string "Steuer-Identifikationsnummer";
                        of_string "Tax ID"; of_string "TIN"]);
    (of_string "rechnung", [of_string "Rechnung"; of_string "Invoice"; of_string "Faktura"; of_string "Beleg"]);
    (of_string "lieferschein", [of_string "Lieferschein"; of_string "Delivery Note";
                        of_string "Warenbegleitschein"]);
    (of_string "vertrag", [of_string "Vertrag"; of_string "Contract"; of_string "Vereinbarung"]);
    (of_string "adresse", [of_string "Adresse"; of_string "Address"; of_string "Anschrift"; of_string "Wohnort"]);
    (of_string "telefon", [of_string "Telefon"; of_string "Telefonnummer"; of_string "Phone"; of_string "Tel";
                   of_string "Mobil"]);
    (of_string "email", [of_string "E-Mail"; of_string "Email"; of_string "Mailadresse";
                 of_string "Elektronische Post"]);
    (of_string "geburtsdatum", [of_string "Geburtsdatum"; of_string "Geburtstag";
                        of_string "Date of Birth"; of_string "DOB"]);
    (of_string "gehalt", [of_string "Gehalt"; of_string "Lohn"; of_string "Verg" ++ [252%N] ++ of_string "tung";
                  of_string "Salary"; of_string "Verdienst"]);
    (of_string "versicherung", [of_string "Versicherung"; of_string "Insurance"; of_string "Police"]) ].

Definition negative_phrases : list str :=
  [ of_string "keine antwort"; of_string "nicht beantworten"; of_string "keine information";
    of_string "nicht gefunden"; of_string "konnte nicht"; of_string "keine relevanten dokumente";
    of_string "ich wei" ++ [223%N] ++ of_string " nicht"; of_string "unklar" ].

(** A number where Python needs one: [None] in arithmetic or in an
    ordering comparison is a [TypeError]. *)
Definition number (v : option Q) : exc Q :=
  match v with
  | Some d => Ok d
  | None => Raise
  end.

(** The values as numbers, for arithmetic on all of them. *)
Fixpoint numbers (values : list (option Q)) : exc (list Q) :=
  match values with
  | [] => Ok []
  | v :: rest =>
      match number v, numbers rest with
      | Ok d, Ok ds => Ok (d :: ds)
      | _, _ => Raise
      end
  end.

(** Truthiness of [doc.get('distance')]: [None] and [0.0] are falsy. *)
Definition truthy_value (v : option Q) : bool :=
  match v with
  | Some d => negb (Qeq_bool d 0)
  | None => false
  end.

(** [1 - (doc.get('distance', 0) / 2) if doc.get('distance') else None]. *)
Definition relevance_score (doc : search_result) : exc (option Q) :=
  if truthy_value (dict_get (r_distance doc) None) then
    match number (dict_get (r_distance doc) (Some 0%Q)) with
    | Ok d => Ok (Some (1 - d / 2)%Q)
    | Raise => Raise
    end
  else Ok None.

(** [key=lambda x: x.get('distance', 999)]. *)
Definition sort_key (x : search_result) : option Q :=
  dict_get (r_distance x) (Some 999%Q).

Fixpoint insert_by_key (kx : Q * search_result)
  (sorted : list (Q * search_result)) : list (Q * search_result) :=
  match sorted with
  | [] => [kx]
  | ky :: rest =>
      if Qle_bool (fst kx) (fst ky) then kx :: sorted
      else ky :: insert_by_key kx rest
  end.

(** A stable sort on the keys: of two equal keys the one that came
    first stays first. *)
Fixpoint stable_sort (keyed : list (Q * search_result))
  : list (Q * search_result) :=
  match keyed with
  | [] => []
  | kx :: rest => insert_by_key kx (stable_sort rest)
  end.

(** The order the sort establishes on keyed items. *)
Definition by_key (a b : Q * search_result) : Prop := (fst a <= fst b)%Q.

Fixpoint with_keys (results : list search_result)
  : exc (list (Q * search_result)) :=
  match results with
  | [] => Ok []
  | x :: rest =>
      match number (sort_key x), with_keys rest with
      | Ok k, Ok keyed => Ok ((k, x) :: keyed)
      | _, _ => Raise
      end
  end.

(** [results.sort(key=lambda x: x.get('distance', 999))]. With fewer
    than two items nothing is compared. With two or more every key takes
    part in a comparison, so one [None] key raises. *)
Definition sort_by_distance (results : list search_result)
  : exc (list search_result) :=
  match results with
  | [] | [_] => Ok results
  | _ =>
      match with_keys results with
      | Ok keyed => Ok (map snd (stable_sort keyed))
      | Raise => Raise
      end
  end.

(** The loop over [all_results] with the set [seen_docs]. *)
Fixpoint dedup (all_results : list search_result) (seen_docs : gset Z)
  : list search_result :=
  match all_results with
  | [] => []
  | result :: rest =>
      let doc_id := r_doc_id result in
      if bool_decide (doc_id ∈ seen_docs) then dedup rest seen_docs
      else result :: dedup rest ({[doc_id]} ∪ seen_docs)
  end.

Definition could_not_find : str :=
  of_string "Ich konnte keine relevanten Dokumente finden, um diese Frage zu beantworten.".

Definition could_not_generate : str :=
  of_string "Entschuldigung, ich konnte keine Antwort generieren.".

(** The context entry of the [i]-th document. *)
Definition doc_info (i : Z) (doc : search_result) : str :=
  let metadata := r_metadata doc in
  of_string "[Dokument " ++ str_of_int i ++ of_string "]" ++ [newline]
  ++ of_string "Titel: "
  ++ dict_get (metadata !! of_string "title") (of_string "Unbekannt")
  ++ [newline]
  ++ (if truthy (dict_get (metadata !! of_string "correspondent") [])
      then of_string "Von: "
           ++ dict_get (metadata !! of_string "correspondent") []
           ++ [newline]
      else [])
  ++ (if truthy (dict_get (metadata !! of_string "document_type") [])
      then of_string "Typ: "
           ++ dict_get (metadata !! of_string "document_type") []
           ++ [newline]
      else [])
  ++ of_string "Inhalt: " ++ r_text doc ++ [newline].

Definition source_of (doc : search_result) : exc source_ref :=
  match relevance_score doc with
  | Raise => Raise
  | Ok score =>
      let metadata := r_metadata doc in
      Ok {| s_doc_id := r_doc_id doc;
            s_title :=
              dict_get (metadata !! of_string "title") (of_string "Unbekannt");
            s_correspondent :=
              dict_get (metadata !! of_string "correspondent") [];
            s_document_type :=
              dict_get (metadata !! of_string "document_type") [];
            s_relevance_score := score |}
  end.

(** The loop that builds [context_parts] and [sources]. *)
Fixpoint collect_context (include_sources : bool)
  (docs : list (Z * search_result))
  : exc (list str * list source_ref) :=
  match docs with
  | [] => Ok ([], [])
  | (i, doc) :: rest =>
      let part := doc_info i doc in
      match (if include_sources
             then match source_of doc with
                  | Ok src => Ok [src]
                  | Raise => Raise
                  end
             else Ok []) with
      | Raise => Raise
      | Ok src =>
          match collect_context include_sources rest with
          | Raise => Raise
          | Ok (parts, srcs) => Ok (part :: parts, src ++ srcs)
          end
      end
  end.

Section WithRuntime.
Variable rt : runtime.
Import PrimFloat.

Definition has_negative (answer : str) : bool :=
  let answer_lower := lower rt answer in
  existsb (fun phrase => contains answer_lower phrase) negative_phrases.

(** [sum(values)] on distances: the sum is a float. *)
Definition py_sum (values : list (option Q)) : exc float :=
  match numbers values with
  | Ok ds => Ok (float_sum rt (map PyFloat.of_Q ds))
  | Raise => Raise
  end.

Definition _estimate_confidence (relevant_docs : list search_result)
  (answer : str) : exc confidence :=
  match relevant_docs with
  | [] => Ok low
  | best :: _ =>
      let top_distances :=
        map (fun doc => dict_get (r_distance doc) (Some 1%Q))
            (slice_to relevant_docs 3) in
      match py_sum top_distances,
            number (dict_get (r_distance best) (Some 1%Q)) with
      | Ok total, Ok best_distance =>
          let avg_distance :=
            (total / PyFloat.of_int (len top_distances))%float in
          let best_distance := PyFloat.of_Q best_distance in
          let score := 0%Z in
          let score :=
            if (avg_distance <? 0.3)%float then (score + 40)%Z
            else if (avg_distance <? 0.5)%float then (score + 30)%Z
            else if (avg_distance <? 0.7)%float then (score + 15)%Z
            else (score + 5)%Z in
          let score :=
            if (best_distance <? 0.2)%float then (score + 30)%Z
            else if (best_distance <? 0.4)%float then (score + 20)%Z
            else if (best_distance <? 0.6)%float then (score + 10)%Z
            else (score + 3)%Z in
          let num_docs := len relevant_docs in
          let score :=
            if (3 <=? num_docs)%Z then (score + 15)%Z
            else if (2 <=? num_docs)%Z then (score + 10)%Z
            else (score + 5)%Z in
          let score :=
            if has_negative answer then (score + 0)%Z
            else if (100 <? len answer)%Z then (score + 15)%Z
            else if (50 <? len answer)%Z then (score + 10)%Z
            else (score + 5)%Z in
          let max_score := 100%Z in
          let confidence_percent :=
            (PyFloat.of_int score / PyFloat.of_int max_score * 100)%float in
          if (70 <=? confidence_percent)%float then Ok high
          else if (45 <=? confidence_percent)%float then Ok medium
          else Ok low
      | _, _ => Raise
      end
  end.

End WithRuntime.

Section WithServices.
Variable svc : services.
Variable rt : runtime.

Definition _expand_query_llm (query : str) : M str :=
  try_except
    (synonyms_text <- ask (EvGenerate (synonym_prompt rt query) (3 # 10))
                        (ollama_generate svc (synonym_prompt rt query) (3 # 10)) ;;
     if truthy synonyms_text && (0 <? len synonyms_text)%Z
     then ret (query ++ [space] ++ synonyms_text)
     else ret query)
    (ret query).

Fixpoint matched_synonyms (query_lower : str) (table : list (str * list str))
  : list str :=
  match table with
  | [] => []
  | (key, synonyms) :: rest =>
      if contains query_lower key
      then synonyms ++ matched_synonyms query_lower rest
      else matched_synonyms query_lower rest
  end.

Definition _expand_query (query : str) : M str :=
  let query_lower := lower rt query in
  let expanded_terms := matched_synonyms query_lower SYNONYM_MAP in
  match expanded_terms with
  | _ :: _ => ret (query ++ [space] ++ join [space] expanded_terms)
  | [] =>
      if USE_LLM_EXPANSION svc then _expand_query_llm query
      else ret query
  end.

(** [re.sub(r'^\d+[\.\)]\s*', '', q)]. *)
Definition strip_numbering (q : str) : str :=
  match span (is_decimal rt) q with
  | (_ :: _, c :: rest) =>
      if (c =? 46)%N || (c =? 41)%N then snd (span isspace rest) else q
  | _ => q
  end.

Definition _generate_multi_queries (original_query : str) (n_variants : Z)
  : M (list str) :=
  try_except
    (response <- ask (EvGenerate (variants_prompt rt n_variants original_query) (7 # 10))
                   (ollama_generate svc
                      (variants_prompt rt n_variants original_query) (7 # 10)) ;;
     if truthy response then
       let variants :=
         map strip (List.filter (fun q => truthy (strip q))
                      (split_char newline response)) in
       let variants := map strip_numbering variants in
       let variants := slice_to variants n_variants in
       ret (original_query :: variants)
     else ret [original_query])
    (ret [original_query]).

Definition search_documents (query : str) (n_results : Z)
  (filters : option where_clause) : M (list search_result) :=
  try_except
    (filters <- match filters with
                | None =>
                    extracted_filters <- extract_filters svc rt query ;;
                    ret (convert_to_chromadb_filter extracted_filters)
                | Some _ => ret filters
                end ;;
     expanded_query <- _expand_query query ;;
     query_embedding <- ask (EvEmbed expanded_query)
                          (ollama_embedding svc expanded_query) ;;
     match query_embedding with
     | [] => ret []
     | _ :: _ => search svc rt query_embedding n_results filters
     end)
    (ret []).

(** The loop over the query variants; the accumulator is
    [all_results]. *)
Definition search_variant (results_per_query : Z)
  (filters : option where_clause) (q : str)
  (all_results : list search_result) : M (list search_result) :=
  results <- search_documents q results_per_query filters ;;
  ret (all_results ++ results).

(** The first half of [search_documents_multi]: the query variants and
    the concatenation [all_results] of what each of them finds. *)
Definition gather_results (query : str) (n_results : Z)
  (use_multi_query : bool) (filters : option where_clause)
  : M (list search_result) :=
  queries <- (if use_multi_query && USE_MULTI_QUERY svc
              then _generate_multi_queries query 2
              else ret [query]) ;;
  let results_per_query := Z.max (n_results / len queries) 3 in
  for_each queries (search_variant results_per_query filters) [].

Definition search_documents_multi (query : str) (n_results : Z)
  (use_multi_query : bool) (filters : option where_clause)
  : M (list search_result) :=
  try_except
    (all_results <- gather_results query n_results use_multi_query filters ;;
     let dedup_results := dedup all_results ∅ in
     dedup_results <- lift_exc (sort_by_distance dedup_results) ;;
     let final_results := slice_to dedup_results n_results in
     ret final_results)
    (search_documents query n_results filters).

(** Step 1 of [answer_question]: the documents the answer is built
    from. *)
Definition relevant_documents (question : str) (n_context_docs : Z)
  : M (list search_result) :=
  if USE_MULTI_QUERY svc then
    relevant_docs <- search_documents_multi question
                       (n_context_docs * 2) true None ;;
    ret (slice_to relevant_docs n_context_docs)
  else search_documents question n_context_docs None.

Definition answer_question (question : str) (n_context_docs : Z)
  (include_sources : bool) : M answered_query :=
  try_except
    (relevant_docs <- relevant_documents question n_context_docs ;;
     match relevant_docs with
     | [] =>
         ret {| answer := could_not_find; sources := [];
                confidence_of := low |}
     | _ :: _ =>
         collected <- lift_exc (collect_context include_sources
                                  (enumerate 1 relevant_docs)) ;;
         let '(context_parts, sources) := collected in
         let context := join [newline; newline] context_parts in
         let prompt := rag_prompt rt question context in
         answer <- ask (EvGenerate prompt (7 # 10))
                     (ollama_generate svc prompt (7 # 10)) ;;
         if negb (truthy answer) then
           ret {| answer := could_not_generate;
                  sources := if include_sources then sources else [];
                  confidence_of := low |}
         else
           confidence <- lift_exc (_estimate_confidence rt relevant_docs answer) ;;
           ret {| answer := strip answer;
                  sources := if include_sources then sources else [];
                  confidence_of := confidence |}
     end)
    (ret {| answer := of_string "Es ist ein Fehler aufgetreten: "
                      ++ exception_text rt;
            sources := [];
            confidence_of := low |}).

End WithServices.

End QASystem.

(** ** The search endpoint ([web_app.py], [/api/qa/search]) *)

Module WebApp.

Import VectorStore QASystem.
Open Scope py_scope.

(** A JSON year: a number or a string. *)
Inductive year_value :=
| YearInt (n : Z)
| YearStr (s : str).

Definition str_of_year (y : year_value) : str :=
  match y with
  | YearInt n => str_of_int n
  | YearStr s => s
  end.

(** The [filters] object of a request. [rf_other_keys] tells whether
    it has keys besides the four that are read. *)
Record request_filters := {
  rf_document_type : option str;
  rf_correspondent : option str;
  rf_year : option year_value;
  rf_tags : option (list str);
  rf_other_keys : bool
}.

Record search_request := {
  sr_query : option str;
  sr_n_results : option Z;
  sr_filters : request_filters
}.

Inductive response :=
| Success (results : list search_result)
| Failure (status : Z).

(** Truthiness of the [filters] dict. *)
Definition has_keys (f : request_filters) : bool :=
  match rf_document_type f, rf_correspondent f, rf_year f, rf_tags f with
  | None, None, None, None => rf_other_keys f
  | _, _, _, _ => true
  end.

Definition year_matches (year : str) (r : search_result) : bool :=
  startswith (dict_get (r_metadata r !! of_string "created") []) year.

Definition tag_matches (filter_tags : list str) (r : search_result) : bool :=
  existsb
    (fun tag => contains (dict_get (r_metadata r !! of_string "tags") []) tag)
    filter_tags.

(** The two list comprehensions after the search. *)
Definition post_filter (filters : request_filters)
  (results : list search_result) : list search_result :=
  let results :=
    match rf_year filters with
    | Some y => List.filter (year_matches (str_of_year y)) results
    | None => results
    end in
  match rf_tags filters with
  | Some ((_ :: _) as tags) => List.filter (tag_matches tags) results
  | _ => results
  end.

Section WithServices.
Variable svc : services.
Variable rt : runtime.

(** [get_qa_services()['qa_system']], by its truthiness. As the
    function is written the entry is set whenever it returns, so the
    answer [False] stands for a branch that its callers keep all the
    same. *)
Definition get_qa_services : M bool :=
  fun w => (qa_system_ready svc (history w), w).

Definition semantic_search (data : search_request) : M response :=
  try_except
    (let n_results := dict_get (sr_n_results data) 5%Z in
     let filters := sr_filters data in
     match sr_query data with
     | None | Some [] => ret (Failure 400)
     | Some query =>
         qa <- get_qa_services ;;
         if negb qa then ret (Failure 500)
         else
           let chroma_filters :=
             if has_keys filters
             then Some {| w_document_type := rf_document_type filters;
                          w_correspondent := rf_correspondent filters |}
             else None in
           results <-
             (if USE_MULTI_QUERY svc
              then search_documents_multi svc rt query n_results true
                     chroma_filters
              else search_documents svc rt query n_results chroma_filters) ;;
           ret (Success (post_filter filters results))
     end)
    (ret (Failure 500)).

End WithServices.

End WebApp.

(** ** Ranking and confidence as the specification words them *)

Module Spec.

Import QASystem.
Import PrimFloat.

(** The distance a result is ranked by: its own, or a very large one
    when it has none. *)
Definition rank (r : VectorStore.search_result) : Q :=
  match VectorStore.r_distance r with
  | Some (Some d) => d
  | _ => 999
  end.

Definition has_distance (r : VectorStore.search_result) : Prop :=
  exists d, VectorStore.r_distance r = Some (Some d).

(** Ascending by distance. *)
Definition ascending (results : list VectorStore.search_result) : Prop :=
  StronglySorted (fun a b => (rank a <= rank b)%Q) results.

(** [r] stands in [l] with no earlier result of the same document. *)
Definition first_occurrence (r : VectorStore.search_result)
  (l : list VectorStore.search_result) : Prop :=
  exists pre post,
    l = pre ++ r :: post /\
    Forall (fun x => VectorStore.r_doc_id x <> VectorStore.r_doc_id r) pre.

(** The store's side of the bargain: a query answers with at most
    [n_results] hits, ranked by ascending distance. *)
Definition store_ranks (svc : services) : Prop :=
  forall c embedding n_results where_ h answer,
    chroma_query svc c embedding n_results where_ h = Ok answer ->
    (Py.len (q_ids answer) <= n_results)%Z /\
    forall distances,
      q_distances answer = Some distances -> StronglySorted Qle distances.

(** What one search can hand back: nothing, or the formatted answer of
    a store query for [n_results] hits. *)
Definition from_store (svc : services) (rt : runtime) (n_results : Z)
  (results : list VectorStore.search_result) : Prop :=
  results = [] \/
  exists c embedding where_ h answer,
    chroma_query svc c embedding n_results where_ h = Ok answer /\
    VectorStore.format_results rt answer (seq 0 (length (q_ids answer)))
    = Ok results.

(** Top-3 average distance, 40 points at most. *)
Definition avg_points (avg : PrimFloat.float) : Z :=
  if (avg <? 0.3)%float then 40
  else if (avg <? 0.5)%float then 30
  else if (avg <? 0.7)%float then 15
  else 5.

(** Best single distance, 30 points at most. *)
Definition best_points (best : PrimFloat.float) : Z :=
  if (best <? 0.2)%float then 30
  else if (best <? 0.4)%float then 20
  else if (best <? 0.6)%float then 10
  else 3.

(** Result count, 15 points at most. *)
Definition count_points (n : nat) : Z :=
  if (3 <=? n)%nat then 15 else if (n =? 2)%nat then 10 else 5.

(** Answer text, 15 points at most; nothing when a negative phrase
    occurs. *)
Definition answer_points (negative : bool) (length : nat) : Z :=
  if negative then 0
  else if (100 <? length)%nat then 15
  else if (50 <? length)%nat then 10
  else 5.

Definition level (score : Z) : confidence :=
  if (70 <=? score)%Z then high
  else if (45 <=? score)%Z then medium
  else low.

(** The average of distances, as the interpreter computes it: their
    float sum over their number. *)
Definition average (rt : runtime) (distances : list Q) : PrimFloat.float :=
  (float_sum rt (map PyFloat.of_Q distances)
   / PyFloat.of_int (Z.of_nat (length distances)))%float.

(** The text contains one of the negative phrases. *)
Definition says_no (text : str) : Prop :=
  exists phrase pre post,
    In phrase negative_phrases /\ text = pre ++ phrase ++ post.

Definition estimate (rt : runtime) (distances : list Q) (negative : bool)
  (answer_length : nat) : confidence :=
  match distances with
  | [] => low
  | best :: _ =>
      level (avg_points (average rt (firstn 3 distances))
             + best_points (PyFloat.of_Q best)
             + count_points (length distances)
             + answer_points negative answer_length)%Z
  end.

End Spec.

(** ** The post-filter as the specification words it *)

Module FilterSpec.

Import VectorStore.

Definition created_of (r : search_result) : str :=
  dict_get (r_metadata r !! of_string "created") [].

Definition tags_of (r : search_result) : str :=
  dict_get (r_metadata r !! of_string "tags") [].

(** The year is a prefix of the creation date. *)
Definition in_year (year : option str) (r : search_result) : bool :=
  match year with
  | Some y => startswith (created_of r) y
  | None => true
  end.

(** One of the tags occurs in the tag list string. *)
Definition has_tag (tags : list str) (r : search_result) : bool :=
  match tags with
  | [] => true
  | _ :: _ => existsb (fun tag => contains (tags_of r) tag) tags
  end.

Definition passes (year : option str) (tags : list str) (r : search_result)
  : bool :=
  in_year year r && has_tag tags r.

End FilterSpec.

(** ** Sample data *)

Module Fixtures.

Import VectorStore QASystem.

Definition hit (doc_id : Z) (created : str) (distance : option (option Q))
  : search_result :=
  {| r_doc_id := doc_id;
     r_chunk_id := of_string "doc_" ++ str_of_int doc_id ++ of_string "_chunk_0";
     r_chunk_number := of_string "0";
     r_total_chunks := of_string "1";
     r_text := of_string "Rechnung";
     r_metadata := {[ of_string "created" := created ]};
     r_distance := distance |}.

(** A hit of document 7 at distance [d]. *)
Definition hit_at (d : Q) : search_result :=
  hit 7 (of_string "2024-01-05") (Some (Some d)).

(** An answer of 150 characters. *)
Definition long_answer : str := repeat 97%N 150.

Definition is_digit (c : N) : bool := ((48 <=? c) && (c <=? 57))%N.

Definition ascii_lower (c : N) : N :=
  if ((65 <=? c) && (c <=? 90))%N then (c + 32)%N else c.

Fixpoint parse_digits (s : str) (acc : Z) : exc Z :=
  match s with
  | [] => Ok acc
  | c :: rest =>
      if is_digit c then parse_digits rest (acc * 10 + Z.of_N (c - 48))%Z
      else Raise
  end.

(** [int] on a plain run of ASCII digits. *)
Definition parse_decimal (s : str) : exc Z :=
  match s with
  | [] => Raise
  | _ :: _ => parse_digits s 0
  end.

(** A runtime for texts in ASCII. *)
Definition ascii_runtime : runtime :=
  {| lower := map ascii_lower;
     int_of_str := parse_decimal;
     is_decimal := is_digit;
     is_word := fun c =>
       is_digit c || (c =? 95)%N
       || ((65 <=? c) && (c <=? 90))%N || ((97 <=? c) && (c <=? 122))%N;
     json_loads := fun _ => Raise;
     float_sum := PyFloat.sum_left;
     synonym_prompt := fun q => q;
     variants_prompt := fun _ q => q;
     filter_prompt := fun q => q;
     rag_prompt := fun q context => q ++ context;
     exception_text := [] |}.

Definition sample_metadata (doc_id created tags : string) : gmap str str :=
  <[of_string "doc_id_original" := of_string doc_id]>
  (<[of_string "created" := of_string created]>
  (<[of_string "tags" := of_string tags]> ∅)).

(** Two stored chunks, of documents 1 and 2, as the store ranks them. *)
Definition sample_answer : query_result :=
  {| q_ids := [of_string "doc_1_chunk_0"; of_string "doc_2_chunk_0"];
     q_metadatas := [sample_metadata "1" "2023-05-01" "steuer,privat";
                     sample_metadata "2" "2024-02-01" "rechnung"];
     q_documents := [of_string "Steuerbescheid"; of_string "Rechnung"];
     q_distances := Some [1 # 10; 4 # 10] |}.

Definition truncate (n : nat) (a : query_result) : query_result :=
  {| q_ids := firstn n (q_ids a);
     q_metadatas := firstn n (q_metadatas a);
     q_documents := firstn n (q_documents a);
     q_distances := option_map (firstn n) (q_distances a) |}.

(** Collaborators that always answer the same: generation gives
    nothing, every text embeds to the same vector, and the store answers
    every query from [sample_answer]. *)
Definition sample_services : services :=
  {| ollama_generate := fun _ _ _ => Ok [];
     ollama_embedding := fun _ _ => Ok [1%Q];
     paperless_get_document := fun _ _ => Ok None;
     paperless_get_all_documents := fun _ => Ok [];
     chroma_query := fun _ _ n_results _ _ =>
       if (n_results <? 1)%Z then Raise
       else Ok (truncate (Z.to_nat n_results) sample_answer);
     chroma_add_raises := fun _ _ => false;
     chroma_get_raises := fun _ _ => false;
     qa_system_ready := fun _ => Ok true;
     USE_MULTI_QUERY := true;
     USE_LLM_EXPANSION := false |}.

Definition empty_world : world := {| collection := ∅; history := [] |}.

Definition sample_document : document :=
  {| d_title := Some (of_string "Rechnung 2024-17");
     d_content := Some (of_string "Rechnung Nr. 17 vom 01.02.2024. Betrag 120 EUR.");
     d_correspondent_name := Some (of_string "Stadtwerke");
     d_document_type_name := Some (of_string "Rechnung");
     d_created := Some (of_string "2024-02-01");
     d_tag_names := Some [of_string "rechnung"; of_string "2024"];
     d_archive_serial_number := None |}.

(** As [sample_services], with a document source that holds document 7
    and a generator that answers every prompt with the same sentence. *)
Definition library_services : services :=
  {| ollama_generate := fun _ _ _ => Ok (of_string "Der Betrag ist 120 EUR.");
     ollama_embedding := fun _ _ => Ok [1%Q];
     paperless_get_document := fun _ _ => Ok (Some sample_document);
     paperless_get_all_documents := fun _ => Ok [7%Z];
     chroma_query := chroma_query sample_services;
     chroma_add_raises := fun _ _ => false;
     chroma_get_raises := fun _ _ => false;
     qa_system_ready := fun _ => Ok true;
     USE_MULTI_QUERY := true;
     USE_LLM_EXPANSION := false |}.

(** The world after document 7 has been indexed. *)
Definition indexed_world : world :=
  snd (Indexer.index_document library_services 7 false empty_world).

(** A store that finds nothing. *)
Definition barren_services : services :=
  {| ollama_generate := fun _ _ _ => Ok [];
     ollama_embedding := fun _ _ => Ok [1%Q];
     paperless_get_document := fun _ _ => Ok None;
     paperless_get_all_documents := fun _ => Ok [];
     chroma_query := fun _ _ _ _ _ =>
       Ok {| q_ids := []; q_metadatas := []; q_documents := [];
             q_distances := Some [] |};
     chroma_add_raises := fun _ _ => false;
     chroma_get_raises := fun _ _ => false;
     qa_system_ready := fun _ => Ok true;
     USE_MULTI_QUERY := true;
     USE_LLM_EXPANSION := false |}.

Definition year_query : str := of_string "Rechnungen aus 2024".

(** A search request for invoices of 2024. *)
Definition year_request : WebApp.search_request :=
  {| WebApp.sr_query := Some year_query;
     WebApp.sr_n_results := Some 10%Z;
     WebApp.sr_filters :=
       {| WebApp.rf_document_type := None;
          WebApp.rf_correspondent := None;
          WebApp.rf_year := Some (WebApp.YearInt 2024);
          WebApp.rf_tags := Some [of_string "rechnung"];
          WebApp.rf_other_keys := false |} |}.

End Fixtures.

(** ** Removing, counting and re-indexing ([vector_store.py],
    [document_indexer.py]) *)

Module Maintenance.

Import VectorStore Indexer.
Open Scope py_scope.

(** Whether the collection raises on the calls that remove or count:
    the store's choice, from what happened so far. *)
Record store_faults := {
  delete_raises : list str -> list event -> bool;
  get_where_raises : str -> list event -> bool;
  count_raises : list event -> bool;
  delete_collection_raises : list event -> bool;
  create_collection_raises : list event -> bool
}.

(** A call that raises when the store says so. *)
Definition may_raise (fault : list event -> bool) : M unit :=
  fun w => if fault (history w) then (Raise, w) else (Ok tt, w).

(** [collection.delete(ids=ids)]: ids that are not there are passed
    over. *)
Definition collection_delete (ids : list str) (c : gmap str entry)
  : gmap str entry :=
  foldr (fun id c => delete id c) c ids.

(** The ids [collection.get(where={"doc_id_original": value})] lists. *)
Definition ids_where_original (value : str) (c : gmap str entry) : list str :=
  map fst
    (List.filter
       (fun kv =>
          bool_decide
            (e_metadata (snd kv) !! of_string "doc_id_original" = Some value))
       (map_to_list c)).

Record vector_stats := {
  total_documents : Z;
  persist_directory : str
}.

(** The answer of [get_indexing_stats]; [None] is the empty dict. *)
Record indexing_stats := {
  total_paperless_documents : Z;
  indexed_documents : Z;
  indexing_progress : str
}.

Section WithServices.
Variable svc : services.
Variable faults : store_faults.

Definition delete_document (doc_id : doc_ref) : M bool :=
  try_except
    (let chroma_id := chroma_id_of doc_id in
     may_raise (delete_raises faults [chroma_id]) ;;;
     c <- get_collection ;;
     set_collection (collection_delete [chroma_id] c) ;;;
     ret true)
    (ret false).

Definition delete_all_document_chunks (doc_id : Z) : M bool :=
  try_except
    (may_raise (get_where_raises faults (str_of_int doc_id)) ;;;
     c <- get_collection ;;
     let ids := ids_where_original (str_of_int doc_id) c in
     match ids with
     | _ :: _ =>
         may_raise (delete_raises faults ids) ;;;
         set_collection (collection_delete ids c) ;;;
         ret true
     | [] => ret true
     end)
    (ret false).

(** [self.persist_directory] is fixed when the store is opened. *)
Definition get_stats (directory : str) : M vector_stats :=
  may_raise (count_raises faults) ;;;
  c <- get_collection ;;
  ret {| total_documents := Z.of_nat (size c);
         persist_directory := directory |}.

(** [delete_collection] followed by [get_or_create_collection]: once
    the first went through the collection is empty. *)
Definition reset : M bool :=
  try_except
    (may_raise (delete_collection_raises faults) ;;;
     set_collection ∅ ;;;
     may_raise (create_collection_raises faults) ;;;
     ret true)
    (ret false).

(** The outcome of the deletion is not looked at. *)
Definition reindex_document (doc_id : Z) : M bool :=
  delete_all_document_chunks doc_id ;;;
  index_document svc doc_id true.

Definition get_indexing_stats (directory : str) : M (option indexing_stats) :=
  try_except
    (vector_stats <- get_stats directory ;;
     all_docs <- ask EvGetAllDocuments (paperless_get_all_documents svc) ;;
     ret (Some
            {| total_paperless_documents := len all_docs;
               indexed_documents := total_documents vector_stats;
               indexing_progress :=
                 str_of_int (total_documents vector_stats)
                 ++ of_string "/" ++ str_of_int (len all_docs) |}))
    (ret None).

End WithServices.

(** A collection written by the indexer alone: every entry is a chunk,
    tagged with the document it belongs to. *)
Definition indexer_written (c : gmap str entry) : Prop :=
  forall key e,
    c !! key = Some e ->
    exists doc_id k,
      key = chunk_key doc_id k /\
      e_metadata e !! of_string "doc_id_original" = Some (str_of_int doc_id).

(** What the indexer stores for chunk [chunk_idx] of a document. *)
Definition chunk_entry (doc_id total_chunks : Z) (metadata : gmap str str)
  (chunk_idx : Z) (chunk_text : str) (embedding : list Q) : entry :=
  {| e_document := slice_to chunk_text 500;
     e_embedding := embedding;
     e_metadata := chunk_metadata metadata chunk_idx total_chunks doc_id |}.

(** The texts handed to the embedding provider, in call order. *)
Definition embedded_texts (events : list event) : list str :=
  flat_map (fun ev => match ev with EvEmbed text => [text] | _ => [] end)
    events.

(** The ids handed to [collection.add], in call order. *)
Definition added_ids (events : list event) : list str :=
  flat_map (fun ev => match ev with EvCollectionAdd id => [id] | _ => [] end)
    events.

(** The world in which [index_document] asks the source for the
    document: after the [collection.get], unless the re-index is
    forced. *)
Definition asked_in (doc_id : Z) (force_reindex : bool) (w : world) : world :=
  if force_reindex then w else log (EvCollectionGet (chunk_key doc_id 0)) w.

(** The document and the content [index_document] goes on with: [None]
    when the source raises, has no such document, or the document has no
    content. *)
Definition fetched_content (svc : services) (doc_id : Z)
  (force_reindex : bool) (w : world) : option (document * str) :=
  match paperless_get_document svc doc_id
          (history (asked_in doc_id force_reindex w)) with
  | Ok (Some document) =>
      let content := dict_get (d_content document) [] in
      if truthy content then Some (document, content) else None
  | _ => None
  end.

(** The keys of the chunks [0 .. n-1] of a document. *)
Definition chunk_keys (doc_id : Z) (n : nat) : list str :=
  map (fun k => chunk_key doc_id (Z.of_nat k)) (seq 0 n).

(** A store that never raises on removal or counting. *)
Definition no_faults : store_faults :=
  {| delete_raises := fun _ _ => false;
     get_where_raises := fun _ _ => false;
     count_raises := fun _ => false;
     delete_collection_raises := fun _ => false;
     create_collection_raises := fun _ => false |}.

End Maintenance.

(** ** More sample data *)

Module Samples.

Import VectorStore Indexer Maintenance.

(** A document of 2000 characters without a sentence end: it is cut
    into two chunks. *)
Definition long_document : document :=
  {| d_title := Some (of_string "Protokoll");
     d_content := Some (repeat 97%N 2000);
     d_correspondent_name := None;
     d_document_type_name := None;
     d_created := Some (of_string "2023-11-30");
     d_tag_names := None;
     d_archive_serial_number := Some 12%Z |}.

(** As [Fixtures.library_services], with a source that holds the long
    document. *)
Definition archive_services : services :=
  {| ollama_generate := ollama_generate Fixtures.library_services;
     ollama_embedding := fun _ _ => Ok [1%Q];
     paperless_get_document := fun _ _ => Ok (Some long_document);
     paperless_get_all_documents := fun _ => Ok [7%Z];
     chroma_query := chroma_query Fixtures.sample_services;
     chroma_add_raises := fun _ _ => false;
     chroma_get_raises := fun _ _ => false;
     qa_system_ready := fun _ => Ok true;
     USE_MULTI_QUERY := true;
     USE_LLM_EXPANSION := false |}.

(** The world after the long document has been indexed as document 7
    into an empty collection. *)
Definition archive_world : world :=
  snd (index_document archive_services 7 true Fixtures.empty_world).

(** A chunk of an older version of a document. *)
Definition stale_entry (doc_id k : Z) : entry :=
  chunk_entry doc_id 2 ∅ k (of_string "alt") [1%Q].

(** A collection with two chunks of an older version of document 7 and
    one chunk of document 8. *)
Definition stale_world : world :=
  {| collection :=
       <[chunk_key 7 0 := stale_entry 7 0]>
       (<[chunk_key 7 1 := stale_entry 7 1]>
       (<[chunk_key 8 0 := stale_entry 8 0]> ∅));
     history := [] |}.

(** As [Fixtures.sample_services], with an embedding provider that is
    down. *)
Definition offline_services : services :=
  {| ollama_generate := ollama_generate Fixtures.library_services;
     ollama_embedding := fun _ _ => Ok [];
     paperless_get_document := fun _ _ => Ok None;
     paperless_get_all_documents := fun _ => Ok [];
     chroma_query := chroma_query Fixtures.sample_services;
     chroma_add_raises := fun _ _ => false;
     chroma_get_raises := fun _ _ => false;
     qa_system_ready := fun _ => Ok true;
     USE_MULTI_QUERY := true;
     USE_LLM_EXPANSION := true |}.

(** As [archive_services], with an embedding provider that gives
    nothing for a text of more than 1000 characters. *)
Definition limited_services : services :=
  {| ollama_generate := ollama_generate Fixtures.library_services;
     ollama_embedding := fun text _ =>
       if (1000 <? len text)%Z then Ok [] else Ok [1%Q];
     paperless_get_document := fun _ _ => Ok (Some long_document);
     paperless_get_all_documents := fun _ => Ok [7%Z];
     chroma_query := chroma_query Fixtures.sample_services;
     chroma_add_raises := fun _ _ => false;
     chroma_get_raises := fun _ _ => false;
     qa_system_ready := fun _ => Ok true;
     USE_MULTI_QUERY := true;
     USE_LLM_EXPANSION := false |}.

(** The store's answer of [Fixtures.sample_answer] without the
    distances. *)
Definition unranked_answer : query_result :=
  {| q_ids := q_ids Fixtures.sample_answer;
     q_metadatas := q_metadatas Fixtures.sample_answer;
     q_documents := q_documents Fixtures.sample_answer;
     q_distances := None |}.

(** As [Fixtures.library_services], with a store that answers every
    query from [unranked_answer]. *)
Definition unranked_services : services :=
  {| ollama_generate := ollama_generate Fixtures.library_services;
     ollama_embedding := fun _ _ => Ok [1%Q];
     paperless_get_document := fun _ _ => Ok None;
     paperless_get_all_documents := fun _ => Ok [];
     chroma_query := fun _ _ _ _ _ => Ok unranked_answer;
     chroma_add_raises := fun _ _ => false;
     chroma_get_raises := fun _ _ => false;
     qa_system_ready := fun _ => Ok true;
     USE_MULTI_QUERY := true;
     USE_LLM_EXPANSION := false |}.

(** What retrieval hands to [answer_question] for the sample query, and
    the world it leaves. *)
Definition unranked_docs : list VectorStore.search_result :=
  match fst (QASystem.relevant_documents unranked_services
               Fixtures.ascii_runtime Fixtures.year_query 3
               Fixtures.empty_world) with
  | Ok docs => docs
  | Raise => []
  end.

Definition unranked_world : world :=
  snd (QASystem.relevant_documents unranked_services Fixtures.ascii_runtime
         Fixtures.year_query 3 Fixtures.empty_world).

Definition unranked_context : list str * list QASystem.source_ref :=
  match QASystem.collect_context true (enumerate 1 unranked_docs) with
  | Ok collected => collected
  | Raise => ([], [])
  end.

(** The world after document 7 has been re-indexed from
    [Fixtures.library_services]. *)
Definition reindexed_world : world :=
  snd (reindex_document Fixtures.library_services no_faults 7 stale_world).

End Samples.

(** ** What a call leaves as it is *)

Module Traces.

(** The call leaves the observation [f] of the world as it finds it,
    whatever it returns. *)
Definition keeps {A X} (f : world -> X) (m : M A) : Prop :=
  forall w, f (snd (m w)) = f w.

(** The queries sent to the collection, by the number of hits asked
    for, in call order. *)
Definition store_queries (events : list event) : list Z :=
  flat_map (fun ev =>
              match ev with
              | EvCollectionQuery _ n_results _ => [n_results]
              | _ => []
              end) events.

(** The prompts sent to the generator, in call order. *)
Definition generations (events : list event) : list str :=
  flat_map (fun ev =>
              match ev with
              | EvGenerate prompt _ => [prompt]
              | _ => []
              end) events.

(** The collection is not written. *)
Definition read_only {A} (m : M A) : Prop := keeps collection m.

(** The collection is not queried. *)
Definition no_query {A} (m : M A) : Prop :=
  keeps (fun w => store_queries (history w)) m.

(** An embedding provider that is down: every request raises or comes
    back empty. *)
Definition embedding_down (svc : services) : Prop :=
  forall text h,
    ollama_embedding svc text h = Ok [] \/ ollama_embedding svc text h = Raise.

End Traces.

(** ** Conversation context ([QASystem.get_conversation_context]) *)

Module Conversation.

(** One message of the history, by the two keys that are read; a
    missing key is a [KeyError]. *)
Record message := {
  m_role : option str;
  m_content : option str
}.

(** [f"{role}: {msg['content']}"]. *)
Definition context_line (msg : message) : exc str :=
  match m_role msg, m_content msg with
  | Some role, Some content =>
      Ok ((if bool_decide (role = of_string "user")
           then of_string "Nutzer" else of_string "Assistent")
          ++ of_string ": " ++ content)
  | _, _ => Raise
  end.

Fixpoint context_lines (msgs : list message) : exc (list str) :=
  match msgs with
  | [] => Ok []
  | msg :: rest =>
      match context_line msg with
      | Raise => Raise
      | Ok line =>
          match context_lines rest with
          | Raise => Raise
          | Ok lines => Ok (line :: lines)
          end
      end
  end.

Definition get_conversation_context (conversation_history : list message)
  (current_question : str) : exc str :=
  match context_lines
          (slice conversation_history (-3) (len conversation_history)) with
  | Raise => Raise
  | Ok lines =>
      Ok (join [newline]
            ([of_string "Bisherige Konversation:"] ++ lines
             ++ [[newline] ++ of_string "Aktuelle Frage: "
                 ++ current_question]))
  end.

End Conversation.

(** ** The question endpoint ([web_app.py], [/api/qa/ask]) *)

Module WebAppAsk.

Import VectorStore QASystem WebApp.
Open Scope py_scope.

Record ask_request := {
  ar_question : option str;
  ar_n_context_docs : option Z;
  ar_filters : request_filters
}.

Inductive ask_response :=
| Answered (result : answered_query)
| Rejected (status : Z).

Definition no_documents_with_filters : str :=
  of_string "Ich konnte keine relevanten Dokumente mit den angegebenen Filtern finden.".

Section WithServices.
Variable svc : services.
Variable rt : runtime.

(** The documents the endpoint retrieves, before its post-filter. *)
Definition retrieve (question : str) (n_context_docs : Z)
  (filters : request_filters) : M (list search_result) :=
  let chroma_filters :=
    if has_keys filters
    then Some {| w_document_type := rf_document_type filters;
                 w_correspondent := rf_correspondent filters |}
    else None in
  if USE_MULTI_QUERY svc then
    relevant_docs <- search_documents_multi svc rt question
                       (n_context_docs * 2) true chroma_filters ;;
    ret (slice_to relevant_docs n_context_docs)
  else search_documents svc rt question n_context_docs chroma_filters.

(** The endpoint builds context and sources itself, with the loop of
    [answer_question] and sources always on. *)
Definition ask_question (data : ask_request) : M ask_response :=
  try_except
    (let n_context_docs := dict_get (ar_n_context_docs data) 3%Z in
     let filters := ar_filters data in
     match ar_question data with
     | None | Some [] => ret (Rejected 400)
     | Some question =>
         qa <- get_qa_services svc ;;
         if negb qa then ret (Rejected 500)
         else
           relevant_docs <- retrieve question n_context_docs filters ;;
           let relevant_docs := post_filter filters relevant_docs in
           match relevant_docs with
           | [] =>
               ret (Answered {| answer := no_documents_with_filters;
                                sources := [];
                                confidence_of := low |})
           | _ :: _ =>
               collected <- lift_exc (collect_context true
                                        (enumerate 1 relevant_docs)) ;;
               let '(context_parts, sources) := collected in
               let context := join [newline; newline] context_parts in
               let prompt := rag_prompt rt question context in
               answer <- ask (EvGenerate prompt (7 # 10))
                           (ollama_generate svc prompt (7 # 10)) ;;
               if negb (truthy answer) then
                 ret (Answered {| answer := could_not_generate;
                                  sources := sources;
                                  confidence_of := low |})
               else
                 confidence <- lift_exc (_estimate_confidence rt
                                           relevant_docs answer) ;;
                 ret (Answered {| answer := strip answer;
                                  sources := sources;
                                  confidence_of := confidence |})
           end
     end)
    (ret (Rejected 500)).

End WithServices.

(** A request to the question endpoint for invoices of 2024. *)
Definition year_question : ask_request :=
  {| ar_question := Some Fixtures.year_query;
     ar_n_context_docs := Some 3%Z;
     ar_filters := sr_filters Fixtures.year_request |}.

End WebAppAsk.

(** * Facts *)

(** ** Strings *)

Module PyFacts.

Lemma lstrip_head (s : str) (x : N) :
  head (lstrip s) = Some x -> isspace x = false.
Proof.
  induction s as [|c s IH]; simpl; [discriminate|].
  destruct (isspace c) eqn:E; [exact IH|].
  simpl. intros [= <-]. exact E.
Qed.

Lemma lstrip_snoc (s : str) (x : N) :
  isspace x = false -> lstrip (s ++ [x]) = lstrip s ++ [x].
Proof.
  intros Hx. induction s as [|c s IH]; simpl.
  - now rewrite Hx.
  - destruct (isspace c); [exact IH|reflexivity].
Qed.

Lemma rstrip_cons (x : N) (s : str) :
  isspace x = false -> rstrip (x :: s) = x :: rstrip s.
Proof.
  intros Hx. unfold rstrip. simpl.
  rewrite lstrip_snoc by exact Hx.
  now rewrite rev_app_distr.
Qed.

Lemma lstrip_all_space (s : str) :
  lstrip s = [] <-> forallb isspace s = true.
Proof.
  induction s as [|c s IH]; simpl; [tauto|].
  destruct (isspace c); simpl; [exact IH|].
  split; discriminate.
Qed.

Lemma forallb_rev {A} (p : A -> bool) (l : list A) :
  forallb p (rev l) = forallb p l.
Proof.
  induction l as [|a l IH]; simpl; [reflexivity|].
  rewrite forallb_app, IH. simpl. rewrite andb_true_r. apply andb_comm.
Qed.

Lemma lstrip_suffix (s : str) : exists pre, s = pre ++ lstrip s /\ forallb isspace pre = true.
Proof.
  induction s as [|c s [pre [E Hp]]]; simpl.
  - now exists [].
  - destruct (isspace c) eqn:Ec.
    + exists (c :: pre). simpl. rewrite Ec, Hp. split; [now f_equal|reflexivity].
    + now exists [].
Qed.

(** The result of [strip] starts and ends on a non-whitespace code
    point. *)
Lemma strip_trimmed (s : str) : Chunker.trimmed (strip s).
Proof.
  unfold Chunker.trimmed, strip. split; intros x Hx.
  - destruct (lstrip s) as [|c t] eqn:E.
    + vm_compute in Hx. discriminate.
    + assert (Hc : isspace c = false) by (apply (lstrip_head s); now rewrite E).
      rewrite rstrip_cons in Hx by exact Hc. simpl in Hx. now injection Hx as <-.
  - unfold rstrip in Hx. rewrite rev_involutive in Hx.
    now apply lstrip_head in Hx.
Qed.

(** [strip] leaves nothing exactly when all is whitespace. *)
Lemma strip_nil_iff (s : str) :
  strip s = [] <-> forallb isspace s = true.
Proof.
  unfold strip, rstrip. split.
  - intros H. apply (f_equal (@rev N)) in H. rewrite rev_involutive in H. simpl in H.
    apply lstrip_all_space in H. rewrite forallb_rev in H.
    destruct (lstrip_suffix s) as [pre [E Hp]].
    rewrite E, forallb_app, Hp, H. reflexivity.
  - intros H. apply lstrip_all_space in H. rewrite H. reflexivity.
Qed.

Lemma rfind_from_bounds (c : N) (s : str) (i last : Z) :
  (-1 <= last < i)%Z ->
  (-1 <= rfind_from c s i last < i + len s)%Z.
Proof.
  revert i last. induction s as [|x s IH]; intros i last H; simpl.
  - unfold len; simpl. lia.
  - unfold len in *. simpl length. rewrite Nat2Z.inj_succ.
    destruct (N.eqb x c).
    + specialize (IH (i + 1)%Z i). lia.
    + specialize (IH (i + 1)%Z last). lia.
Qed.

Lemma rfind_bounds (c : N) (s : str) : (-1 <= rfind c s < len s)%Z.
Proof.
  unfold rfind. pose proof (rfind_from_bounds c s 0 (-1)). lia.
Qed.

Lemma len_nonneg {A} (s : list A) : (0 <= len s)%Z.
Proof. unfold len. lia. Qed.

(** A slice between two bounds inside the list. *)
Lemma slice_inside {A} (s : list A) (a b : Z) :
  (0 <= a <= len s)%Z -> (0 <= b <= len s)%Z ->
  slice s a b = firstn (Z.to_nat (b - a)) (skipn (Z.to_nat a) s).
Proof.
  intros Ha Hb. unfold slice, adjust_index.
  destruct (Z.ltb_spec a 0); [lia|]. destruct (Z.ltb_spec b 0); [lia|].
  now rewrite !Z.min_l by lia.
Qed.

(** An upper bound past the end cuts at the end. *)
Lemma slice_clamp {A} (s : list A) (a b : Z) :
  (0 <= b)%Z -> slice s a b = slice s a (Z.min b (len s)).
Proof.
  intros Hb. pose proof (len_nonneg s). unfold slice, adjust_index.
  destruct (Z.ltb_spec b 0); [lia|].
  destruct (Z.ltb_spec (Z.min b (len s)) 0); [lia|].
  now rewrite Z.min_l with (n := Z.min b (len s)) by lia.
Qed.

Lemma len_slice {A} (s : list A) (a b : Z) :
  (0 <= a <= len s)%Z -> (a <= b <= len s)%Z -> len (slice s a b) = (b - a)%Z.
Proof.
  intros Ha Hb. rewrite slice_inside by lia. unfold len in *.
  rewrite length_firstn, length_skipn. lia.
Qed.

(** Cutting a slice again from its start. *)
Lemma slice_to_slice {A} (s : list A) (a b k : Z) :
  (0 <= a <= len s)%Z -> (a <= b <= len s)%Z -> (0 <= k <= b - a)%Z ->
  slice_to (slice s a b) k = slice s a (a + k).
Proof.
  intros Ha Hb Hk. unfold slice_to.
  rewrite (slice_inside (slice s a b)) by (rewrite len_slice; lia).
  rewrite !slice_inside by lia.
  change (Z.to_nat 0) with 0%nat. rewrite drop_0.
  rewrite firstn_firstn. f_equal. lia.
Qed.

End PyFacts.

(** ** Calls that always return *)

Module EffectFacts.

Lemma returns_ret {A} (a : A) : returns (ret a).
Proof. intros w. now exists a, w. Qed.

Lemma returns_bind {A B} (m : M A) (k : A -> M B) :
  returns m -> (forall a, returns (k a)) -> returns (bind m k).
Proof.
  intros Hm Hk w. unfold bind.
  destruct (Hm w) as (a & w1 & ->). apply Hk.
Qed.

(** A [try] whose handler returns never lets an exception through. *)
Lemma returns_try_except {A} (m handler : M A) :
  returns handler -> returns (try_except m handler).
Proof.
  intros Hh w. unfold try_except.
  destruct (m w) as [[a|] w1]; [now exists a, w1|apply Hh].
Qed.

Lemma returns_ask {A} (ev : event) (f : list event -> A) :
  returns (ask ev (fun h => Ok (f h))).
Proof. intros w. unfold ask. now eexists _, _. Qed.

Lemma returns_for_each {A S} (items : list A) (body : A -> S -> M S) (acc : S) :
  (forall x acc, returns (body x acc)) -> returns (for_each items body acc).
Proof.
  intros Hb. revert acc. induction items as [|x items IH]; intros acc; simpl.
  - apply returns_ret.
  - apply returns_bind; [apply Hb|apply IH].
Qed.

Lemma for_each_cons {A S} (x : A) (rest : list A) (body : A -> S -> M S)
  (acc : S) (w : world) :
  for_each (x :: rest) body acc w
  = match body x acc w with
    | (Ok acc', w') => for_each rest body acc' w'
    | (Raise, w') => (Raise, w')
    end.
Proof. reflexivity. Qed.

Lemma returns_if {A} (b : bool) (m1 m2 : M A) :
  returns m1 -> returns m2 -> returns (if b then m1 else m2).
Proof. now destruct b. Qed.

Lemma post_ret {A} (a : A) (Q : A -> Prop) : Q a -> post (ret a) Q.
Proof. intros H w a' w' [= <- _]. exact H. Qed.

Lemma post_raise {A} (Q : A -> Prop) : post raise Q.
Proof. intros w a w' [=]. Qed.

Lemma post_bind {A B} (m : M A) (k : A -> M B) (Q : B -> Prop) :
  (forall a, post (k a) Q) -> post (bind m k) Q.
Proof.
  intros Hk w b w'. unfold bind.
  destruct (m w) as [[a|] w1]; [apply Hk|discriminate].
Qed.

Lemma post_bind_with {A B} (m : M A) (k : A -> M B) (P : A -> Prop)
  (Q : B -> Prop) :
  post m P -> (forall a, P a -> post (k a) Q) -> post (bind m k) Q.
Proof.
  intros Hm Hk w b w'. unfold bind.
  destruct (m w) as [[a|] w1] eqn:E; [|discriminate].
  apply Hk. now apply (Hm w a w1).
Qed.

Lemma post_try_except {A} (m handler : M A) (Q : A -> Prop) :
  post m Q -> post handler Q -> post (try_except m handler) Q.
Proof.
  intros Hm Hh w a w'. unfold try_except.
  destruct (m w) as [[a1|] w1] eqn:E.
  - intros [= <- _]. now apply (Hm w a1 w1).
  - apply Hh.
Qed.

Lemma post_ask {A} (ev : event) (oracle : list event -> exc A)
  (Q : A -> Prop) :
  (forall h a, oracle h = Ok a -> Q a) -> post (ask ev oracle) Q.
Proof. intros H w a w'. unfold ask. intros [= E _]. now apply (H (history w)). Qed.

Lemma post_lift_exc {A} (e : exc A) (Q : A -> Prop) :
  (forall a, e = Ok a -> Q a) -> post (lift_exc e) Q.
Proof. intros H w a w'. unfold lift_exc. intros [= E _]. now apply H. Qed.

Lemma post_weaken {A} (m : M A) (P Q : A -> Prop) :
  post m P -> (forall a, P a -> Q a) -> post m Q.
Proof. intros Hm H w a w' E. apply H. now apply (Hm w a w'). Qed.

(** A loop whose body keeps an invariant of the accumulator. *)
Lemma post_for_each {A S} (items : list A) (body : A -> S -> M S)
  (Inv : S -> Prop) (acc : S) :
  (forall x acc, Inv acc -> post (body x acc) Inv) ->
  Inv acc -> post (for_each items body acc) Inv.
Proof.
  intros Hb. revert acc. induction items as [|x items IH]; intros acc Hacc; simpl.
  - now apply post_ret.
  - apply post_bind_with with (P := Inv); [now apply Hb|apply IH].
Qed.

End EffectFacts.

(** ** Chunker *)

Module ChunkerFacts.

Import Chunker PyFacts.
Open Scope Z_scope.

(** Under advancing parameters one pass of the loop cuts a non-empty
    piece and moves the window forward. *)
Lemma window_spec (text : str) (chunk_size overlap start : Z) :
  0 <= start < len text -> advancing chunk_size overlap ->
  piece_of text (fst (window text chunk_size overlap start)) /\
  start < snd (window text chunk_size overlap start).
Proof.
  intros Hs (Hcs & Hov & Hhalf). unfold window.
  set (w := slice text start (start + chunk_size)).
  destruct (Z.ltb_spec (start + chunk_size) (len text)) as [Hin|Hout].
  - assert (Hw : len w = chunk_size) by (unfold w; rewrite len_slice; lia).
    set (sp := Z.max (rfind dot w) (rfind newline w)).
    assert (Hsp : -1 <= sp < chunk_size).
    { pose proof (rfind_bounds dot w). pose proof (rfind_bounds newline w).
      unfold sp. lia. }
    destruct (Z.ltb_spec chunk_size (2 * sp)) as [Hadj|Hraw]; simpl.
    + split; [|lia].
      exists start, (start + (sp + 1)). repeat split; try lia.
      unfold w. rewrite slice_to_slice by lia. reflexivity.
    + split; [|lia].
      exists start, (start + chunk_size). repeat split; try lia.
  - simpl. split; [|lia].
    exists start, (len text). repeat split; try lia.
    fold w. unfold w. rewrite slice_clamp by lia. now rewrite Z.min_r by lia.
Qed.

Lemma chunk_loop_pieces (text : str) (chunk_size overlap : Z) :
  advancing chunk_size overlap ->
  forall fuel start chunks,
    0 <= start ->
    chunk_loop fuel text chunk_size overlap start = Some chunks ->
    Forall (fun c => trimmed c /\ piece_of text c) chunks.
Proof.
  intros Hadv. induction fuel as [|fuel IH]; intros start chunks Hs; simpl.
  - discriminate.
  - destruct (Z.ltb_spec start (len text)) as [Hlt|Hge].
    + pose proof (window_spec text chunk_size overlap start (conj Hs Hlt) Hadv)
        as [Hpiece Hnext].
      destruct (window text chunk_size overlap start) as [c next] eqn:Ew.
      simpl in Hpiece, Hnext.
      destruct (chunk_loop fuel text chunk_size overlap next) as [rest|] eqn:Er;
        [|discriminate].
      intros [= <-]. constructor.
      * split; [|exact Hpiece].
        destruct Hpiece as (a & b & _ & _ & ->). apply strip_trimmed.
      * apply (IH next); [lia|exact Er].
    + intros [= <-]. constructor.
Qed.

Lemma chunk_loop_returns (text : str) (chunk_size overlap : Z) :
  advancing chunk_size overlap ->
  forall fuel start,
    0 <= start -> Z.max 0 (len text - start) < Z.of_nat fuel ->
    exists chunks, chunk_loop fuel text chunk_size overlap start = Some chunks.
Proof.
  intros Hadv. induction fuel as [|fuel IH]; intros start Hs Hfuel.
  - simpl in Hfuel. lia.
  - simpl. destruct (Z.ltb_spec start (len text)) as [Hlt|Hge].
    + pose proof (window_spec text chunk_size overlap start (conj Hs Hlt) Hadv)
        as [_ Hnext].
      destruct (window text chunk_size overlap start) as [c next].
      simpl in Hnext.
      destruct (IH next) as [rest ->]; [lia|lia|]. now eexists.
    + now eexists.
Qed.

(** The windowed path yields at least one chunk. *)
Lemma chunk_loop_nonempty (text : str) (chunk_size overlap : Z) (fuel : nat)
  (chunks : list str) :
  0 < len text ->
  chunk_loop fuel text chunk_size overlap 0 = Some chunks -> chunks <> [].
Proof.
  intros Hlen. destruct fuel as [|fuel]; simpl; [discriminate|].
  destruct (Z.ltb_spec 0 (len text)); [|lia].
  destruct (window text chunk_size overlap 0) as [c next].
  destruct (chunk_loop fuel text chunk_size overlap next); [|discriminate].
  now intros [= <-].
Qed.

(** With the indexer's policy the chunker returns, and never the empty
    list. *)
Lemma chunk_policy_returns (content : str) :
  exists chunks,
    _chunk_text (S (length content)) content 1500 200 = Some chunks /\
    chunks <> [].
Proof.
  unfold _chunk_text.
  destruct (negb (truthy content) || (len content <=? 1500)) eqn:E.
  - now eexists.
  - destruct (chunk_loop_returns content 1500 200 ltac:(unfold advancing; lia)
                (S (length content)) 0 ltac:(lia) ltac:(unfold len; lia))
      as [chunks H].
    exists chunks. split; [exact H|].
    apply (chunk_loop_nonempty content 1500 200 (S (length content))); [|exact H].
    apply orb_false_iff in E as [_ E]. apply Z.leb_gt in E. lia.
Qed.

Lemma chunk_loop_unfold (fuel : nat) (text : str)
  (chunk_size overlap start : Z) :
  chunk_loop (S fuel) text chunk_size overlap start =
  if start <? len text then
    match chunk_loop fuel text chunk_size overlap
            (snd (window text chunk_size overlap start)) with
    | Some chunks => Some (fst (window text chunk_size overlap start) :: chunks)
    | None => None
    end
  else Some [].
Proof.
  simpl. destruct (start <? len text); [|reflexivity].
  now destruct (window text chunk_size overlap start).
Qed.

(** C3, as stated, fails: a text that fits one window is returned with
    its surrounding whitespace, and a window of whitespace yields an empty
    chunk. *)
Lemma chunk_text_keeps_whitespace :
  (exists chunks,
     _chunk_text 1 (of_string " a") 10 2 = Some chunks /\
     ~ spec_chunks (of_string " a") 10 chunks) /\
  (exists chunks,
     _chunk_text 4 (of_string "a    b") 2 0 = Some chunks /\
     ~ spec_chunks (of_string "a    b") 2 chunks).
Proof.
  split.
  - exists [of_string " a"]. split; [reflexivity|].
    intros [_ H]. specialize (H ltac:(vm_compute; discriminate)).
    vm_compute in H. discriminate.
  - exists [of_string "a"; []; of_string "b"]. split; [reflexivity|].
    intros [H _]. inversion H as [|? ? _ H1]; subst.
    inversion H1 as [|? ? [Hne _] _]; subst. now apply Hne.
Qed.

(** C3, amended: a text that fits one window (or is empty) comes back
    as exactly one chunk, the input up to surrounding whitespace; for a
    longer text, under advancing parameters, the chunker returns a
    non-empty list of chunks, each the stripped form of a non-empty
    contiguous piece of the text, so each is free of leading and trailing
    whitespace. *)
Theorem chunk_text_shape (text : str) (chunk_size overlap : Z) :
  (text = [] \/ len text <= chunk_size ->
   forall fuel, exists c,
     _chunk_text fuel text chunk_size overlap = Some [c] /\
     strip c = strip text) /\
  (text <> [] -> chunk_size < len text -> advancing chunk_size overlap ->
   exists chunks,
     _chunk_text (S (length text)) text chunk_size overlap = Some chunks /\
     chunks <> [] /\
     Forall (fun c => trimmed c /\ piece_of text c) chunks).
Proof.
  split.
  - intros H fuel. exists text. split; [|reflexivity]. unfold _chunk_text.
    destruct H as [-> | H]; [reflexivity|].
    apply Z.leb_le in H. rewrite H. now rewrite orb_true_r.
  - intros Hne Hlong Hadv. unfold _chunk_text.
    destruct text as [|x text]; [contradiction|]. simpl negb.
    apply Z.leb_gt in Hlong. rewrite Hlong. simpl orb.
    set (t := x :: text) in *.
    destruct (chunk_loop_returns t chunk_size overlap Hadv (S (length t)) 0
                ltac:(lia) ltac:(unfold len; lia)) as [chunks H].
    exists chunks. split; [exact H|]. split.
    + apply (chunk_loop_nonempty t chunk_size overlap (S (length t)));
        [unfold len, t; simpl length; lia|exact H].
    + apply (chunk_loop_pieces t chunk_size overlap Hadv (S (length t)) 0);
        [lia|exact H].
Qed.

(** A chunk is empty exactly when the piece it was cut from is all
    whitespace. *)
Lemma piece_empty_iff (text : str) (a b : Z) :
  strip (slice text a b) = [] <-> forallb isspace (slice text a b) = true.
Proof. apply strip_nil_iff. Qed.

Lemma chunk_text_shape_witness :
  (exists c,
     _chunk_text 1 (of_string "ab") 2 0 = Some [c] /\
     strip c = strip (of_string "ab")) /\
  (exists chunks,
     _chunk_text 7 (of_string "a    b") 2 0 = Some chunks /\
     chunks <> [] /\
     Forall (fun c => trimmed c /\ piece_of (of_string "a    b") c) chunks).
Proof.
  split.
  - apply (proj1 (chunk_text_shape (of_string "ab") 2 0)
             ltac:(right; vm_compute; discriminate) 1%nat).
  - apply (proj2 (chunk_text_shape (of_string "a    b") 2 0)).
    + discriminate.
    + reflexivity.
    + unfold advancing. repeat split; vm_compute; congruence.
Defined.

(** C4: with [overlap = 4] below [chunk_size = 5] the chunker does not
    return on the text [abc.efghij]: the first window is cut back to the
    period at index 3, so the next window starts at [4 - 4 = 0] again. *)
Theorem chunk_text_stalls :
  (4 < 5)%Z /\
  window (of_string "abc.efghij") 5 4 0 = (of_string "abc.", 0) /\
  forall fuel, _chunk_text fuel (of_string "abc.efghij") 5 4 = None.
Proof.
  split; [reflexivity|]. split; [reflexivity|].
  intros fuel. unfold _chunk_text.
  change (negb (truthy (of_string "abc.efghij"))
          || (len (of_string "abc.efghij") <=? 5)) with false.
  cbv iota.
  induction fuel as [|fuel IH]; [reflexivity|].
  rewrite chunk_loop_unfold.
  change (snd (window (of_string "abc.efghij") 5 4 0)) with 0.
  rewrite IH. reflexivity.
Qed.

End ChunkerFacts.

(** ** Confidence and relevance *)

Module ScoringFacts.

Import VectorStore QASystem PyFacts.
Import PrimFloat.

Lemma slice_to_firstn {A} (l : list A) (k : Z) :
  (0 <= k)%Z -> slice_to l k = firstn (Z.to_nat k) l.
Proof.
  intros Hk. pose proof (len_nonneg l) as Hl. unfold slice_to, slice, adjust_index.
  simpl (0 <? 0)%Z. cbv iota.
  destruct (Z.ltb_spec k 0); [lia|].
  rewrite (Z.min_l 0) by lia. change (Z.to_nat 0) with 0%nat. rewrite drop_0.
  rewrite Z.sub_0_r.
  destruct (Z.le_gt_cases k (len l)).
  - now rewrite Z.min_l by lia.
  - rewrite Z.min_r by lia. unfold len in *.
    rewrite !firstn_all2 by lia. reflexivity.
Qed.

Lemma len_map {A B} (f : A -> B) (l : list A) : len (map f l) = len l.
Proof. unfold len. now rewrite length_map. Qed.

Lemma numbers_some (ds : list Q) : numbers (map Some ds) = Ok ds.
Proof.
  induction ds as [|d ds IH]; [reflexivity|]. cbn [map numbers number].
  now rewrite IH.
Qed.

Lemma startswith_iff (s p : str) :
  startswith s p = true <-> exists rest, s = p ++ rest.
Proof.
  revert s. induction p as [|x p IH]; intros s.
  - split; [intros _; now exists s|intros _; now destruct s].
  - destruct s as [|y s]; cbn [startswith].
    + split; [discriminate|intros (rest & H); discriminate].
    + rewrite andb_true_iff, N.eqb_eq, IH. split.
      * intros (-> & rest & ->). now exists rest.
      * intros (rest & [= -> ->]). split; [reflexivity|now exists rest].
Qed.

Lemma contains_iff (s p : str) :
  contains s p = true <-> exists pre post, s = pre ++ p ++ post.
Proof.
  induction s as [|y s IH].
  - cbn [contains]. rewrite orb_false_r, startswith_iff. split.
    + intros (rest & H). now exists [], rest.
    + intros (pre & post & H). symmetry in H.
      apply app_eq_nil in H as (-> & H). apply app_eq_nil in H as (-> & ->).
      now exists [].
  - cbn [contains]. rewrite orb_true_iff, startswith_iff, IH. split.
    + intros [(rest & ->)|(pre & post & ->)].
      * now exists [], rest.
      * now exists (y :: pre), post.
    + intros ([|z pre] & post & H).
      * left. now exists post.
      * right. injection H as -> ->. now exists pre, post.
Qed.

(** The answer counts as negative exactly when its lowercased text
    contains one of the phrases. *)
Lemma has_negative_iff (rt : runtime) (answer : str) :
  has_negative rt answer = true <-> Spec.says_no (lower rt answer).
Proof.
  unfold has_negative, Spec.says_no. rewrite existsb_exists. split.
  - intros (phrase & Hin & H). apply contains_iff in H as (pre & post & H).
    now exists phrase, pre, post.
  - intros (phrase & pre & post & Hin & H). exists phrase. split; [exact Hin|].
    apply contains_iff. now exists pre, post.
Qed.

Lemma count_points_len {A} (l : list A) :
  (if (3 <=? len l)%Z then 15 else if (2 <=? len l)%Z then 10 else 5)%Z
  = Spec.count_points (length l).
Proof.
  unfold Spec.count_points, len.
  destruct l as [|a [|b [|c l]]]; try reflexivity.
  change (length (a :: b :: c :: l)) with (S (S (S (length l)))).
  destruct (Z.leb_spec 3 (Z.of_nat (S (S (S (length l)))))); [reflexivity|lia].
Qed.

Lemma answer_points_len (negative : bool) (answer : str) :
  (if negative then 0
   else if (100 <? len answer)%Z then 15
   else if (50 <? len answer)%Z then 10 else 5)%Z
  = Spec.answer_points negative (length answer).
Proof.
  unfold Spec.answer_points, len. destruct negative; [reflexivity|].
  destruct (Z.ltb_spec 100 (Z.of_nat (length answer))),
           (Nat.ltb_spec 100 (length answer)); try lia; try reflexivity.
  destruct (Z.ltb_spec 50 (Z.of_nat (length answer))),
           (Nat.ltb_spec 50 (length answer)); try lia; reflexivity.
Qed.

(** The estimator computes what the specification's table gives,
    whenever every result carries a number as its distance (1.0 standing
    in for a missing key). The percentage the source derives from the
    score is computed in binary64 here as there, for each of the scores
    the table can give. *)
Lemma estimate_refines (rt : runtime) (docs : list search_result)
  (ds : list Q) (answer : str) :
  map (fun doc => dict_get (r_distance doc) (Some 1%Q)) docs = map Some ds ->
  _estimate_confidence rt docs answer
  = Ok (Spec.estimate rt ds (has_negative rt answer) (length answer)).
Proof.
  intros Hds. destruct docs as [|best docs], ds as [|b ds]; try discriminate.
  - reflexivity.
  - unfold _estimate_confidence, Spec.estimate, py_sum.
    rewrite slice_to_firstn by lia.
    rewrite <- firstn_map, Hds, firstn_map, numbers_some.
    injection Hds as Hb Hrest. rewrite Hb. cbn [number].
    change (Z.to_nat 3) with 3%nat.
    rewrite len_map. set (top := firstn 3 (b :: ds)).
    change (PrimFloat.div (float_sum rt (map PyFloat.of_Q top))
              (PyFloat.of_int (len top)))
      with (Spec.average rt top).
    set (avg := Spec.average rt top). set (bd := PyFloat.of_Q b).
    assert (Hlen : length (best :: docs) = length (b :: ds)).
    { simpl. f_equal.
      rewrite <- (length_map (fun doc => dict_get (r_distance doc) (Some 1%Q)) docs),
        Hrest.
      apply length_map. }
    rewrite <- Hlen, <- (count_points_len (best :: docs)),
      <- (answer_points_len (has_negative rt answer) answer).
    cbv zeta. unfold Spec.level, Spec.avg_points, Spec.best_points.
    destruct (PrimFloat.ltb avg 0.3%float), (PrimFloat.ltb avg 0.5%float),
      (PrimFloat.ltb avg 0.7%float), (PrimFloat.ltb bd 0.2%float), (PrimFloat.ltb bd 0.4%float),
      (PrimFloat.ltb bd 0.6%float), (3 <=? len (best :: docs))%Z,
      (2 <=? len (best :: docs))%Z, (has_negative rt answer),
      (100 <? len answer)%Z, (50 <? len answer)%Z; reflexivity.
Qed.

(** The scenario of the specification: a best distance below 0.2 (0.1
    there), a top-3 average below 0.3 (0.2 there), three results, 150
    characters, no negative phrase. *)
Lemma spec_estimate_scenario (rt : runtime) (b x y : Q) :
  PrimFloat.ltb (PyFloat.of_Q b) 0.2%float = true ->
  PrimFloat.ltb (Spec.average rt [b; x; y]) 0.3%float = true ->
  Spec.estimate rt [b; x; y] false 150 = high.
Proof.
  intros Hb Havg. unfold Spec.estimate.
  change (firstn 3 [b; x; y]) with [b; x; y].
  unfold Spec.avg_points, Spec.best_points. rewrite Hb, Havg. reflexivity.
Qed.

(** C5: no results give [low]; otherwise the estimator adds the four
    factor scores of the specification's table and maps a total of 70 or
    more to [high], of 45 or more to [medium], anything else to [low].
    The answer earns nothing exactly when its lowercased text contains a
    negative phrase. The scenario with best distance 0.1, top-3 average
    0.2 (any best below 0.2 and average below 0.3), three results and a
    150-character answer free of negative phrases gives [high]. The
    distances are those the results carry, 1.0 for a missing key; their
    average is the one the interpreter computes, in binary64. *)
Theorem estimate_confidence_table (rt : runtime) :
  (forall answer, _estimate_confidence rt [] answer = Ok low) /\
  (forall answer,
     has_negative rt answer = true <-> Spec.says_no (lower rt answer)) /\
  (forall docs ds answer,
     map (fun doc => dict_get (r_distance doc) (Some 1%Q)) docs = map Some ds ->
     _estimate_confidence rt docs answer
     = Ok (Spec.estimate rt ds (has_negative rt answer) (length answer))) /\
  (forall d1 d2 d3 b x y answer,
     map (fun doc => dict_get (r_distance doc) (Some 1%Q)) [d1; d2; d3]
     = map Some [b; x; y] ->
     PrimFloat.ltb (PyFloat.of_Q b) 0.2%float = true ->
     PrimFloat.ltb (Spec.average rt [b; x; y]) 0.3%float = true ->
     length answer = 150%nat -> ~ Spec.says_no (lower rt answer) ->
     _estimate_confidence rt [d1; d2; d3] answer = Ok high).
Proof.
  split; [reflexivity|]. split; [apply has_negative_iff|]. split.
  - intros docs ds answer H. now apply estimate_refines.
  - intros d1 d2 d3 b x y answer H Hb Havg Hlen Hneg.
    rewrite (estimate_refines rt _ _ answer H), Hlen.
    destruct (has_negative rt answer) eqn:E.
    + now apply has_negative_iff in E.
    + now rewrite spec_estimate_scenario.
Qed.

(** The table on sample results: the scenario of the specification; an
    answer that says "nicht gefunden" and falls from [high] to [medium]
    for it; and three results at 0.7 each, whose float average lies just
    below 0.7. *)
Lemma estimate_confidence_table_witness :
  _estimate_confidence Fixtures.ascii_runtime
    [Fixtures.hit_at (1 # 10); Fixtures.hit_at (2 # 10); Fixtures.hit_at (3 # 10)]
    Fixtures.long_answer = Ok high /\
  (_estimate_confidence Fixtures.ascii_runtime
     [Fixtures.hit_at (3 # 10); Fixtures.hit_at (4 # 10);
      Fixtures.hit_at (5 # 10)]
     Fixtures.long_answer = Ok high /\
   _estimate_confidence Fixtures.ascii_runtime
     [Fixtures.hit_at (3 # 10); Fixtures.hit_at (4 # 10);
      Fixtures.hit_at (5 # 10)]
     (Fixtures.long_answer ++ of_string " Nicht gefunden.") = Ok medium) /\
  _estimate_confidence Fixtures.ascii_runtime
    [Fixtures.hit_at (7 # 10); Fixtures.hit_at (7 # 10); Fixtures.hit_at (7 # 10)]
    Fixtures.long_answer = Ok medium.
Proof.
  pose proof (estimate_confidence_table Fixtures.ascii_runtime)
    as (_ & Hneg & H2 & H3).
  split; [|split; [split|]].
  - apply (H3 _ _ _ (1 # 10) (2 # 10) (3 # 10)); try reflexivity.
    intros H. apply Hneg in H. vm_compute in H. discriminate.
  - rewrite (H2 [Fixtures.hit_at (3 # 10); Fixtures.hit_at (4 # 10);
                 Fixtures.hit_at (5 # 10)]
               [3 # 10; 4 # 10; 5 # 10] _ eq_refl).
    vm_compute. reflexivity.
  - rewrite (H2 [Fixtures.hit_at (3 # 10); Fixtures.hit_at (4 # 10);
                 Fixtures.hit_at (5 # 10)]
               [3 # 10; 4 # 10; 5 # 10] _ eq_refl).
    vm_compute. reflexivity.
  - rewrite (H2 [Fixtures.hit_at (7 # 10); Fixtures.hit_at (7 # 10);
                 Fixtures.hit_at (7 # 10)]
               [7 # 10; 7 # 10; 7 # 10] _ eq_refl).
    vm_compute. reflexivity.
Defined.

(** Away from zero the score is [1 - distance/2]. *)
Lemma relevance_score_nonzero (doc : search_result) (d : Q) :
  r_distance doc = Some (Some d) -> ~ (d == 0)%Q ->
  relevance_score doc = Ok (Some (1 - d / 2)%Q).
Proof.
  intros H Hd. unfold relevance_score. rewrite H. simpl.
  destruct (Qeq_bool d 0) eqn:E; [|reflexivity].
  now apply Qeq_bool_eq in E.
Qed.

(** C8: a hit at distance 0 has its distance available, yet its
    source entry carries no relevance score; [1 - 0/2] is 1. *)
Theorem relevance_score_zero_distance :
  relevance_score (Fixtures.hit_at 0) = Ok None /\
  option_map s_relevance_score
    (match source_of (Fixtures.hit_at 0) with
     | Ok src => Some src
     | Raise => None
     end) = Some None /\
  (1 - 0 / 2 == 1)%Q.
Proof. repeat split. Qed.

End ScoringFacts.

(** ** Deduplication and ranking *)

Module MergeFacts.

Import VectorStore QASystem PyFacts ScoringFacts.

Lemma insert_by_key_perm (kx : Q * search_result) (l : list (Q * search_result)) :
  Permutation (insert_by_key kx l) (kx :: l).
Proof.
  induction l as [|ky l IH]; simpl; [reflexivity|].
  destruct (Qle_bool (fst kx) (fst ky)); [reflexivity|].
  rewrite IH. apply perm_swap.
Qed.

Lemma stable_sort_perm (l : list (Q * search_result)) :
  Permutation (stable_sort l) l.
Proof.
  induction l as [|kx l IH]; simpl; [reflexivity|].
  now rewrite insert_by_key_perm, IH.
Qed.

Lemma insert_by_key_sorted (kx : Q * search_result) (l : list (Q * search_result)) :
  StronglySorted by_key l -> StronglySorted by_key (insert_by_key kx l).
Proof.
  induction l as [|ky l IH]; intros Hs; simpl.
  - repeat constructor.
  - inversion Hs as [|? ? Hl Hall]; subst.
    destruct (Qle_bool (fst kx) (fst ky)) eqn:E.
    + constructor; [exact Hs|]. apply Qle_bool_iff in E.
      constructor; [exact E|].
      eapply Forall_impl; [exact Hall|]. intros z Hz. unfold by_key in *.
      now apply Qle_trans with (fst ky).
    + constructor; [now apply IH|].
      eapply Permutation_Forall; [symmetry; apply insert_by_key_perm|].
      constructor; [|exact Hall]. unfold by_key.
      apply Qlt_le_weak, Qnot_le_lt. intros H. apply Qle_bool_iff in H. congruence.
Qed.

Lemma stable_sort_sorted (l : list (Q * search_result)) :
  StronglySorted by_key (stable_sort l).
Proof.
  induction l as [|kx l IH]; simpl; [constructor|].
  now apply insert_by_key_sorted.
Qed.

Lemma sort_key_rank (r : search_result) (k : Q) :
  sort_key r = Some k -> Spec.rank r = k.
Proof.
  unfold sort_key, Spec.rank. destruct (r_distance r) as [[d|]|]; simpl; congruence.
Qed.

Lemma with_keys_spec (l : list search_result) (keyed : list (Q * search_result)) :
  with_keys l = Ok keyed ->
  map snd keyed = l /\ Forall (fun kr => Spec.rank (snd kr) = fst kr) keyed.
Proof.
  revert keyed. induction l as [|x l IH]; intros keyed; simpl.
  - intros [= <-]. now split.
  - destruct (sort_key x) as [k|] eqn:Ek; simpl; [|discriminate].
    destruct (with_keys l) as [rest|]; [|discriminate].
    intros [= <-]. destruct (IH rest eq_refl) as [Hm Hf]. split.
    + simpl. now rewrite Hm.
    + constructor; [|exact Hf]. simpl. now apply sort_key_rank.
Qed.

Lemma sorted_by_rank (keyed : list (Q * search_result)) :
  Forall (fun kr => Spec.rank (snd kr) = fst kr) keyed ->
  StronglySorted by_key keyed -> Spec.ascending (map snd keyed).
Proof.
  unfold Spec.ascending.
  induction keyed as [|kr keyed IH]; intros Hk Hs; simpl; [constructor|].
  inversion Hk as [|? ? Hkr Hrest]; subst.
  inversion Hs as [|? ? Hl Hall]; subst.
  constructor; [now apply IH|].
  apply Forall_map. rewrite Forall_forall in *.
  intros z Hz. rewrite Hkr, (Hrest z Hz). now apply Hall.
Qed.

(** When the sort returns, its result is ascending and a rearrangement
    of its input. *)
Lemma sort_by_distance_spec (l sorted : list search_result) :
  sort_by_distance l = Ok sorted ->
  Spec.ascending sorted /\ Permutation sorted l.
Proof.
  unfold sort_by_distance.
  destruct l as [|a [|b l]].
  - intros [= <-]. split; [constructor|reflexivity].
  - intros [= <-]. split; [repeat constructor|reflexivity].
  - destruct (with_keys (a :: b :: l)) as [keyed|] eqn:E; [|discriminate].
    intros [= <-]. apply with_keys_spec in E as [Hm Hf]. split.
    + apply sorted_by_rank; [|apply stable_sort_sorted].
      eapply Permutation_Forall; [symmetry; apply stable_sort_perm|exact Hf].
    + rewrite <- Hm. apply Permutation_map, stable_sort_perm.
Qed.

(** The sort returns when every result has its distance, or lacks the
    key. *)
Lemma sort_by_distance_returns (l : list search_result) :
  Forall (fun r => r_distance r <> Some None) l ->
  exists sorted, sort_by_distance l = Ok sorted.
Proof.
  intros H. unfold sort_by_distance.
  assert (Hk : exists keyed, with_keys l = Ok keyed).
  { induction H as [|x l Hx _ [keyed IH]]; simpl; [now eexists|].
    rewrite IH. unfold sort_key.
    destruct (r_distance x) as [[d|]|]; simpl; first [contradiction|now eexists]. }
  destruct Hk as [keyed ->]. destruct l as [|a [|b l]]; now eexists.
Qed.

Lemma in_firstn {A} (n : nat) (l : list A) (x : A) :
  In x (firstn n l) -> In x l.
Proof.
  intros H. rewrite <- (firstn_skipn n l). apply in_or_app. now left.
Qed.

Lemma StronglySorted_firstn {A} (R : A -> A -> Prop) (n : nat) (l : list A) :
  StronglySorted R l -> StronglySorted R (firstn n l).
Proof.
  revert n. induction l as [|x l IH]; intros n Hs.
  - now rewrite firstn_nil.
  - destruct n as [|n]; simpl; [constructor|].
    inversion Hs as [|? ? Hl Hall]; subst.
    constructor; [now apply IH|].
    rewrite List.Forall_forall in *. intros z Hz. apply Hall.
    now apply (in_firstn n).
Qed.

Lemma ascending_firstn (n : nat) (l : list search_result) :
  Spec.ascending l -> Spec.ascending (firstn n l).
Proof. apply StronglySorted_firstn. Qed.

Lemma ascending_map_rank (l : list search_result) :
  StronglySorted Qle (map Spec.rank l) -> Spec.ascending l.
Proof.
  unfold Spec.ascending. induction l as [|x l IH]; simpl; intros Hs; [constructor|].
  inversion Hs as [|? ? Hl Hall]; subst.
  constructor; [now apply IH|].
  rewrite List.Forall_forall in *. intros z Hz. apply Hall. now apply in_map.
Qed.

(** In an ascending list nothing after an item ranks below it. *)
Lemma ascending_after (pre post : list search_result) (r : search_result) :
  Spec.ascending (pre ++ r :: post) ->
  Forall (fun x => (Spec.rank r <= Spec.rank x)%Q) post.
Proof.
  unfold Spec.ascending. induction pre as [|p pre IH]; simpl; intros Hs;
    inversion Hs; subst; [assumption|now apply IH].
Qed.

Lemma dedup_in (l : list search_result) (seen : gset Z) (r : search_result) :
  In r (dedup l seen) <->
  exists pre post,
    l = pre ++ r :: post /\ (r_doc_id r ∉ seen) /\
    Forall (fun x => r_doc_id x <> r_doc_id r) pre.
Proof.
  revert seen. induction l as [|x l IH]; intros seen; simpl.
  - split; [contradiction|]. intros (pre & post & E & _). now destruct pre.
  - case_bool_decide as Hx.
    + rewrite IH. split.
      * intros (pre & post & E & Hr & Hpre). exists (x :: pre), post.
        repeat split; [now rewrite E|exact Hr|].
        constructor; [|exact Hpre]. congruence.
      * intros (pre & post & E & Hr & Hpre). destruct pre as [|y pre].
        -- injection E as Ex _. rewrite Ex in Hx. contradiction.
        -- injection E as Ex El. inversion Hpre; subst. now exists pre, post.
    + simpl. rewrite IH. split.
      * intros [E | (pre & post & E & Hr & Hpre)].
        -- exists [], l. repeat split; [now rewrite E|now rewrite <- E|constructor].
        -- apply not_elem_of_union in Hr as [Hr1 Hr2].
           apply not_elem_of_singleton in Hr1.
           exists (x :: pre), post. repeat split; [now rewrite E|exact Hr2|].
           constructor; [congruence|exact Hpre].
      * intros (pre & post & E & Hr & Hpre). destruct pre as [|y pre].
        -- injection E as Ex _. now left.
        -- injection E as Ex El. inversion Hpre as [|? ? Hy Hpre']; subst. right.
           exists pre, post. repeat split; [|exact Hpre'].
           apply not_elem_of_union. split; [|exact Hr].
           apply not_elem_of_singleton. congruence.
Qed.

Lemma dedup_nodup (l : list search_result) (seen : gset Z) :
  NoDup (map r_doc_id (dedup l seen)).
Proof.
  revert seen. induction l as [|x l IH]; intros seen; simpl.
  - constructor.
  - case_bool_decide as Hx; [apply IH|]. simpl. apply NoDup_cons. split; [|apply IH].
    rewrite list_elem_of_In, in_map_iff. intros (r & Hid & Hr).
    apply dedup_in in Hr as (_ & _ & _ & Hfresh & _).
    apply Hfresh, elem_of_union. left. apply elem_of_singleton. congruence.
Qed.

Lemma dedup_sublist (l : list search_result) (seen : gset Z) :
  sublist (dedup l seen) l.
Proof.
  revert seen. induction l as [|x l IH]; intros seen; simpl.
  - constructor.
  - case_bool_decide; [apply sublist_cons|apply sublist_skip]; apply IH.
Qed.

End MergeFacts.

(** ** Retrieval *)

Module RetrievalFacts.

Import VectorStore MetadataExtractor QASystem.
Import PyFacts EffectFacts ScoringFacts MergeFacts.

Section WithServices.
Variable svc : services.
Variable rt : runtime.

Lemma search_documents_returns (query : str) (n_results : Z)
  (filters : option where_clause) :
  returns (search_documents svc rt query n_results filters).
Proof. apply returns_try_except, returns_ret. Qed.

Lemma generate_multi_queries_returns (query : str) (n_variants : Z) :
  returns (_generate_multi_queries svc rt query n_variants).
Proof. apply returns_try_except, returns_ret. Qed.

Lemma search_returns (embedding : list Q) (n_results : Z)
  (where_ : option where_clause) :
  returns (search svc rt embedding n_results where_).
Proof. apply returns_try_except, returns_ret. Qed.

(** What a formatted answer looks like: one result per id, each with
    the distance the store gave at its index, or [None] when the store
    gave none. *)
Lemma format_results_spec (answer : query_result) (indices : list nat)
  (results : list search_result) :
  format_results rt answer indices = Ok results ->
  Forall2 (fun i r =>
             match q_distances answer with
             | None => r_distance r = Some None
             | Some distances =>
                 exists d, distances !! i = Some d /\ r_distance r = Some (Some d)
             end) indices results.
Proof.
  revert results. induction indices as [|i indices IH]; intros results; simpl.
  - intros [= <-]. constructor.
  - destruct (format_result rt answer i) as [r|] eqn:Er; [|discriminate].
    destruct (format_results rt answer indices) as [rs|]; [|discriminate].
    intros [= <-]. constructor; [|now apply IH].
    unfold format_result in Er.
    destruct (q_metadatas answer !! i); [|discriminate].
    destruct (q_ids answer !! i); [|discriminate].
    destruct (q_documents answer !! i); [|discriminate].
    destruct (parse_doc_id rt l g); [|discriminate].
    destruct (q_distances answer) as [distances|].
    + destruct (distances !! i) as [d|] eqn:Ed; [|discriminate].
      injection Er as <-. now exists d.
    + now injection Er as <-.
Qed.

Lemma search_from_store (embedding : list Q) (n_results : Z)
  (where_ : option where_clause) :
  post (search svc rt embedding n_results where_) (Spec.from_store svc rt n_results).
Proof.
  apply post_try_except; [|apply post_ret; now left].
  intros w results w'. unfold bind, get_collection, ask, lift_exc.
  destruct (chroma_query svc (collection w) embedding n_results where_ (history w))
    as [answer|] eqn:E; [|discriminate].
  intros [= Hf _]. right. now exists (collection w), embedding, where_, (history w), answer.
Qed.

Lemma search_documents_from_store (query : str) (n_results : Z)
  (filters : option where_clause) :
  post (search_documents svc rt query n_results filters) (Spec.from_store svc rt n_results).
Proof.
  apply post_try_except; [|apply post_ret; now left].
  apply post_bind. intros filters'. apply post_bind. intros expanded.
  apply post_bind. intros [|x embedding].
  - apply post_ret. now left.
  - apply search_from_store.
Qed.

Lemma ranks_of_lookup (distances : list Q) (results : list search_result)
  (n start : nat) :
  Forall2 (fun i r => exists d, distances !! i = Some d /\
                                r_distance r = Some (Some d))
          (seq start n) results ->
  map Spec.rank results = firstn n (skipn start distances).
Proof.
  revert start results. induction n as [|n IH]; intros start results H; simpl in H.
  - inversion H; subst. reflexivity.
  - inversion H as [|i r idxs rs (d & Hd & Hr) Hrest]; subst.
    rewrite (drop_S _ _ _ Hd). simpl. f_equal.
    + unfold Spec.rank. now rewrite Hr.
    + now apply IH.
Qed.

Lemma ranks_of_none (results : list search_result) :
  Forall (fun r => r_distance r = Some None) results ->
  StronglySorted Qle (map Spec.rank results).
Proof.
  induction 1 as [|r rs Hr Hrs IH]; simpl; [constructor|].
  constructor; [exact IH|].
  apply Forall_map. rewrite List.Forall_forall in *. intros z Hz. simpl.
  unfold Spec.rank. rewrite Hr, (Hrs z Hz). apply Qle_refl.
Qed.

(** When the store keeps its side, what a search hands back is ranked,
    and at most [n_results] long when that is not negative. *)
Lemma from_store_ranked (n_results : Z) (results : list search_result) :
  Spec.store_ranks svc -> Spec.from_store svc rt n_results results ->
  Spec.ascending results /\
  ((0 <= n_results)%Z -> (len results <= n_results)%Z).
Proof.
  intros Hstore [-> | (c & e & wh & h & answer & Hq & Hf)].
  - split; [constructor|intros Hn; exact Hn].
  - destruct (Hstore c e n_results wh h answer Hq) as [Hlen Hsorted].
    pose proof (format_results_spec answer _ _ Hf) as H2.
    split.
    + apply ascending_map_rank.
      destruct (q_distances answer) as [distances|].
      * rewrite (ranks_of_lookup distances results _ 0 H2).
        apply StronglySorted_firstn. rewrite drop_0. now apply Hsorted.
      * apply ranks_of_none. clear -H2.
        induction H2; constructor; assumption.
    + intros _. apply Forall2_length in H2. rewrite length_seq in H2.
      unfold len in *. now rewrite <- H2.
Qed.

(** [l[:n]] is a prefix of [l], whatever the sign of [n]. *)
Lemma slice_to_prefix {A} (l : list A) (n : Z) :
  slice_to l n = firstn (Z.to_nat (adjust_index (len l) n)) l.
Proof.
  pose proof (len_nonneg l) as Hl. unfold slice_to, slice.
  assert (E : adjust_index (len l) 0 = 0%Z)
    by (unfold adjust_index; destruct (Z.ltb_spec 0 0); lia).
  rewrite E. change (Z.to_nat 0) with 0%nat. now rewrite drop_0, Z.sub_0_r.
Qed.

Lemma gather_results_returns (query : str) (n_results : Z)
  (use_multi_query : bool) (filters : option where_clause) :
  returns (gather_results svc rt query n_results use_multi_query filters).
Proof.
  apply returns_bind.
  - apply returns_if; [apply generate_multi_queries_returns|apply returns_ret].
  - intros queries. apply returns_for_each. intros q acc.
    apply returns_bind; [apply search_documents_returns|].
    intros results. apply returns_ret.
Qed.

(** How a run of the multi-query search ends: the first [n_results] of
    the sorted, deduplicated concatenation are returned, unless the sort
    raises, in which case the plain search answers. *)
Lemma search_documents_multi_run (query : str) (n_results : Z)
  (use_multi_query : bool) (filters : option where_clause) (w : world) :
  exists all_results w1,
    gather_results svc rt query n_results use_multi_query filters w
    = (Ok all_results, w1) /\
    search_documents_multi svc rt query n_results use_multi_query filters w
    = match sort_by_distance (dedup all_results ∅) with
      | Ok sorted => (Ok (slice_to sorted n_results), w1)
      | Raise => search_documents svc rt query n_results filters w1
      end.
Proof.
  destruct (gather_results_returns query n_results use_multi_query filters w)
    as (all_results & w1 & E).
  exists all_results, w1. split; [exact E|].
  unfold search_documents_multi, try_except, bind at 1. rewrite E.
  unfold bind, lift_exc, ret.
  now destruct (sort_by_distance (dedup all_results ∅)).
Qed.

(** C6: of the results that share a document id, deduplication keeps
    the one that comes first in the concatenation, whatever the distances:
    the kept list has one entry per document id, in the order of the
    concatenation, and holds exactly the first occurrences; with
    [A(.1), B(.2), A(.05)] it keeps [A(.1), B(.2)]. What the multi-query
    search returns, when every concatenated result has its distance, are
    such first occurrences, one per document id. *)
Theorem dedup_keeps_first :
  (forall all_results : list search_result,
     NoDup (map r_doc_id (dedup all_results ∅)) /\
     sublist (dedup all_results ∅) all_results /\
     forall r, In r (dedup all_results ∅) <-> Spec.first_occurrence r all_results) /\
  dedup [ Fixtures.hit 1 (of_string "2024-01-05") (Some (Some (1 # 10)));
          Fixtures.hit 2 (of_string "2024-01-05") (Some (Some (2 # 10)));
          Fixtures.hit 1 (of_string "2024-01-05") (Some (Some (5 # 100))) ] ∅
  = [ Fixtures.hit 1 (of_string "2024-01-05") (Some (Some (1 # 10)));
      Fixtures.hit 2 (of_string "2024-01-05") (Some (Some (2 # 10))) ] /\
  (forall query n_results use_multi_query filters w,
     (0 <= n_results)%Z ->
     exists all_results w1,
       gather_results svc rt query n_results use_multi_query filters w
       = (Ok all_results, w1) /\
       (Forall (fun r => r_distance r <> Some None) all_results ->
        exists results,
          search_documents_multi svc rt query n_results use_multi_query
            filters w = (Ok results, w1) /\
          NoDup (map r_doc_id results) /\
          Forall (fun r => Spec.first_occurrence r all_results) results)).
Proof.
  assert (Hfirst : forall all_results r,
             In r (dedup all_results ∅) <-> Spec.first_occurrence r all_results).
  { intros all_results r. rewrite dedup_in. unfold Spec.first_occurrence.
    split; intros (pre & post & E & H); exists pre, post.
    - now destruct H.
    - repeat split; [exact E|apply not_elem_of_empty|exact H]. }
  split; [|split].
  - intros all_results. split; [apply dedup_nodup|]. split; [apply dedup_sublist|].
    apply Hfirst.
  - unfold dedup. simpl r_doc_id.
    rewrite bool_decide_eq_false_2 by apply not_elem_of_empty.
    rewrite bool_decide_eq_false_2
      by (rewrite elem_of_union, elem_of_singleton, elem_of_empty; intros [|[]];
          discriminate).
    rewrite bool_decide_eq_true_2
      by (rewrite !elem_of_union, !elem_of_singleton; tauto).
    reflexivity.
  - intros query n_results use_multi_query filters w Hn.
    destruct (search_documents_multi_run query n_results use_multi_query filters w)
      as (all_results & w1 & Eg & Erun).
    exists all_results, w1. split; [exact Eg|]. intros Hnum.
    assert (Hd : Forall (fun r => r_distance r <> Some None) (dedup all_results ∅)).
    { apply List.Forall_forall. intros r Hr.
      rewrite List.Forall_forall in Hnum. apply Hnum.
      apply Hfirst in Hr as (pre & post & -> & _).
      apply in_or_app. right. now left. }
    destruct (sort_by_distance_returns _ Hd) as [sorted Es].
    rewrite Es in Erun. exists (slice_to sorted n_results). split; [exact Erun|].
    rewrite slice_to_firstn by exact Hn.
    destruct (sort_by_distance_spec _ _ Es) as [_ Hperm]. split.
    + rewrite <- firstn_map. eapply sublist_NoDup; [|apply sublist_take].
      rewrite (Permutation_map r_doc_id Hperm). apply dedup_nodup.
    + apply List.Forall_forall. intros r Hr. apply Hfirst.
      eapply Permutation_in; [exact Hperm|]. now apply (in_firstn _ _ _ Hr).
Qed.

(** C2, amended: the multi-query search always returns a list in
    ascending order of distance, a result without a distance ranking as
    999 and so after every result below that; and never more than
    [n_results] of them when [n_results] is not negative. The store is
    taken to answer a query with at most the requested number of hits,
    ranked: that is what the plain search passes on when the sort gives
    up on a distance of [None]. *)
Theorem search_documents_multi_ranked (query : str) (n_results : Z)
  (use_multi_query : bool) (filters : option where_clause) (w : world) :
  Spec.store_ranks svc ->
  exists results w',
    search_documents_multi svc rt query n_results use_multi_query filters w
    = (Ok results, w') /\
    Spec.ascending results /\
    ((0 <= n_results)%Z -> (len results <= n_results)%Z) /\
    forall pre r post,
      results = pre ++ r :: post -> ~ Spec.has_distance r ->
      Forall (fun x => (999 <= Spec.rank x)%Q) post.
Proof.
  intros Hstore.
  assert (H : exists results w',
             search_documents_multi svc rt query n_results use_multi_query filters w
             = (Ok results, w') /\
             Spec.ascending results /\
             ((0 <= n_results)%Z -> (len results <= n_results)%Z)).
  { destruct (search_documents_multi_run query n_results use_multi_query filters w)
      as (all_results & w1 & _ & ->).
    destruct (sort_by_distance (dedup all_results ∅)) as [sorted|] eqn:Es.
    - exists (slice_to sorted n_results), w1. split; [reflexivity|]. split.
      + rewrite slice_to_prefix.
        apply ascending_firstn. now apply (sort_by_distance_spec _ _ Es).
      + intros Hn. rewrite slice_to_firstn by exact Hn.
        unfold len. pose proof (firstn_le_length (Z.to_nat n_results) sorted). lia.
    - destruct (search_documents_returns query n_results filters w1)
        as (results & w' & E).
      exists results, w'. split; [exact E|].
      apply from_store_ranked; [exact Hstore|].
      now apply (search_documents_from_store query n_results filters w1 results w'). }
  destruct H as (results & w' & E & Hasc & Hlen).
  exists results, w'. repeat split; try assumption.
  intros pre r post -> Hr. apply ascending_after in Hasc.
  eapply Forall_impl; [exact Hasc|]. intros x Hx. simpl in Hx.
  assert (Er : Spec.rank r = 999%Q).
  { unfold Spec.rank, Spec.has_distance in *.
    destruct (r_distance r) as [[d|]|]; try reflexivity.
    exfalso. apply Hr. now exists d. }
  now rewrite Er in Hx.
Qed.

End WithServices.

Lemma sample_store_ranks : Spec.store_ranks Fixtures.sample_services.
Proof.
  intros c e n wh h answer. simpl.
  destruct (Z.ltb_spec n 1) as [|Hn]; [discriminate|]. intros [= <-]. split.
  - simpl. unfold len. rewrite length_firstn. lia.
  - simpl. intros distances [= <-]. apply StronglySorted_firstn.
    repeat constructor; discriminate.
Qed.

Lemma dedup_keeps_first_witness :
  exists all_results w1 results,
    gather_results Fixtures.sample_services Fixtures.ascii_runtime
      Fixtures.year_query 10 true None Fixtures.empty_world
    = (Ok all_results, w1) /\
    search_documents_multi Fixtures.sample_services Fixtures.ascii_runtime
      Fixtures.year_query 10 true None Fixtures.empty_world = (Ok results, w1) /\
    NoDup (map r_doc_id results) /\
    Forall (fun r => Spec.first_occurrence r all_results) results.
Proof.
  destruct (proj2 (proj2 (dedup_keeps_first Fixtures.sample_services
                            Fixtures.ascii_runtime))
              Fixtures.year_query 10%Z true None Fixtures.empty_world
              ltac:(discriminate)) as (all_results & w1 & Eg & H).
  exists all_results, w1.
  assert (Hnum : Forall (fun r => r_distance r <> Some None) all_results).
  { revert Eg. vm_compute. intros [= <- _]. repeat constructor; discriminate. }
  destruct (H Hnum) as (results & Er & Hn & Hf).
  exists results. repeat split; assumption.
Defined.

Lemma search_documents_multi_ranked_witness :
  exists results w',
    search_documents_multi Fixtures.sample_services Fixtures.ascii_runtime
      Fixtures.year_query 10 true None Fixtures.empty_world = (Ok results, w') /\
    Spec.ascending results /\
    ((0 <= 10)%Z -> (len results <= 10)%Z) /\
    forall pre r post,
      results = pre ++ r :: post -> ~ Spec.has_distance r ->
      Forall (fun x => (999 <= Spec.rank x)%Q) post.
Proof.
  apply (search_documents_multi_ranked Fixtures.sample_services
           Fixtures.ascii_runtime Fixtures.year_query 10 true None
           Fixtures.empty_world).
  exact sample_store_ranks.
Defined.

(** C2, the counterexample: asked for -1 results, the multi-query
    search returns one. The slice [dedup_results[:n_results]] does not
    limit the number then: it drops the last of the two ranked results
    and returns the rest. *)
Theorem search_documents_multi_negative_count :
  exists results w',
    search_documents_multi Fixtures.sample_services Fixtures.ascii_runtime
      Fixtures.year_query (-1) true None Fixtures.empty_world
    = (Ok results, w') /\
    map r_doc_id results = [1%Z] /\
    ~ (len results <= -1)%Z.
Proof.
  eexists _, _. split; [vm_compute; reflexivity|].
  split; [reflexivity|]. vm_compute. intros H. now apply H.
Qed.

(** C1, as stated, fails. The query names the year 2024 and the
    filters resolved from it hold that year, yet the multi-query search
    returns the chunk created in 2023; and called as the search endpoint
    calls it for a request whose filters hold the year 2024, it returns
    that chunk as well. *)
Lemma search_documents_multi_keeps_other_years :
  match fst (search_documents_multi Fixtures.sample_services
               Fixtures.ascii_runtime Fixtures.year_query 10 true None
               Fixtures.empty_world),
        fst (extract_filters Fixtures.sample_services Fixtures.ascii_runtime
               Fixtures.year_query Fixtures.empty_world) with
  | Ok results, Ok extracted =>
      resolved_year extracted = Some (of_string "2024") /\
      forallb (FilterSpec.in_year (resolved_year extracted)) results = false
  | _, _ => False
  end /\
  match fst (search_documents_multi Fixtures.sample_services
               Fixtures.ascii_runtime Fixtures.year_query 10 true
               (Some {| w_document_type := None; w_correspondent := None |})
               Fixtures.empty_world) with
  | Ok results =>
      WebApp.rf_year (WebApp.sr_filters Fixtures.year_request)
      = Some (WebApp.YearInt 2024) /\
      forallb (FilterSpec.in_year (Some (str_of_int 2024))) results = false
  | Raise => False
  end.
Proof. vm_compute. repeat split; reflexivity. Qed.

End RetrievalFacts.

(** ** The search endpoint *)

Module WebAppFacts.

Import VectorStore QASystem WebApp.
Import EffectFacts RetrievalFacts.

Lemma filter_filter {A} (f g : A -> bool) (l : list A) :
  List.filter g (List.filter f l) = List.filter (fun x => f x && g x) l.
Proof.
  induction l as [|x l IH]; simpl; [reflexivity|].
  destruct (f x); simpl; [destruct (g x)|]; now rewrite IH.
Qed.

Lemma filter_true {A} (l : list A) : List.filter (fun _ => true) l = l.
Proof. induction l as [|x l IH]; simpl; [reflexivity|now rewrite IH]. Qed.

Lemma filter_sublist {A} (f : A -> bool) (l : list A) :
  sublist (List.filter f l) l.
Proof.
  induction l as [|x l IH]; simpl; [constructor|].
  destruct (f x); [now apply sublist_skip|now apply sublist_cons].
Qed.

(** The two comprehensions keep exactly the results that pass both
    filters. *)
Lemma post_filter_passes (filters : request_filters)
  (results : list search_result) :
  post_filter filters results
  = List.filter
      (FilterSpec.passes (option_map str_of_year (rf_year filters))
         (dict_get (rf_tags filters) []))
      results.
Proof.
  unfold post_filter, FilterSpec.passes, FilterSpec.in_year, FilterSpec.has_tag.
  destruct (rf_year filters) as [y|], (rf_tags filters) as [[|t tags]|];
    unfold option_map, dict_get.
  - apply filter_ext. intros r. now rewrite andb_true_r.
  - rewrite filter_filter. reflexivity.
  - apply filter_ext. intros r. now rewrite andb_true_r.
  - now rewrite filter_true.
  - reflexivity.
  - now rewrite filter_true.
Qed.

Section WithServices.
Variable svc : services.
Variable rt : runtime.

(** C1, amended: the search endpoint, not the multi-query search,
    applies the caller's year and tag filters. It hands the retrieved list
    through both filters, so the response holds exactly the retrieved
    results that pass both, in the order retrieval gave them: each one's
    creation date starts with the year, and each one's tag list string
    contains one of the tags. *)
Theorem semantic_search_post_filters (data : search_request) (w : world) :
  exists resp w',
    semantic_search svc rt data w = (Ok resp, w') /\
    forall results,
      resp = Success results ->
      exists query retrieved,
        sr_query data = Some query /\
        (if USE_MULTI_QUERY svc
         then search_documents_multi svc rt query
                (dict_get (sr_n_results data) 5%Z) true
                (if has_keys (sr_filters data)
                 then Some {| w_document_type := rf_document_type (sr_filters data);
                              w_correspondent := rf_correspondent (sr_filters data) |}
                 else None)
         else search_documents svc rt query
                (dict_get (sr_n_results data) 5%Z)
                (if has_keys (sr_filters data)
                 then Some {| w_document_type := rf_document_type (sr_filters data);
                              w_correspondent := rf_correspondent (sr_filters data) |}
                 else None)) w = (Ok retrieved, w') /\
        results
        = List.filter
            (FilterSpec.passes
               (option_map str_of_year (rf_year (sr_filters data)))
               (dict_get (rf_tags (sr_filters data)) []))
            retrieved /\
        sublist results retrieved /\
        Forall (fun r =>
                  FilterSpec.in_year
                    (option_map str_of_year (rf_year (sr_filters data))) r = true /\
                  FilterSpec.has_tag (dict_get (rf_tags (sr_filters data)) []) r
                  = true) results.
Proof.
  unfold semantic_search, try_except.
  destruct (sr_query data) as [[|c query]|] eqn:Eq.
  - eexists _, _. split; [reflexivity|]. intros results [=].
  - set (retrieve := if USE_MULTI_QUERY svc then _ else _).
    unfold bind at 1, get_qa_services.
    destruct (qa_system_ready svc (history w)) as [[|]|]; cbn [negb].
    + unfold bind.
      destruct (retrieve w) as [[retrieved|] w1] eqn:Er.
      * eexists _, _. split; [reflexivity|]. intros results [= <-].
        exists (c :: query), retrieved. split; [reflexivity|].
        split; [exact Er|].
        rewrite post_filter_passes. split; [reflexivity|]. split.
        -- apply filter_sublist.
        -- apply List.Forall_forall. intros r Hr.
           apply filter_In in Hr as [_ Hr]. now apply andb_true_iff in Hr.
      * eexists _, _. split; [reflexivity|]. intros results [=].
    + eexists _, _. split; [reflexivity|]. intros results [=].
    + eexists _, _. split; [reflexivity|]. intros results [=].
  - eexists _, _. split; [reflexivity|]. intros results [=].
Qed.

End WithServices.

Lemma semantic_search_post_filters_witness :
  exists w',
    semantic_search Fixtures.sample_services Fixtures.ascii_runtime
      Fixtures.year_request Fixtures.empty_world
    = (Ok (Success
             (List.filter
                (FilterSpec.passes (Some (of_string "2024")) [of_string "rechnung"])
                (match VectorStore.format_results Fixtures.ascii_runtime
                         Fixtures.sample_answer [0%nat; 1%nat] with
                 | Ok retrieved => retrieved
                 | Raise => []
                 end))), w').
Proof.
  destruct (semantic_search_post_filters Fixtures.sample_services
              Fixtures.ascii_runtime Fixtures.year_request Fixtures.empty_world)
    as (resp & w' & E & H).
  exists w'. rewrite E. f_equal. f_equal.
  revert E. vm_compute. intros [= <- _]. reflexivity.
Defined.

End WebAppFacts.

(** ** Indexing *)

Module IndexerFacts.

Import Chunker VectorStore Indexer.
Import PyFacts EffectFacts ChunkerFacts.

Lemma uint_chars_digits (u : Decimal.uint) :
  Forall (fun c => (48 <= c <= 57)%N) (uint_chars u).
Proof.
  induction u; simpl; constructor; try assumption; unfold digit_char; lia.
Qed.

(** The decimal form of an integer holds no underscore. *)
Lemma str_of_int_no_underscore (n : Z) : ~ In underscore (str_of_int n).
Proof.
  unfold str_of_int. intros H.
  assert (Hd : forall u, ~ In underscore (uint_chars u)).
  { intros u Hu. pose proof (uint_chars_digits u) as Hf.
    rewrite List.Forall_forall in Hf. specialize (Hf _ Hu).
    unfold underscore in Hf. lia. }
  destruct (Z.to_int n) as [u|u].
  - now apply (Hd u).
  - destruct H as [H|H]; [discriminate|now apply (Hd u)].
Qed.


(** [document_exists] never raises: it answers [False] when
    [collection.get] raises, and else whether the id is there. *)
Lemma document_exists_run (svc : services) (doc_id : doc_ref) (w : world) :
  document_exists svc doc_id w
  = (Ok (negb (chroma_get_raises svc (chroma_id_of doc_id) (history w))
         && bool_decide (is_Some (collection w !! chroma_id_of doc_id))),
     log (EvCollectionGet (chroma_id_of doc_id)) w).
Proof.
  unfold document_exists, try_except, bind, ask, raise, get_collection, ret.
  now destruct (chroma_get_raises svc (chroma_id_of doc_id) (history w)).
Qed.

Lemma collection_add_lookup (key : str) (e : entry) (c : gmap str entry) :
  is_Some (collection_add key e c !! key).
Proof.
  unfold collection_add. destruct (c !! key) eqn:E.
  - now rewrite E.
  - rewrite lookup_insert_eq. now eexists.
Qed.

Lemma collection_add_keys (key key' : str) (e : entry) (c : gmap str entry) :
  is_Some (collection_add key e c !! key') <->
  key' = key \/ is_Some (c !! key').
Proof.
  unfold collection_add. destruct (c !! key) eqn:E.
  - split; [now right|]. intros [-> | H]; [now rewrite E|exact H].
  - destruct (decide (key' = key)) as [->|Hne].
    + rewrite lookup_insert_eq. split; [now left|now eexists].
    + rewrite lookup_insert_ne by congruence. split; [now right|].
      now intros [? | H].
Qed.

Section WithServices.
Variable svc : services.

(** [add_document] never raises; it either leaves the collection alone
    and answers [False], or adds under the formatted id and answers
    [True]. *)
Lemma add_document_run (doc_id : doc_ref) (text : str) (embedding : list Q)
  (metadata : gmap str str) (w : world) :
  exists b w',
    add_document svc doc_id text embedding metadata w = (Ok b, w') /\
    (forall key, is_Some (collection w' !! key) <->
                 (b = true /\ key = chroma_id_of doc_id) \/
                 is_Some (collection w !! key)).
Proof.
  unfold add_document, try_except, bind, ask, raise, get_collection,
    set_collection, ret.
  destruct (chroma_add_raises svc (chroma_id_of doc_id) (history w)).
  - eexists _, _. split; [reflexivity|]. intros key. simpl.
    split; [now right|]. now intros [[? _]|H].
  - eexists _, _. split; [reflexivity|]. intros key. simpl.
    rewrite collection_add_keys. split; intros [H|H]; auto. now left.
Qed.

Lemma grows_refl (doc_id : Z) (c : gmap str entry) : grows doc_id c c.
Proof. split; auto. Qed.

Lemma grows_trans (doc_id : Z) (c1 c2 c3 : gmap str entry) :
  grows doc_id c1 c2 -> grows doc_id c2 c3 -> grows doc_id c1 c3.
Proof.
  intros [H1 H1'] [H2 H2']. split; [auto|].
  intros key H. destruct (H2' key H) as [H3|H3]; auto.
Qed.

Lemma index_chunk_run (doc_id total_chunks : Z) (metadata : gmap str str)
  (chunk_idx : Z) (chunk_text : str) (all_success : bool) (w w' : world)
  (r : exc bool) :
  index_chunk svc doc_id total_chunks metadata (chunk_idx, chunk_text)
    all_success w = (r, w') ->
  grows doc_id (collection w) (collection w') /\
  (r = Ok true ->
   all_success = true /\
   is_Some (collection w' !! chunk_key doc_id chunk_idx)).
Proof.
  unfold index_chunk, bind at 1, ask.
  destruct (ollama_embedding svc chunk_text (history w)) as [[|x embedding]|].
  - intros [= <- <-]. split; [apply grows_refl|discriminate].
  - unfold bind.
    destruct (add_document_run (StrId (chunk_doc_id doc_id chunk_idx))
                (slice_to chunk_text 500) (x :: embedding)
                (chunk_metadata metadata chunk_idx total_chunks doc_id)
                (log (EvEmbed chunk_text) w)) as (b & w1 & -> & Hkeys).
    intros [= <- <-]. simpl in Hkeys. split.
    + split.
      * intros key H. apply Hkeys. now right.
      * intros key H. apply Hkeys in H as [[_ ->]|H]; [right|now left].
        now exists chunk_idx.
    + destruct b, all_success; try discriminate. intros _. split; [reflexivity|].
      apply Hkeys. now left.
  - intros [= <- <-]. split; [apply grows_refl|discriminate].
Qed.

Lemma index_chunks_run (doc_id total_chunks : Z) (metadata : gmap str str)
  (chunks : list str) (start : Z) (all_success : bool) (w w' : world)
  (r : exc bool) :
  for_each (enumerate start chunks)
    (index_chunk svc doc_id total_chunks metadata) all_success w = (r, w') ->
  grows doc_id (collection w) (collection w') /\
  (r = Ok true ->
   all_success = true /\
   forall i text, In (i, text) (enumerate start chunks) ->
                  is_Some (collection w' !! chunk_key doc_id i)).
Proof.
  revert start all_success w. induction chunks as [|c chunks IH];
    intros start all_success w; cbn [enumerate].
  - intros [= <- <-]. split; [apply grows_refl|]. intros [= ->]. now split.
  - rewrite for_each_cons.
    destruct (index_chunk svc doc_id total_chunks metadata (start, c)
                all_success w) as [[b|] w1] eqn:E1.
    + apply index_chunk_run in E1 as [Hg1 H1]. intros E2.
      apply IH in E2 as [Hg2 H2]. split; [now apply grows_trans with (collection w1)|].
      intros Hr. destruct (H2 Hr) as [-> Hall].
      destruct (H1 eq_refl) as [-> Hc]. split; [reflexivity|].
      intros i text [[= <- <-]|Hin]; [now apply Hg2|now apply (Hall i text)].
    + apply index_chunk_run in E1 as [Hg1 _]. intros [= <- <-].
      split; [exact Hg1|discriminate].
Qed.

(** [index_document] never raises. It removes nothing and adds only
    chunks of its document; when it answers [True] the first chunk is in
    the collection. *)
Lemma index_document_run (doc_id : Z) (force_reindex : bool) (w : world) :
  exists b w',
    index_document svc doc_id force_reindex w = (Ok b, w') /\
    grows doc_id (collection w) (collection w') /\
    (b = true -> is_Some (collection w' !! chunk_key doc_id 0)).
Proof.
  unfold index_document, try_except.
  set (body := bind _ _).
  assert (H : forall r w', body w = (r, w') ->
            grows doc_id (collection w) (collection w') /\
            (r = Ok true -> is_Some (collection w' !! chunk_key doc_id 0))).
  { intros r w'. unfold body, bind at 1.
    set (check := if negb force_reindex then _ else _).
    assert (Hc : exists already w0,
               check w = (Ok already, w0) /\ collection w0 = collection w /\
               (already = true ->
                is_Some (collection w !! chunk_key doc_id 0))).
    { unfold check. destruct force_reindex; simpl.
      - exists false, w. repeat split. discriminate.
      - rewrite document_exists_run. eexists _, _. repeat split.
        intros Hb. apply andb_prop in Hb as [_ Hb].
        now apply bool_decide_eq_true in Hb. }
    destruct Hc as (already & w0 & -> & Hw0 & Hpresent).
    destruct already.
    - intros [= <- <-]. rewrite Hw0. split; [apply grows_refl|].
      intros _. now apply Hpresent.
    - unfold bind at 1, ask.
      destruct (paperless_get_document svc doc_id (history w0))
        as [[document|]|]; simpl.
      + destruct (truthy (dict_get (d_content document) [])) eqn:Ec; simpl.
        * destruct (chunk_policy_returns (dict_get (d_content document) []))
            as (chunks & Hchunks & Hne).
          unfold chunk_policy. rewrite Hchunks. intros E.
          apply index_chunks_run in E as [Hg Hall]. simpl in Hg.
          rewrite Hw0 in Hg. split; [exact Hg|].
          intros Hr. destruct (Hall Hr) as [_ Hin].
          destruct chunks as [|c chunks]; [contradiction|].
          apply (Hin 0%Z c). now left.
        * intros [= <- <-]. simpl. rewrite Hw0.
          split; [apply grows_refl|discriminate].
      + intros [= <- <-]. simpl. rewrite Hw0.
        split; [apply grows_refl|discriminate].
      + intros [= <- <-]. simpl. rewrite Hw0.
        split; [apply grows_refl|discriminate]. }
  destruct (body w) as [[b|] w1] eqn:E.
  - exists b, w1. destruct (H _ _ eq_refl) as [Hg Hb]. repeat split; try apply Hg.
    intros ->. now apply Hb.
  - exists false, w1. destruct (H _ _ eq_refl) as [Hg _].
    repeat split; try apply Hg. discriminate.
Qed.

(** With the first chunk in place, no forced re-index and a
    [collection.get] that goes through, the call is that one
    [collection.get] and nothing else. *)
Lemma index_document_skips (doc_id : Z) (w : world) :
  is_Some (collection w !! chunk_key doc_id 0) ->
  chroma_get_raises svc (chunk_key doc_id 0) (history w) = false ->
  index_document svc doc_id false w
  = (Ok true, log (EvCollectionGet (chunk_key doc_id 0)) w).
Proof.
  intros H Hget. unfold index_document, try_except, bind.
  change (negb false) with true. cbv iota.
  rewrite document_exists_run.
  fold (chunk_key doc_id 0). now rewrite Hget, bool_decide_eq_true_2.
Qed.

(** C7, amended: when the first chunk of a document is in the store
    and [collection.get] goes through,
    [index_document(id, force_reindex=False)] answers [True] after that
    single [collection.get]: it fetches nothing, embeds nothing and writes
    nothing. A call that answered [True] leaves the first chunk in the
    store, so the next call in a row is such a no-op. *)
Theorem index_document_idempotent (doc_id : Z) (w : world) :
  (is_Some (collection w !! chunk_key doc_id 0) ->
   chroma_get_raises svc (chunk_key doc_id 0) (history w) = false ->
   index_document svc doc_id false w
   = (Ok true, log (EvCollectionGet (chunk_key doc_id 0)) w)) /\
  (forall w1,
     index_document svc doc_id false w = (Ok true, w1) ->
     chroma_get_raises svc (chunk_key doc_id 0) (history w1) = false ->
     index_document svc doc_id false w1
     = (Ok true, log (EvCollectionGet (chunk_key doc_id 0)) w1) /\
     no_work [EvCollectionGet (chunk_key doc_id 0)]).
Proof.
  split; [apply index_document_skips|].
  intros w1 E Hget. split; [|repeat constructor].
  apply index_document_skips; [|exact Hget].
  destruct (index_document_run doc_id false w) as (b & w' & E' & _ & Hb).
  rewrite E in E'. injection E' as <- <-. now apply Hb.
Qed.








End WithServices.



Lemma index_document_idempotent_witness :
  index_document Fixtures.library_services 7 false Fixtures.indexed_world
  = (Ok true,
     log (EvCollectionGet (chunk_key 7 0)) Fixtures.indexed_world) /\
  no_work [EvCollectionGet (chunk_key 7 0)].
Proof.
  apply (proj2 (index_document_idempotent Fixtures.library_services 7
                  Fixtures.empty_world)).
  - vm_compute. reflexivity.
  - reflexivity.
Defined.

(** C7, the counterexample: two calls in a row that both do the work.
    The embedding provider gives nothing for a text of more than 1000
    characters, so of the two chunks of the document the first is not
    stored and the second is. The first call answers [False]; the second
    finds no first chunk, fetches the document again, asks for both
    embeddings again and hands the second chunk to [collection.add]
    again. *)
Theorem index_document_twice_works_twice :
  exists w1 w2,
    index_document Samples.limited_services 7 false Fixtures.empty_world
    = (Ok false, w1) /\
    index_document Samples.limited_services 7 false w1 = (Ok false, w2) /\
    collection w1 !! chunk_key 7 0 = None /\
    is_Some (collection w1 !! chunk_key 7 1) /\
    Maintenance.added_ids (history w1) = [chunk_key 7 1] /\
    length (Maintenance.embedded_texts (history w1)) = 2%nat /\
    Maintenance.added_ids (history w2) = [chunk_key 7 1; chunk_key 7 1] /\
    length (Maintenance.embedded_texts (history w2)) = 4%nat /\
    ~ no_work (skipn (length (history w1)) (history w2)).
Proof.
  eexists _, _. split; [vm_compute; reflexivity|].
  split; [vm_compute; reflexivity|].
  split; [vm_compute; reflexivity|].
  split; [vm_compute; eexists; reflexivity|].
  split; [vm_compute; reflexivity|].
  split; [vm_compute; reflexivity|].
  split; [vm_compute; reflexivity|].
  split; [vm_compute; reflexivity|].
  intros H. vm_compute in H. inversion H as [|? ? _ H1]; subst.
  inversion H1 as [|? ? Hwork _]; subst. exact Hwork.
Qed.


(** The batch run over the store that already holds document 7 in
    chunks: one document counted as indexed, none as skipped. *)
Example batch_over_indexed_store :
  fst (index_all_documents Fixtures.library_services Fixtures.indexed_world)
  = Ok {| indexed := 1; skipped := 0; failed := 0 |}.
Proof. vm_compute. reflexivity. Qed.

End IndexerFacts.

(** ** Answering *)

Module AnswerFacts.

Import VectorStore QASystem.
Import EffectFacts ScoringFacts.

Lemma relevance_score_returns (doc : search_result) :
  exists score, relevance_score doc = Ok score.
Proof.
  unfold relevance_score.
  destruct (r_distance doc) as [[d|]|]; simpl; try now eexists.
  destruct (Qeq_bool d 0); now eexists.
Qed.

(** Collecting context and sources never raises, and with sources on it
    lists one source per document, in order. *)
Lemma collect_context_returns (include_sources : bool)
  (docs : list (Z * search_result)) :
  exists parts srcs,
    collect_context include_sources docs = Ok (parts, srcs) /\
    (include_sources = true ->
     map s_doc_id srcs = map (fun d => r_doc_id (snd d)) docs).
Proof.
  induction docs as [|[i doc] docs (parts & srcs & IH & Hids)]; simpl.
  - now exists [], [].
  - rewrite IH. destruct include_sources.
    + unfold source_of. destruct (relevance_score_returns doc) as [score ->].
      eexists _, _. split; [reflexivity|]. intros _. simpl. f_equal. now apply Hids.
    + eexists _, _. split; [reflexivity|]. discriminate.
Qed.

Section WithServices.
Variable svc : services.
Variable rt : runtime.

(** C9: [answer_question] always returns an answer with its text, its
    sources and its confidence, whatever the collaborators do, raising
    included. When retrieval finds no document the answer is the
    could-not-find message with no sources and [low]; when generation
    returns the empty string it is the fixed fallback message with [low]
    and the sources collected from the retrieved documents. *)
Theorem answer_question_structured (question : str) (n_context_docs : Z)
  (include_sources : bool) (w : world) :
  (exists result w',
     answer_question svc rt question n_context_docs include_sources w
     = (Ok result, w')) /\
  (forall w1,
     relevant_documents svc rt question n_context_docs w = (Ok [], w1) ->
     answer_question svc rt question n_context_docs include_sources w
     = (Ok {| answer := could_not_find; sources := [];
              confidence_of := low |}, w1)) /\
  (forall doc docs w1,
     relevant_documents svc rt question n_context_docs w
     = (Ok (doc :: docs), w1) ->
     exists parts srcs,
       collect_context include_sources (enumerate 1 (doc :: docs))
       = Ok (parts, srcs) /\
       (include_sources = true ->
        map s_doc_id srcs = map r_doc_id (doc :: docs)) /\
       (ollama_generate svc
          (rag_prompt rt question (join [newline; newline] parts))
          (7 # 10) (history w1) = Ok [] ->
        exists w',
          answer_question svc rt question n_context_docs include_sources w
          = (Ok {| answer := could_not_generate;
                   sources := if include_sources then srcs else [];
                   confidence_of := low |}, w'))).
Proof.
  split; [apply returns_try_except, returns_ret|]. split.
  - intros w1 E. unfold answer_question, try_except, bind. now rewrite E.
  - intros doc docs w1 E.
    destruct (collect_context_returns include_sources (enumerate 1 (doc :: docs)))
      as (parts & srcs & Ec & Hids).
    exists parts, srcs. split; [exact Ec|]. split.
    + intros Hi. rewrite (Hids Hi). clear.
      generalize 1%Z. induction (doc :: docs) as [|x l IH]; intros n; simpl;
        [reflexivity|]. f_equal. apply IH.
    + intros Hgen. eexists.
      unfold answer_question, try_except, bind at 1. rewrite E.
      unfold bind at 1, lift_exc. rewrite Ec.
      unfold bind at 1, ask. rewrite Hgen. reflexivity.
Qed.

End WithServices.

Lemma answer_question_structured_witness :
  answer_question Fixtures.barren_services Fixtures.ascii_runtime
    Fixtures.year_query 3 true Fixtures.empty_world
  = (Ok {| answer := could_not_find; sources := []; confidence_of := low |},
     snd (relevant_documents Fixtures.barren_services Fixtures.ascii_runtime
            Fixtures.year_query 3 Fixtures.empty_world)) /\
  exists w',
    answer_question Fixtures.sample_services Fixtures.ascii_runtime
      Fixtures.year_query 3 true Fixtures.empty_world
    = (Ok {| answer := could_not_generate;
             sources :=
               match collect_context true
                       (enumerate 1
                          (match VectorStore.format_results
                                   Fixtures.ascii_runtime
                                   Fixtures.sample_answer [0%nat; 1%nat] with
                           | Ok docs => docs
                           | Raise => []
                           end)) with
               | Ok (_, srcs) => srcs
               | Raise => []
               end;
             confidence_of := low |}, w').
Proof.
  split.
  - apply (proj1 (proj2 (answer_question_structured Fixtures.barren_services
                           Fixtures.ascii_runtime Fixtures.year_query 3 true
                           Fixtures.empty_world))).
    vm_compute. reflexivity.
  - destruct (proj2 (proj2 (answer_question_structured Fixtures.sample_services
                              Fixtures.ascii_runtime Fixtures.year_query 3 true
                              Fixtures.empty_world))
                _ _ _ ltac:(vm_compute; reflexivity))
      as (parts & srcs & Ec & _ & H).
    destruct (H eq_refl) as [w' E]. exists w'. rewrite E.
    f_equal. f_equal. f_equal. revert Ec. vm_compute. now intros [= _ <-].
Defined.

End AnswerFacts.

(** * Further facts *)

(** ** Chunker: termination, sizes, coverage *)

Module ChunkerBounds.

Import Chunker PyFacts ChunkerFacts.
Open Scope Z_scope.

Lemma lstrip_length (s : str) : (length (lstrip s) <= length s)%nat.
Proof.
  induction s as [|c s IH]; simpl; [lia|].
  destruct (isspace c); simpl; lia.
Qed.

Lemma strip_length (s : str) : len (strip s) <= len s.
Proof.
  unfold strip, rstrip, len. rewrite length_rev.
  pose proof (lstrip_length (rev (lstrip s))) as H1.
  rewrite length_rev in H1. pose proof (lstrip_length s). lia.
Qed.

Lemma lstrip_keeps (s : str) (x : N) :
  In x s -> isspace x = false -> In x (lstrip s).
Proof.
  intros Hin Hx. induction s as [|c s IH]; simpl; [contradiction|].
  destruct (isspace c) eqn:Ec; [|exact Hin].
  destruct Hin as [-> | Hin]; [congruence|now apply IH].
Qed.

(** [strip] drops whitespace only. *)
Lemma strip_keeps (s : str) (x : N) :
  In x s -> isspace x = false -> In x (strip s).
Proof.
  intros Hin Hx. unfold strip, rstrip. rewrite <- in_rev.
  apply lstrip_keeps; [|exact Hx]. rewrite <- in_rev. now apply lstrip_keeps.
Qed.

(** A window of [chunk_size] code points, wherever it starts. *)
Lemma slice_window_length {A} (s : list A) (a n : Z) :
  0 <= n -> len (slice s a (a + n)) <= n.
Proof.
  intros Hn. unfold slice, len. rewrite length_firstn.
  unfold adjust_index, len.
  destruct (Z.ltb_spec a 0), (Z.ltb_spec (a + n) 0); lia.
Qed.

Lemma slice_length_le {A} (s : list A) (a b : Z) : len (slice s a b) <= len s.
Proof.
  unfold slice, len. rewrite length_firstn, length_skipn. lia.
Qed.

Lemma window_length (text : str) (chunk_size overlap start : Z) :
  0 <= chunk_size ->
  len (fst (window text chunk_size overlap start)) <= chunk_size.
Proof.
  intros Hcs. unfold window.
  pose proof (slice_window_length text start chunk_size Hcs) as Hw.
  set (w := slice text start (start + chunk_size)) in *.
  destruct (start + chunk_size <? len text).
  - destruct (chunk_size <? 2 * Z.max (rfind dot w) (rfind newline w)); simpl.
    + pose proof (strip_length (slice_to w (Z.max (rfind dot w) (rfind newline w) + 1))).
      pose proof (slice_length_le w 0 (Z.max (rfind dot w) (rfind newline w) + 1)).
      unfold slice_to in *. lia.
    + pose proof (strip_length w). lia.
  - simpl. pose proof (strip_length w). lia.
Qed.

Lemma chunk_loop_sizes (text : str) (chunk_size overlap : Z) :
  0 <= chunk_size ->
  forall fuel start chunks,
    chunk_loop fuel text chunk_size overlap start = Some chunks ->
    Forall (fun c => len c <= chunk_size) chunks.
Proof.
  intros Hcs. induction fuel as [|fuel IH]; intros start chunks.
  - discriminate.
  - rewrite chunk_loop_unfold. destruct (start <? len text).
    + destruct (chunk_loop fuel text chunk_size overlap _) as [rest|] eqn:Er;
        [|discriminate].
      intros [= <-]. constructor; [now apply window_length|].
      now apply (IH _ _ Er).
    + intros [= <-]. constructor.
Qed.

(** X2. No chunk is longer than [chunk_size]. *)
Theorem chunk_text_sizes (fuel : nat) (text : str) (chunk_size overlap : Z)
  (chunks : list str) :
  0 <= chunk_size ->
  _chunk_text fuel text chunk_size overlap = Some chunks ->
  Forall (fun c => len c <= chunk_size) chunks.
Proof.
  intros Hcs. unfold _chunk_text.
  destruct text as [|x text].
  - intros [= <-]. repeat constructor. exact Hcs.
  - simpl negb. simpl orb.
    destruct (Z.leb_spec (len (x :: text)) chunk_size).
    + intros [= <-]. repeat constructor. assumption.
    + now apply chunk_loop_sizes.
Qed.

Lemma chunk_text_sizes_witness :
  Forall (fun c => len c <= 30)
    [of_string "Hello world. This is a test.";
     of_string "test.of the chunker.";
     of_string "nker. It has several sentences";
     of_string "ences. And more."].
Proof.
  apply (chunk_text_sizes 50
           (of_string "Hello world. This is a test.of the chunker. It has several sentences. And more.")
           30 5).
  - discriminate.
  - vm_compute. reflexivity.
Defined.

Lemma chunk_loop_count (text : str) (chunk_size overlap : Z) :
  advancing chunk_size overlap ->
  forall fuel start chunks,
    0 <= start ->
    chunk_loop fuel text chunk_size overlap start = Some chunks ->
    len chunks <= Z.max 0 (len text - start).
Proof.
  intros Hadv. induction fuel as [|fuel IH]; intros start chunks Hs.
  - discriminate.
  - rewrite chunk_loop_unfold. destruct (Z.ltb_spec start (len text)) as [Hlt|Hge].
    + pose proof (window_spec text chunk_size overlap start (conj Hs Hlt) Hadv)
        as [_ Hnext].
      destruct (chunk_loop fuel text chunk_size overlap _) as [rest|] eqn:Er;
        [|discriminate].
      intros [= <-]. apply IH in Er; [|lia]. unfold len in *. simpl length. lia.
    + intros [= <-]. unfold len. simpl. lia.
Qed.

(** X1. Under advancing parameters the chunker returns, with at least one
    chunk and at most one chunk per code point of the text. *)
Theorem chunk_text_returns (text : str) (chunk_size overlap : Z) :
  advancing chunk_size overlap ->
  exists chunks,
    _chunk_text (S (length text)) text chunk_size overlap = Some chunks /\
    1 <= len chunks <= Z.max 1 (len text).
Proof.
  intros Hadv. unfold _chunk_text.
  destruct (negb (truthy text) || (len text <=? chunk_size)) eqn:E.
  - eexists. split; [reflexivity|]. unfold len. simpl. lia.
  - apply orb_false_iff in E as [Et E]. apply Z.leb_gt in E.
    destruct Hadv as (Hcs & Hov & Hhalf).
    destruct (chunk_loop_returns text chunk_size overlap
                (conj Hcs (conj Hov Hhalf)) (S (length text)) 0
                ltac:(lia) ltac:(unfold len; lia)) as [chunks H].
    exists chunks. split; [exact H|].
    pose proof (chunk_loop_count text chunk_size overlap
                  (conj Hcs (conj Hov Hhalf)) (S (length text)) 0 chunks
                  ltac:(lia) H).
    pose proof (chunk_loop_nonempty text chunk_size overlap _ chunks ltac:(lia) H).
    destruct chunks; [contradiction|]. unfold len in *. simpl length in *. lia.
Qed.

Lemma chunk_text_returns_witness :
  exists chunks,
    _chunk_text 81
      (of_string "Hello world. This is a test.of the chunker. It has several sentences. And more.")
      30 5 = Some chunks /\
    1 <= len chunks
    <= Z.max 1
         (len (of_string "Hello world. This is a test.of the chunker. It has several sentences. And more.")).
Proof.
  apply (chunk_text_returns
           (of_string "Hello world. This is a test.of the chunker. It has several sentences. And more.")
           30 5).
  unfold advancing. lia.
Defined.

Lemma lstrip_fixed (c : str) :
  (forall x, head c = Some x -> isspace x = false) -> lstrip c = c.
Proof.
  destruct c as [|x c]; [reflexivity|]. intros H. simpl.
  now rewrite (H x eq_refl).
Qed.

(** Stripping a trimmed chunk changes nothing. *)
Lemma strip_fixed (c : str) : trimmed c -> strip c = c.
Proof.
  intros [Hh Ht]. unfold strip, rstrip.
  rewrite (lstrip_fixed c Hh), (lstrip_fixed (rev c) Ht).
  apply rev_involutive.
Qed.

Lemma slice_full {A} (s : list A) : slice s 0 (len s) = s.
Proof.
  pose proof (len_nonneg s).
  rewrite slice_inside by lia. change (Z.to_nat 0) with 0%nat.
  rewrite drop_0. apply firstn_all2. unfold len. lia.
Qed.

Lemma slice_lookup {A} (s : list A) (a b : Z) (i : nat) (x : A) :
  0 <= a <= Z.of_nat i -> Z.of_nat i < b <= len s ->
  s !! i = Some x -> In x (slice s a b).
Proof.
  intros Ha Hb Hx. rewrite slice_inside by lia.
  apply list_elem_of_In, (list_elem_of_lookup_2 _ (i - Z.to_nat a)%nat).
  rewrite lookup_take_lt by lia. rewrite lookup_drop.
  now replace (Z.to_nat a + (i - Z.to_nat a))%nat with i by lia.
Qed.

(** One pass of the loop appends the stripped text between [start] and
    a cut [b], and the next window starts [overlap] before the cut unless
    the cut is the end of the text. *)
Lemma window_cut (text : str) (chunk_size overlap start : Z) :
  0 <= start < len text -> advancing chunk_size overlap ->
  exists b,
    start < b <= len text /\
    fst (window text chunk_size overlap start) = strip (slice text start b) /\
    (b = len text \/ snd (window text chunk_size overlap start) = b - overlap).
Proof.
  intros Hs (Hcs & Hov & Hhalf). unfold window.
  set (w := slice text start (start + chunk_size)).
  destruct (Z.ltb_spec (start + chunk_size) (len text)) as [Hin|Hout].
  - assert (Hw : len w = chunk_size) by (unfold w; rewrite len_slice; lia).
    set (sp := Z.max (rfind dot w) (rfind newline w)).
    assert (Hsp : -1 <= sp < chunk_size).
    { pose proof (rfind_bounds dot w). pose proof (rfind_bounds newline w).
      unfold sp. lia. }
    destruct (Z.ltb_spec chunk_size (2 * sp)) as [Hadj|Hraw]; simpl.
    + exists (start + (sp + 1)). split; [lia|]. split; [|right; lia].
      unfold w. rewrite slice_to_slice by lia. reflexivity.
    + exists (start + chunk_size). split; [lia|]. split; [reflexivity|now right].
  - simpl. exists (len text). split; [lia|]. split; [|now left].
    fold w. unfold w. rewrite slice_clamp by lia. now rewrite Z.min_r by lia.
Qed.

Lemma chunk_loop_covers (text : str) (chunk_size overlap : Z) :
  advancing chunk_size overlap -> 0 <= overlap ->
  forall fuel start chunks,
    0 <= start ->
    chunk_loop fuel text chunk_size overlap start = Some chunks ->
    forall i, start <= i < len text ->
      exists a b, 0 <= a <= i /\ i < b <= len text /\
                  In (strip (slice text a b)) chunks.
Proof.
  intros Hadv Hov. induction fuel as [|fuel IH]; intros start chunks Hs.
  - discriminate.
  - rewrite chunk_loop_unfold.
    destruct (Z.ltb_spec start (len text)) as [Hlt|Hge]; [|intros _ i; lia].
    pose proof (window_spec text chunk_size overlap start (conj Hs Hlt) Hadv)
      as [_ Hnext].
    destruct (window_cut text chunk_size overlap start (conj Hs Hlt) Hadv)
      as (b & Hb & Hfst & Hsnd).
    destruct (chunk_loop fuel text chunk_size overlap _) as [rest|] eqn:Er;
      [|discriminate].
    intros [= <-] i Hi.
    destruct (Z.lt_ge_cases i b) as [Hib|Hbi].
    + exists start, b. repeat split; try lia. left. exact Hfst.
    + destruct Hsnd as [->|Hsnd]; [lia|].
      assert (Hn : 0 <= snd (window text chunk_size overlap start)) by lia.
      destruct (IH _ _ Hn Er i) as (a' & b' & ? & ? & Hin); [lia|].
      exists a', b'. repeat split; try lia. now right.
Qed.

(** X3. Chunking loses no text: every position of the text lies inside the
    piece some chunk was cut from, and every code point that is not
    whitespace occurs in that chunk. *)
Theorem chunk_text_covers (fuel : nat) (text : str) (chunk_size overlap : Z)
  (chunks : list str) (i : nat) (x : N) :
  advancing chunk_size overlap -> 0 <= overlap ->
  _chunk_text fuel text chunk_size overlap = Some chunks ->
  text !! i = Some x ->
  exists a b c,
    0 <= a <= Z.of_nat i /\ Z.of_nat i < b <= len text /\
    In c chunks /\ strip c = strip (slice text a b) /\
    (isspace x = false -> In x c).
Proof.
  intros Hadv Hov Hrun Hx.
  pose proof (lookup_lt_Some _ _ _ Hx) as Hi.
  unfold _chunk_text in Hrun.
  destruct (negb (truthy text) || (len text <=? chunk_size)).
  - injection Hrun as <-. exists 0, (len text), text.
    unfold len. repeat split; try lia.
    + now left.
    + fold (len text). now rewrite slice_full.
    + intros _. eapply list_elem_of_In, list_elem_of_lookup_2, Hx.
  - destruct (chunk_loop_covers text chunk_size overlap Hadv Hov fuel 0 chunks
                ltac:(lia) Hrun (Z.of_nat i) ltac:(unfold len; lia))
      as (a & b & Ha & Hb & Hin).
    exists a, b, (strip (slice text a b)). repeat split; try lia.
    + exact Hin.
    + apply strip_fixed, strip_trimmed.
    + intros Hsp. apply strip_keeps; [|exact Hsp].
      now apply (slice_lookup text a b i).
Qed.

Lemma chunk_text_covers_witness :
  exists a b c,
    0 <= a <= Z.of_nat 40 /\
    Z.of_nat 40 < b <=
      len (of_string "Hello world. This is a test.of the chunker. It has several sentences. And more.") /\
    In c [of_string "Hello world. This is a test.";
          of_string "test.of the chunker.";
          of_string "nker. It has several sentences";
          of_string "ences. And more."] /\
    strip c =
      strip (slice (of_string "Hello world. This is a test.of the chunker. It has several sentences. And more.") a b) /\
    (isspace 101 = false -> In 101%N c).
Proof.
  apply (chunk_text_covers 50
           (of_string "Hello world. This is a test.of the chunker. It has several sentences. And more.")
           30 5).
  - unfold advancing. lia.
  - lia.
  - vm_compute. reflexivity.
  - vm_compute. reflexivity.
Defined.

End ChunkerBounds.

(** ** Keys of the collection *)

Module KeyFacts.

Import Py VectorStore Indexer IndexerFacts.

Lemma uint_chars_inj (u v : Decimal.uint) :
  uint_chars u = uint_chars v -> u = v.
Proof.
  revert v. induction u; destruct v; simpl; try discriminate;
    try reflexivity; intros [= E]; f_equal; now apply IHu.
Qed.

Lemma uint_chars_no_minus (u : Decimal.uint) : ~ In 45%N (uint_chars u).
Proof.
  intros H. pose proof (uint_chars_digits u) as Hf.
  rewrite List.Forall_forall in Hf. specialize (Hf _ H). lia.
Qed.

(** [str] of an [int] tells the integers apart. *)
Lemma str_of_int_inj (n m : Z) : str_of_int n = str_of_int m -> n = m.
Proof.
  unfold str_of_int. intros E. apply DecimalZ.to_int_inj.
  destruct (Z.to_int n) as [u|u], (Z.to_int m) as [v|v].
  - f_equal. now apply uint_chars_inj.
  - exfalso. apply (uint_chars_no_minus u). rewrite E. now left.
  - exfalso. apply (uint_chars_no_minus v). rewrite <- E. now left.
  - injection E as E. f_equal. now apply uint_chars_inj.
Qed.

Lemma app_sep_inj {A} (x : A) (a a' b b' : list A) :
  ~ In x a -> ~ In x a' -> a ++ x :: b = a' ++ x :: b' -> a = a' /\ b = b'.
Proof.
  revert a'. induction a as [|y a IH]; intros [|y' a'] Ha Ha'; simpl.
  - now intros [= ->].
  - intros [= <- _]. exfalso. apply Ha'. now left.
  - intros [= -> _]. exfalso. apply Ha. now left.
  - intros [= -> E]. destruct (IH a') as [-> ->]; try assumption.
    + intros H. apply Ha. now right.
    + intros H. apply Ha'. now right.
    + now split.
Qed.

Lemma chunk_key_inj (doc_id k doc_id' k' : Z) :
  chunk_key doc_id k = chunk_key doc_id' k' -> doc_id = doc_id' /\ k = k'.
Proof.
  unfold chunk_key, chroma_id_of, chunk_doc_id. intros E.
  apply app_inv_head in E.
  change (of_string "_chunk_") with (underscore :: of_string "chunk_") in E.
  apply app_sep_inj in E; try apply str_of_int_no_underscore.
  destruct E as [E1 E2]. apply app_inv_head in E2.
  split; now apply str_of_int_inj.
Qed.

(** X4. The collection keys tell documents and chunks apart: two chunks
    share a key only when they are the same chunk of the same document,
    and two documents only when they are the same document. *)
Theorem store_keys_injective (doc_id k doc_id' k' : Z) :
  (chunk_key doc_id k = chunk_key doc_id' k' <-> doc_id = doc_id' /\ k = k') /\
  (document_key doc_id = document_key doc_id' <-> doc_id = doc_id').
Proof.
  split; split.
  - apply chunk_key_inj.
  - now intros [-> ->].
  - unfold document_key, chroma_id_of. intros E.
    apply app_inv_head in E. now apply str_of_int_inj.
  - now intros ->.
Qed.

End KeyFacts.

(** ** Adding to and removing from the store *)

Module StoreFacts.

Import VectorStore Indexer Maintenance IndexerFacts.

Lemma lookup_collection_delete (ids : list str) (c : gmap str entry)
  (key : str) :
  collection_delete ids c !! key = if decide (key ∈ ids) then None else c !! key.
Proof.
  induction ids as [|id ids IH]; simpl.
  - destruct (decide (key ∈ [])) as [H|_]; [|reflexivity].
    now apply elem_of_nil in H.
  - destruct (decide (id = key)) as [->|Hne].
    + rewrite lookup_delete_eq.
      destruct (decide (key ∈ key :: ids)) as [_|H]; [reflexivity|].
      exfalso. apply H. now left.
    + rewrite lookup_delete_ne by exact Hne. rewrite IH.
      destruct (decide (key ∈ ids)) as [Hin|Hout];
        destruct (decide (key ∈ id :: ids)) as [H|H]; try reflexivity.
      * exfalso. apply H. now right.
      * apply elem_of_cons in H as [->|H]; contradiction.
Qed.

Lemma ids_where_original_spec (value : str) (c : gmap str entry) (key : str) :
  key ∈ ids_where_original value c <->
  exists e, c !! key = Some e /\
            e_metadata e !! of_string "doc_id_original" = Some value.
Proof.
  unfold ids_where_original. rewrite list_elem_of_In, in_map_iff. split.
  - intros ([k e] & <- & Hin). apply filter_In in Hin as [Hin Htag].
    apply list_elem_of_In, elem_of_map_to_list in Hin.
    apply bool_decide_eq_true in Htag. now exists e.
  - intros (e & Hc & Htag). exists (key, e). split; [reflexivity|].
    apply filter_In. split.
    + now apply list_elem_of_In, elem_of_map_to_list.
    + now apply bool_decide_eq_true.
Qed.

Section WithServices.
Variable svc : services.
Variable faults : store_faults.

Lemma add_document_shape (doc_id : doc_ref) (text : str)
  (embedding : list Q) (metadata : gmap str str) (w : world) :
  add_document svc doc_id text embedding metadata w
  = if chroma_add_raises svc (chroma_id_of doc_id) (history w)
    then (Ok false, log (EvCollectionAdd (chroma_id_of doc_id)) w)
    else (Ok true,
          {| collection :=
               collection_add (chroma_id_of doc_id)
                 {| e_document := text; e_embedding := embedding;
                    e_metadata := metadata |} (collection w);
             history := history w ++ [EvCollectionAdd (chroma_id_of doc_id)] |}).
Proof.
  unfold add_document, try_except, bind, ask, get_collection, set_collection,
    ret, raise. simpl.
  now destruct (chroma_add_raises svc (chroma_id_of doc_id) (history w)).
Qed.

Lemma collection_add_keeps (key key' : str) (e e' : entry)
  (c : gmap str entry) :
  c !! key' = Some e' -> collection_add key e c !! key' = Some e'.
Proof.
  intros H. unfold collection_add.
  destruct (c !! key) eqn:E; [exact H|].
  rewrite lookup_insert_ne; [exact H|]. intros <-. congruence.
Qed.

(** X5. [add_document] always answers. An id it reported as added is in
    the collection: [document_exists] finds it when its [collection.get]
    goes through, and answers [False] when that raises. An entry that was
    there before the call, under that id or another, is still there
    unchanged. *)
Theorem add_document_then_exists (doc_id : doc_ref) (text : str)
  (embedding : list Q) (metadata : gmap str str) (w : world) :
  exists b w',
    add_document svc doc_id text embedding metadata w = (Ok b, w') /\
    (b = true ->
     is_Some (collection w' !! chroma_id_of doc_id) /\
     fst (document_exists svc doc_id w')
     = Ok (negb (chroma_get_raises svc (chroma_id_of doc_id) (history w')))) /\
    (forall key e, collection w !! key = Some e ->
                   collection w' !! key = Some e).
Proof.
  rewrite add_document_shape.
  destruct (chroma_add_raises svc (chroma_id_of doc_id) (history w)).
  - eexists false, _. split; [reflexivity|]. split; [discriminate|].
    intros key e H. exact H.
  - eexists true, _. split; [reflexivity|]. split.
    + intros _. split; [apply collection_add_lookup|].
      rewrite document_exists_run. cbn [fst collection].
      rewrite bool_decide_eq_true_2 by apply collection_add_lookup.
      now rewrite andb_true_r.
    + intros key e H. cbn [collection]. now apply collection_add_keeps.
Qed.

Lemma delete_document_shape (doc_id : doc_ref) (w : world) :
  delete_document faults doc_id w
  = if delete_raises faults [chroma_id_of doc_id] (history w)
    then (Ok false, w)
    else (Ok true,
          {| collection := delete (chroma_id_of doc_id) (collection w);
             history := history w |}).
Proof.
  unfold delete_document, try_except, bind, may_raise, get_collection,
    set_collection, ret. simpl.
  now destruct (delete_raises faults [chroma_id_of doc_id] (history w)).
Qed.

(** X6. [delete_document] always answers. After it answered [True] the id
    is gone from the collection and not found any more, and every other
    entry is as it was; after [False] the collection is as it was. *)
Theorem delete_document_then_absent (doc_id : doc_ref) (w : world) :
  exists b w',
    delete_document faults doc_id w = (Ok b, w') /\
    (b = true ->
     collection w' !! chroma_id_of doc_id = None /\
     fst (document_exists svc doc_id w') = Ok false /\
     forall key, key <> chroma_id_of doc_id ->
                 collection w' !! key = collection w !! key) /\
    (b = false -> collection w' = collection w).
Proof.
  rewrite delete_document_shape.
  destruct (delete_raises faults [chroma_id_of doc_id] (history w)).
  - exists false, w. repeat split; try reflexivity; discriminate.
  - eexists true, _. split; [reflexivity|].
    split; [|discriminate]. intros _. cbn [collection].
    split; [apply lookup_delete_eq|]. split.
    + rewrite document_exists_run. cbn [fst collection]. f_equal.
      rewrite bool_decide_eq_false_2; [apply andb_false_r|].
      rewrite lookup_delete_eq. intros [? H]. discriminate.
    + intros key Hne. now rewrite lookup_delete_ne by congruence.
Qed.

Lemma delete_all_document_chunks_shape (doc_id : Z) (w : world) :
  delete_all_document_chunks faults doc_id w
  = if get_where_raises faults (str_of_int doc_id) (history w)
    then (Ok false, w)
    else
      match ids_where_original (str_of_int doc_id) (collection w) with
      | [] => (Ok true, w)
      | ids =>
          if delete_raises faults ids (history w) then (Ok false, w)
          else (Ok true,
                {| collection := collection_delete ids (collection w);
                   history := history w |})
      end.
Proof.
  unfold delete_all_document_chunks, try_except, bind, may_raise,
    get_collection, set_collection, ret. simpl.
  destruct (get_where_raises faults (str_of_int doc_id) (history w));
    [reflexivity|].
  destruct (ids_where_original (str_of_int doc_id) (collection w))
    as [|id ids]; [reflexivity|].
  now destruct (delete_raises faults (id :: ids) (history w)).
Qed.

(** Deleting the ids a [where] lists leaves what does not match. *)
Lemma collection_delete_where (value : str) (c : gmap str entry) (key : str)
  (e : entry) :
  collection_delete (ids_where_original value c) c !! key = Some e <->
  c !! key = Some e /\
  e_metadata e !! of_string "doc_id_original" <> Some value.
Proof.
  rewrite lookup_collection_delete.
  destruct (decide (key ∈ ids_where_original value c)) as [Hin|Hout].
  - split; [discriminate|]. intros [H Htag].
    apply ids_where_original_spec in Hin as (e' & He' & Htag').
    rewrite H in He'. injection He' as <-. contradiction.
  - split.
    + intros H. split; [exact H|]. intros Htag. apply Hout.
      apply ids_where_original_spec. now exists e.
    + now intros [H _].
Qed.

(** X7. [delete_all_document_chunks] always answers. After [True] exactly
    the entries tagged with the document are gone: an entry is in the
    collection afterwards when it was there before and its
    [doc_id_original] is not the document's id. After [False] the
    collection is as it was. *)
Theorem delete_all_document_chunks_exact (doc_id : Z) (w : world) :
  exists b w',
    delete_all_document_chunks faults doc_id w = (Ok b, w') /\
    history w' = history w /\
    (b = true ->
     forall key e,
       collection w' !! key = Some e <->
       collection w !! key = Some e /\
       e_metadata e !! of_string "doc_id_original" <> Some (str_of_int doc_id)) /\
    (b = false -> collection w' = collection w).
Proof.
  rewrite delete_all_document_chunks_shape.
  destruct (get_where_raises faults (str_of_int doc_id) (history w)).
  { exists false, w. repeat split; try reflexivity; discriminate. }
  pose proof (collection_delete_where (str_of_int doc_id) (collection w))
    as Hwhere.
  destruct (ids_where_original (str_of_int doc_id) (collection w))
    as [|id ids].
  - exists true, w. split; [reflexivity|]. split; [reflexivity|].
    split; [|discriminate]. intros _ key e. apply Hwhere.
  - cbv zeta. destruct (delete_raises faults (id :: ids) (history w)).
    { exists false, w. repeat split; try reflexivity; discriminate. }
    eexists true, _. split; [reflexivity|]. split; [reflexivity|].
    split; [|discriminate]. intros _ key e. apply Hwhere.
Qed.

Lemma reset_shape (w : world) :
  reset faults w
  = if delete_collection_raises faults (history w) then (Ok false, w)
    else (Ok (negb (create_collection_raises faults (history w))),
          {| collection := ∅; history := history w |}).
Proof.
  unfold reset, try_except, bind, may_raise, set_collection, ret. simpl.
  destruct (delete_collection_raises faults (history w)); [reflexivity|].
  now destruct (create_collection_raises faults (history w)).
Qed.

(** X8. [reset] always answers. After [True] no id is found and the count
    is zero; when [delete_collection] raised the answer is [False] and
    the collection is as it was. *)
Theorem reset_empties (w : world) :
  exists b w',
    reset faults w = (Ok b, w') /\
    history w' = history w /\
    (b = true ->
     (forall doc_id, fst (document_exists svc doc_id w') = Ok false) /\
     (forall directory,
        count_raises faults (history w') = false ->
        fst (get_stats faults directory w')
        = Ok {| total_documents := 0; persist_directory := directory |})) /\
    (delete_collection_raises faults (history w) = true ->
     b = false /\ collection w' = collection w).
Proof.
  rewrite reset_shape.
  destruct (delete_collection_raises faults (history w)).
  - exists false, w. repeat split; try reflexivity; discriminate.
  - eexists _, _. split; [reflexivity|]. split; [reflexivity|].
    split; [|discriminate]. intros _. split.
    + intros doc_id. rewrite document_exists_run. cbn [fst collection].
      f_equal. rewrite bool_decide_eq_false_2; [apply andb_false_r|].
      rewrite lookup_empty. intros [? H]. discriminate.
    + intros directory Hc.
      unfold get_stats, bind, may_raise, get_collection, ret.
      rewrite Hc. reflexivity.
Qed.

End WithServices.

End StoreFacts.

(** ** What indexing writes, and what it asks for *)

Module IndexingFacts.

Import Chunker VectorStore Indexer Maintenance.
Import EffectFacts ChunkerFacts IndexerFacts KeyFacts StoreFacts.

Lemma enumerate_lookup {A} (items : list A) (start i : Z) (x : A) :
  In (i, x) (enumerate start items) <->
  exists k : nat, i = (start + Z.of_nat k)%Z /\ items !! k = Some x.
Proof.
  revert start. induction items as [|y items IH]; intros start; cbn [enumerate].
  - split; [contradiction|]. now intros (k & _ & H).
  - split.
    + intros [[= <- <-]|H].
      * exists 0%nat. split; [lia|reflexivity].
      * apply IH in H as (k & -> & H). exists (S k). split; [lia|exact H].
    + intros ([|k] & -> & H).
      * injection H as <-. left. f_equal. lia.
      * right. apply IH. exists k. split; [lia|exact H].
Qed.

Lemma map_fst_enumerate {A} (items : list A) (start : Z) :
  map fst (enumerate start items)
  = map (fun k => (start + Z.of_nat k)%Z) (seq 0 (length items)).
Proof.
  revert start. induction items as [|y items IH]; intros start;
    cbn [enumerate]; simpl; [reflexivity|].
  f_equal; [lia|]. rewrite IH, <- seq_shift, map_map.
  apply map_ext. intros k. lia.
Qed.

Lemma embedded_texts_app (h1 h2 : list event) :
  embedded_texts (h1 ++ h2) = embedded_texts h1 ++ embedded_texts h2.
Proof. apply flat_map_app. Qed.

Lemma added_ids_app (h1 h2 : list event) :
  added_ids (h1 ++ h2) = added_ids h1 ++ added_ids h2.
Proof. apply flat_map_app. Qed.

Section WithServices.
Variable svc : services.

(** One pass of the loop over the chunks, case by case. *)
Lemma index_chunk_shape (doc_id total_chunks : Z) (metadata : gmap str str)
  (chunk_idx : Z) (chunk_text : str) (all_success : bool) (w : world) :
  index_chunk svc doc_id total_chunks metadata (chunk_idx, chunk_text)
    all_success w
  = let w1 := log (EvEmbed chunk_text) w in
    match ollama_embedding svc chunk_text (history w) with
    | Raise => (Raise, w1)
    | Ok [] => (Ok false, w1)
    | Ok ((_ :: _) as embedding) =>
        if chroma_add_raises svc (chunk_key doc_id chunk_idx) (history w1)
        then (Ok false, log (EvCollectionAdd (chunk_key doc_id chunk_idx)) w1)
        else (Ok all_success,
              {| collection :=
                   collection_add (chunk_key doc_id chunk_idx)
                     (chunk_entry doc_id total_chunks metadata chunk_idx
                        chunk_text embedding) (collection w);
                 history :=
                   history w1 ++ [EvCollectionAdd (chunk_key doc_id chunk_idx)] |})
    end.
Proof.
  unfold index_chunk, bind at 1, ask. cbv zeta.
  destruct (ollama_embedding svc chunk_text (history w)) as [[|x embedding]|];
    try reflexivity.
  unfold bind. rewrite add_document_shape.
  change (chroma_id_of (StrId (chunk_doc_id doc_id chunk_idx)))
    with (chunk_key doc_id chunk_idx).
  destruct (chroma_add_raises svc (chunk_key doc_id chunk_idx)
              (history (log (EvEmbed chunk_text) w))); reflexivity.
Qed.

(** The loop over the chunks leaves every entry it finds as it is, and
    what it adds are entries of the chunks it is given. *)
Lemma index_chunks_writes (doc_id total_chunks : Z) (metadata : gmap str str)
  (chunks : list str) (start : Z) (all_success : bool) (w w' : world)
  (r : exc bool) :
  for_each (enumerate start chunks)
    (index_chunk svc doc_id total_chunks metadata) all_success w = (r, w') ->
  (forall key e, collection w !! key = Some e ->
                 collection w' !! key = Some e) /\
  (forall key e,
     collection w' !! key = Some e ->
     collection w !! key = Some e \/
     exists k text embedding,
       In (k, text) (enumerate start chunks) /\
       key = chunk_key doc_id k /\
       e = chunk_entry doc_id total_chunks metadata k text embedding).
Proof.
  revert start all_success w. induction chunks as [|c chunks IH];
    intros start all_success w; cbn [enumerate].
  - intros [= <- <-]. split; [now intros|]. intros key e H. now left.
  - rewrite for_each_cons, index_chunk_shape. cbv zeta.
    destruct (ollama_embedding svc c (history w)) as [[|x embedding]|].
    + intros E. apply IH in E as [Hkeep Hnew]. split; [exact Hkeep|].
      intros key e H. apply Hnew in H as [H|(k & text & emb & Hin & -> & ->)];
        [now left|right]. exists k, text, emb. split; [now right|now split].
    + destruct (chroma_add_raises svc (chunk_key doc_id start) _).
      * intros E. apply IH in E as [Hkeep Hnew]. split; [exact Hkeep|].
        intros key e H. apply Hnew in H as [H|(k & text & emb & Hin & -> & ->)];
          [now left|right]. exists k, text, emb. split; [now right|now split].
      * intros E. apply IH in E as [Hkeep Hnew]. cbn [collection] in *. split.
        -- intros key e H. apply Hkeep. now apply collection_add_keeps.
        -- intros key e H.
           apply Hnew in H as [H|(k & text & emb & Hin & -> & ->)].
           ++ unfold collection_add in H.
              destruct (collection w !! chunk_key doc_id start) eqn:Ew;
                [now left|].
              destruct (decide (key = chunk_key doc_id start)) as [->|Hne].
              ** rewrite lookup_insert_eq in H. injection H as <-. right.
                 exists start, c, (x :: embedding). split; [now left|now split].
              ** rewrite lookup_insert_ne in H by congruence. now left.
           ++ right. exists k, text, emb. split; [now right|now split].
    + intros [= <- <-]. split; [now intros|]. intros key e H. now left.
Qed.

(** When the loop ends with [all_success] still [True], every chunk
    went to [collection.add], in order, and is in the collection. *)
Lemma index_chunks_all_added (doc_id total_chunks : Z)
  (metadata : gmap str str) (chunks : list str) (start : Z)
  (all_success : bool) (w w' : world) :
  for_each (enumerate start chunks)
    (index_chunk svc doc_id total_chunks metadata) all_success w
  = (Ok true, w') ->
  all_success = true /\
  added_ids (history w')
  = added_ids (history w)
    ++ map (fun item => chunk_key doc_id (fst item)) (enumerate start chunks) /\
  (forall k text, In (k, text) (enumerate start chunks) ->
                  is_Some (collection w' !! chunk_key doc_id k)).
Proof.
  revert start all_success w. induction chunks as [|c chunks IH];
    intros start all_success w; cbn [enumerate].
  - intros [= -> <-]. split; [reflexivity|]. split.
    + simpl. now rewrite app_nil_r.
    + intros k text [].
  - rewrite for_each_cons, index_chunk_shape. cbv zeta.
    destruct (ollama_embedding svc c (history w)) as [[|x embedding]|].
    + intros E. now apply IH in E as [[=] _].
    + destruct (chroma_add_raises svc (chunk_key doc_id start) _).
      * intros E. now apply IH in E as [[=] _].
      * intros E. pose proof E as Ekeep.
        apply index_chunks_writes in Ekeep as [Hkeep _].
        apply IH in E as (-> & Hids & Hall). split; [reflexivity|]. split.
        -- rewrite Hids. cbn [history log map fst].
           rewrite !added_ids_app. simpl. rewrite app_nil_r.
           now rewrite <- app_assoc.
        -- intros k text [[= <- <-]|Hin]; [|now apply (Hall k text)].
           destruct (collection_add_lookup (chunk_key doc_id start)
                       (chunk_entry doc_id total_chunks metadata start c
                          (x :: embedding)) (collection w)) as [e He].
           exists e. apply Hkeep. exact He.
    + discriminate.
Qed.

(** With an embedding provider that answers (an empty list when it
    fails), the loop goes over every chunk: none is skipped after a
    failure. *)
Lemma index_chunks_embeds_all (doc_id total_chunks : Z)
  (metadata : gmap str str) (chunks : list str) (start : Z)
  (all_success : bool) (w : world) :
  (forall text h, ollama_embedding svc text h <> Raise) ->
  exists b w',
    for_each (enumerate start chunks)
      (index_chunk svc doc_id total_chunks metadata) all_success w
    = (Ok b, w') /\
    embedded_texts (history w') = embedded_texts (history w) ++ chunks.
Proof.
  intros Hanswers. revert start all_success w.
  induction chunks as [|c chunks IH]; intros start all_success w;
    cbn [enumerate].
  - exists all_success, w. split; [reflexivity|]. now rewrite app_nil_r.
  - rewrite for_each_cons, index_chunk_shape. cbv zeta.
    pose proof (Hanswers c (history w)) as Hc.
    destruct (ollama_embedding svc c (history w)) as [[|x embedding]|];
      [| |contradiction].
    + destruct (IH (start + 1)%Z false (log (EvEmbed c) w))
        as (b & w' & -> & Hemb).
      exists b, w'. split; [reflexivity|]. rewrite Hemb. cbn [history log].
      rewrite embedded_texts_app. simpl. now rewrite <- app_assoc.
    + destruct (chroma_add_raises svc (chunk_key doc_id start) _).
      * destruct (IH (start + 1)%Z false
                    (log (EvCollectionAdd (chunk_key doc_id start))
                       (log (EvEmbed c) w))) as (b & w' & -> & Hemb).
        exists b, w'. split; [reflexivity|]. rewrite Hemb. cbn [history log].
        rewrite !embedded_texts_app. simpl. rewrite app_nil_r.
        now rewrite <- app_assoc.
      * match goal with
        | |- context [for_each _ _ ?acc ?w1] =>
            destruct (IH (start + 1)%Z acc w1) as (b & w' & -> & Hemb)
        end.
        exists b, w'. split; [reflexivity|]. rewrite Hemb. cbn [history log].
        rewrite !embedded_texts_app. simpl. rewrite app_nil_r.
        now rewrite <- app_assoc.
Qed.

(** [index_document] when it does not skip, be it that the re-index is
    forced, that the first chunk is not there, or that [collection.get]
    raised: the source is asked, and without content nothing else
    happens. *)
Lemma index_document_checked (doc_id : Z) (force_reindex : bool) (w : world) :
  (force_reindex = false ->
   negb (chroma_get_raises svc (chunk_key doc_id 0) (history w))
   && bool_decide (is_Some (collection w !! chunk_key doc_id 0)) = false) ->
  index_document svc doc_id force_reindex w
  = let w0 := log (EvGetDocument doc_id) (asked_in doc_id force_reindex w) in
    match fetched_content svc doc_id force_reindex w with
    | None => (Ok false, w0)
    | Some (document, content) =>
        match chunk_policy content with
        | None => (Ok false, w0)
        | Some chunks =>
            match for_each (enumerate 0 chunks)
                    (index_chunk svc doc_id (len chunks)
                       (document_metadata document)) true w0 with
            | (Ok b, w') => (Ok b, w')
            | (Raise, w') => (Ok false, w')
            end
        end
    end.
Proof.
  intros Habsent. unfold index_document, try_except, fetched_content.
  unfold bind at 1.
  assert (Hcheck :
            (if negb force_reindex
             then document_exists svc (StrId (chunk_doc_id doc_id 0))
             else ret false) w
            = (Ok false, asked_in doc_id force_reindex w)).
  { unfold asked_in. destruct force_reindex; simpl; [reflexivity|].
    rewrite document_exists_run. f_equal. f_equal.
    now apply Habsent. }
  rewrite Hcheck. unfold bind at 1, ask. cbv zeta.
  destruct (paperless_get_document svc doc_id
              (history (asked_in doc_id force_reindex w)))
    as [[document|]|]; try reflexivity.
  destruct (truthy (dict_get (d_content document) [])); [|reflexivity].
  cbn [negb].
  destruct (chunk_policy (dict_get (d_content document) []));
    [|reflexivity].
  now destruct (for_each _ _ _ _) as [[b|] w'].
Qed.

Lemma index_document_fresh (doc_id : Z) (force_reindex : bool) (w : world) :
  (force_reindex = false -> collection w !! chunk_key doc_id 0 = None) ->
  index_document svc doc_id force_reindex w
  = let w0 := log (EvGetDocument doc_id) (asked_in doc_id force_reindex w) in
    match fetched_content svc doc_id force_reindex w with
    | None => (Ok false, w0)
    | Some (document, content) =>
        match chunk_policy content with
        | None => (Ok false, w0)
        | Some chunks =>
            match for_each (enumerate 0 chunks)
                    (index_chunk svc doc_id (len chunks)
                       (document_metadata document)) true w0 with
            | (Ok b, w') => (Ok b, w')
            | (Raise, w') => (Ok false, w')
            end
        end
    end.
Proof.
  intros Habsent. apply index_document_checked. intros Hforce.
  rewrite bool_decide_eq_false_2; [apply andb_false_r|].
  rewrite (Habsent Hforce). intros [e He]. discriminate.
Qed.

(** X9. Without content to index, [index_document] answers [False], leaves
    the collection as it is, and neither asks for an embedding nor adds
    anything. *)
Theorem index_document_without_content (doc_id : Z) (force_reindex : bool)
  (w : world) :
  (force_reindex = false -> collection w !! chunk_key doc_id 0 = None) ->
  fetched_content svc doc_id force_reindex w = None ->
  exists w',
    index_document svc doc_id force_reindex w = (Ok false, w') /\
    collection w' = collection w /\
    embedded_texts (history w') = embedded_texts (history w) /\
    added_ids (history w') = added_ids (history w).
Proof.
  intros Habsent Hnone. rewrite index_document_fresh by exact Habsent.
  rewrite Hnone. cbv zeta. eexists. split; [reflexivity|].
  unfold asked_in. destruct force_reindex; cbn [collection history log].
  - rewrite embedded_texts_app, added_ids_app. simpl.
    now rewrite !app_nil_r.
  - rewrite !embedded_texts_app, !added_ids_app. simpl.
    now rewrite !app_nil_r.
Qed.

(** A call that does not skip and answers [True] went through the loop
    over the chunks of the fetched content. *)
Lemma index_document_loop (doc_id : Z) (force_reindex : bool)
  (w w' : world) :
  (force_reindex = false -> collection w !! chunk_key doc_id 0 = None) ->
  index_document svc doc_id force_reindex w = (Ok true, w') ->
  exists document content chunks,
    fetched_content svc doc_id force_reindex w = Some (document, content) /\
    chunk_policy content = Some chunks /\
    for_each (enumerate 0 chunks)
      (index_chunk svc doc_id (len chunks) (document_metadata document)) true
      (log (EvGetDocument doc_id) (asked_in doc_id force_reindex w))
    = (Ok true, w').
Proof.
  intros Habsent. rewrite index_document_fresh by exact Habsent. cbv zeta.
  destruct (fetched_content svc doc_id force_reindex w)
    as [[document content]|] eqn:Efetch; [|discriminate].
  destruct (chunk_policy content) as [chunks|] eqn:Echunks; [|discriminate].
  destruct (for_each _ _ _ _) as [[b|] w1] eqn:Eloop; [|discriminate].
  intros [= -> ->]. now exists document, content, chunks.
Qed.

Lemma asked_in_collection (doc_id : Z) (force_reindex : bool) (w : world) :
  collection (log (EvGetDocument doc_id) (asked_in doc_id force_reindex w))
  = collection w.
Proof. unfold asked_in. now destruct force_reindex. Qed.

Lemma asked_in_added (doc_id : Z) (force_reindex : bool) (w : world) :
  added_ids (history (log (EvGetDocument doc_id)
                        (asked_in doc_id force_reindex w)))
  = added_ids (history w).
Proof.
  unfold asked_in. destruct force_reindex; cbn [history log];
    rewrite ?added_ids_app; simpl; now rewrite ?app_nil_r.
Qed.

(** The collection after a call that did not skip and answered
    [True]: every chunk is there, what was there is unchanged, and what
    is new are chunks of the fetched content. *)
Lemma index_document_stores (doc_id : Z) (force_reindex : bool)
  (w w' : world) :
  (force_reindex = false -> collection w !! chunk_key doc_id 0 = None) ->
  index_document svc doc_id force_reindex w = (Ok true, w') ->
  exists document content chunks,
    fetched_content svc doc_id force_reindex w = Some (document, content) /\
    chunk_policy content = Some chunks /\
    (forall key, In key (chunk_keys doc_id (length chunks)) ->
                 is_Some (collection w' !! key)) /\
    (forall key e, collection w !! key = Some e ->
                   collection w' !! key = Some e) /\
    (forall key e,
       collection w' !! key = Some e ->
       collection w !! key = Some e \/
       exists (k : nat) text embedding,
         chunks !! k = Some text /\
         key = chunk_key doc_id (Z.of_nat k) /\
         e = chunk_entry doc_id (len chunks) (document_metadata document)
               (Z.of_nat k) text embedding).
Proof.
  intros Habsent Hrun.
  destruct (index_document_loop doc_id force_reindex w w' Habsent Hrun)
    as (document & content & chunks & Hfetch & Hchunks & Eloop).
  exists document, content, chunks.
  split; [exact Hfetch|]. split; [exact Hchunks|].
  pose proof (index_chunks_all_added _ _ _ _ _ _ _ _ Eloop)
    as (_ & _ & Hall).
  pose proof (index_chunks_writes _ _ _ _ _ _ _ _ _ Eloop) as [Hkeep Hnew].
  rewrite asked_in_collection in Hkeep, Hnew.
  split; [|split; [exact Hkeep|]].
  - intros key Hin. unfold chunk_keys in Hin.
    apply in_map_iff in Hin as (k & <- & Hk). apply in_seq in Hk.
    destruct (lookup_lt_is_Some_2 chunks k ltac:(lia)) as [text Htext].
    apply (Hall (Z.of_nat k) text). apply enumerate_lookup.
    exists k. split; [lia|exact Htext].
  - intros key e H. apply Hnew in H as [H|(k & text & emb & Hin & -> & ->)];
      [now left|right].
    apply enumerate_lookup in Hin as (n & -> & Hn).
    exists n, text, emb. now repeat split.
Qed.

(** X10. What a call that answers [True] has written. The document was
    fetched with content; every chunk of it went to [collection.add], in
    order, and is in the collection; the entries that were there before
    are unchanged, also under the keys of this document; and every new
    entry is the first 500 characters of a chunk with the document's
    metadata. *)
Theorem index_document_writes (doc_id : Z) (force_reindex : bool)
  (w w' : world) :
  (force_reindex = false -> collection w !! chunk_key doc_id 0 = None) ->
  index_document svc doc_id force_reindex w = (Ok true, w') ->
  exists document content chunks,
    fetched_content svc doc_id force_reindex w = Some (document, content) /\
    chunk_policy content = Some chunks /\
    added_ids (history w')
    = added_ids (history w) ++ chunk_keys doc_id (length chunks) /\
    (forall key, In key (chunk_keys doc_id (length chunks)) ->
                 is_Some (collection w' !! key)) /\
    (forall key e, collection w !! key = Some e ->
                   collection w' !! key = Some e) /\
    (forall key e,
       collection w' !! key = Some e ->
       collection w !! key = Some e \/
       exists (k : nat) text embedding,
         chunks !! k = Some text /\
         key = chunk_key doc_id (Z.of_nat k) /\
         e = chunk_entry doc_id (len chunks) (document_metadata document)
               (Z.of_nat k) text embedding).
Proof.
  intros Habsent Hrun.
  destruct (index_document_stores doc_id force_reindex w w' Habsent Hrun)
    as (document & content & chunks & Hfetch & Hchunks & Hall & Hkeep & Hnew).
  exists document, content, chunks.
  split; [exact Hfetch|]. split; [exact Hchunks|].
  split; [|now repeat split].
  destruct (index_document_loop doc_id force_reindex w w' Habsent Hrun)
    as (document' & content' & chunks' & Hfetch' & Hchunks' & Eloop).
  rewrite Hfetch in Hfetch'. injection Hfetch' as <- <-.
  rewrite Hchunks in Hchunks'. injection Hchunks' as <-.
  apply index_chunks_all_added in Eloop as (_ & Hids & _).
  rewrite asked_in_added in Hids. rewrite Hids. f_equal. unfold chunk_keys.
  rewrite <- (map_map fst (chunk_key doc_id)), map_fst_enumerate, map_map.
  reflexivity.
Qed.

(** X11. With an embedding provider that answers (an empty list when it
    fails), a document with content has every chunk sent for embedding,
    in order, whatever happens to the chunks before it. *)
Theorem index_document_embeds_every_chunk (doc_id : Z) (force_reindex : bool)
  (w : world) (document : document) (content : str) (chunks : list str) :
  (forall text h, ollama_embedding svc text h <> Raise) ->
  (force_reindex = false -> collection w !! chunk_key doc_id 0 = None) ->
  fetched_content svc doc_id force_reindex w = Some (document, content) ->
  chunk_policy content = Some chunks ->
  exists b w',
    index_document svc doc_id force_reindex w = (Ok b, w') /\
    embedded_texts (history w') = embedded_texts (history w) ++ chunks.
Proof.
  intros Hanswers Habsent Hfetch Hchunks.
  rewrite index_document_fresh by exact Habsent. cbv zeta.
  rewrite Hfetch, Hchunks.
  destruct (index_chunks_embeds_all doc_id (len chunks)
              (document_metadata document) chunks 0 true
              (log (EvGetDocument doc_id) (asked_in doc_id force_reindex w))
              Hanswers) as (b & w' & -> & Hemb).
  exists b, w'. split; [reflexivity|]. rewrite Hemb. f_equal.
  unfold asked_in. destruct force_reindex; cbn [history log];
    rewrite ?embedded_texts_app; simpl; now rewrite ?app_nil_r.
Qed.

End WithServices.

Lemma index_document_without_content_witness :
  exists w',
    index_document Fixtures.sample_services 7 false Fixtures.empty_world
    = (Ok false, w') /\
    collection w' = collection Fixtures.empty_world /\
    embedded_texts (history w') = embedded_texts (history Fixtures.empty_world) /\
    added_ids (history w') = added_ids (history Fixtures.empty_world).
Proof.
  apply (index_document_without_content Fixtures.sample_services 7 false
           Fixtures.empty_world).
  - intros _. reflexivity.
  - reflexivity.
Defined.

Lemma index_document_writes_witness :
  exists document content chunks,
    fetched_content Fixtures.library_services 7 false Fixtures.empty_world
    = Some (document, content) /\
    chunk_policy content = Some chunks /\
    added_ids (history Fixtures.indexed_world)
    = added_ids (history Fixtures.empty_world)
      ++ chunk_keys 7 (length chunks) /\
    (forall key, In key (chunk_keys 7 (length chunks)) ->
                 is_Some (collection Fixtures.indexed_world !! key)) /\
    (forall key e, collection Fixtures.empty_world !! key = Some e ->
                   collection Fixtures.indexed_world !! key = Some e) /\
    (forall key e,
       collection Fixtures.indexed_world !! key = Some e ->
       collection Fixtures.empty_world !! key = Some e \/
       exists (k : nat) text embedding,
         chunks !! k = Some text /\
         key = chunk_key 7 (Z.of_nat k) /\
         e = chunk_entry 7 (len chunks) (document_metadata document)
               (Z.of_nat k) text embedding).
Proof.
  apply (index_document_writes Fixtures.library_services 7 false
           Fixtures.empty_world Fixtures.indexed_world).
  - intros _. reflexivity.
  - vm_compute. reflexivity.
Defined.

Lemma index_document_embeds_every_chunk_witness :
  exists b w',
    index_document Samples.archive_services 7 true Fixtures.empty_world
    = (Ok b, w') /\
    embedded_texts (history w')
    = embedded_texts (history Fixtures.empty_world)
      ++ [repeat 97%N 1500; repeat 97%N 700].
Proof.
  apply (index_document_embeds_every_chunk Samples.archive_services 7 true
           Fixtures.empty_world Samples.long_document (repeat 97%N 2000)).
  - intros text h. discriminate.
  - discriminate.
  - reflexivity.
  - vm_compute. reflexivity.
Defined.

End IndexingFacts.

(** ** Re-indexing, the batch counts and the index status *)

Module ReindexFacts.

Import Chunker VectorStore Indexer Maintenance.
Import EffectFacts ChunkerFacts IndexerFacts KeyFacts StoreFacts IndexingFacts.

Lemma chunk_entry_tagged (doc_id total_chunks : Z) (metadata : gmap str str)
  (k : Z) (text : str) (embedding : list Q) :
  e_metadata (chunk_entry doc_id total_chunks metadata k text embedding)
    !! of_string "doc_id_original" = Some (str_of_int doc_id).
Proof. unfold chunk_entry, chunk_metadata. cbn [e_metadata]. apply lookup_insert_eq. Qed.

Lemma in_chunk_keys (doc_id k : Z) (n : nat) :
  (0 <= k < Z.of_nat n)%Z -> In (chunk_key doc_id k) (chunk_keys doc_id n).
Proof.
  intros Hk. unfold chunk_keys. apply in_map_iff. exists (Z.to_nat k).
  split; [f_equal; lia|]. apply in_seq. lia.
Qed.

Section WithServices.
Variable svc : services.
Variable faults : store_faults.

(** With a store that does not raise, the deletion goes through. *)
Lemma delete_all_document_chunks_done (doc_id : Z) (w : world) :
  get_where_raises faults (str_of_int doc_id) (history w) = false ->
  (forall ids, delete_raises faults ids (history w) = false) ->
  exists w1,
    delete_all_document_chunks faults doc_id w = (Ok true, w1) /\
    history w1 = history w /\
    forall key e,
      collection w1 !! key = Some e <->
      collection w !! key = Some e /\
      e_metadata e !! of_string "doc_id_original" <> Some (str_of_int doc_id).
Proof.
  intros Hget Hdel. rewrite delete_all_document_chunks_shape, Hget.
  pose proof (collection_delete_where (str_of_int doc_id) (collection w))
    as Hwhere.
  destruct (ids_where_original (str_of_int doc_id) (collection w))
    as [|id ids].
  - exists w. split; [reflexivity|]. split; [reflexivity|exact Hwhere].
  - cbv zeta. rewrite Hdel. eexists. split; [reflexivity|].
    split; [reflexivity|exact Hwhere].
Qed.

(** X12. [reindex_document] replaces. In a collection written by the
    indexer, with a store that does not raise on removal, a re-index
    that answers [True] leaves under the document's keys exactly the
    chunks of the content just fetched, chunk for chunk; the chunks of
    other documents are as they were. *)
Theorem reindex_document_replaces (doc_id : Z) (w w' : world) :
  indexer_written (collection w) ->
  get_where_raises faults (str_of_int doc_id) (history w) = false ->
  (forall ids, delete_raises faults ids (history w) = false) ->
  reindex_document svc faults doc_id w = (Ok true, w') ->
  exists document content chunks,
    fetched_content svc doc_id true w = Some (document, content) /\
    chunk_policy content = Some chunks /\
    (forall k, is_Some (collection w' !! chunk_key doc_id k) <->
               (0 <= k < len chunks)%Z) /\
    (forall (k : nat) text,
       chunks !! k = Some text ->
       exists embedding,
         collection w' !! chunk_key doc_id (Z.of_nat k)
         = Some (chunk_entry doc_id (len chunks) (document_metadata document)
                   (Z.of_nat k) text embedding)) /\
    (forall doc_id' k,
       doc_id' <> doc_id ->
       collection w' !! chunk_key doc_id' k
       = collection w !! chunk_key doc_id' k) /\
    indexer_written (collection w').
Proof.
  intros Hwritten Hget Hdel. unfold reindex_document, bind.
  destruct (delete_all_document_chunks_done doc_id w Hget Hdel)
    as (w1 & -> & Hhist & Hw1).
  intros Hrun.
  assert (Hgone : forall k, collection w1 !! chunk_key doc_id k = None).
  { intros k. destruct (collection w1 !! chunk_key doc_id k) as [e|] eqn:E;
      [|reflexivity].
    apply Hw1 in E as [E Htag].
    destruct (Hwritten _ _ E) as (d & k' & Hkey & Htag').
    apply chunk_key_inj in Hkey as [<- _]. contradiction. }
  destruct (index_document_stores svc doc_id true w1 w' ltac:(discriminate) Hrun)
    as (document & content & chunks & Hfetch & Hchunks & Hall & Hkeep & Hnew).
  exists document, content, chunks.
  assert (Hfetch' : fetched_content svc doc_id true w = Some (document, content)).
  { revert Hfetch. unfold fetched_content, asked_in. now rewrite Hhist. }
  split; [exact Hfetch'|]. split; [exact Hchunks|].
  assert (Hentry : forall k e,
            collection w' !! chunk_key doc_id k = Some e ->
            exists (n : nat) text embedding,
              k = Z.of_nat n /\ chunks !! n = Some text /\
              e = chunk_entry doc_id (len chunks) (document_metadata document)
                    (Z.of_nat n) text embedding).
  { intros k e He. apply Hnew in He as [He|(n & text & emb & Hn & Hkey & ->)].
    - now rewrite Hgone in He.
    - apply chunk_key_inj in Hkey as [_ ->]. now exists n, text, emb. }
  split; [|split; [|split]].
  - intros k. split.
    + intros [e He]. apply Hentry in He as (n & text & _ & -> & Hn & _).
      apply lookup_lt_Some in Hn. unfold len. lia.
    + intros Hk. apply Hall. apply in_chunk_keys. exact Hk.
  - intros k text Hk.
    destruct (Hall (chunk_key doc_id (Z.of_nat k))) as [e He].
    { apply in_chunk_keys. apply lookup_lt_Some in Hk. lia. }
    destruct (Hentry _ _ He) as (n & text' & emb & Hn & Htext & ->).
    apply Nat2Z.inj in Hn. subst n. rewrite Hk in Htext.
    injection Htext as <-. now exists emb.
  - intros d k Hd.
    destruct (collection w !! chunk_key d k) as [e|] eqn:Ew.
    + apply Hkeep. apply Hw1. split; [exact Ew|].
      destruct (Hwritten _ _ Ew) as (d' & k' & Hkey & Htag).
      apply chunk_key_inj in Hkey as [<- _]. rewrite Htag.
      intros [= E]. apply str_of_int_inj in E. contradiction.
    + destruct (collection w' !! chunk_key d k) as [e|] eqn:Ew';
        [|reflexivity].
      apply Hnew in Ew' as [E|(n & text & emb & _ & Hkey & _)].
      * apply Hw1 in E as [E _]. congruence.
      * apply chunk_key_inj in Hkey as [-> _]. contradiction.
  - intros key e He. apply Hnew in He as [He|(n & text & emb & _ & -> & ->)].
    + apply Hw1 in He as [He _]. now apply (Hwritten key e).
    + exists doc_id, (Z.of_nat n). split; [reflexivity|].
      apply chunk_entry_tagged.
Qed.

(** X13. A forced re-index without the deletion replaces nothing: a chunk
    that is already stored stays as it is, although the call may answer
    [True]. *)
Theorem forced_index_keeps_stale_chunks (doc_id : Z) (w : world) (key : str)
  (e : entry) :
  collection w !! key = Some e ->
  exists b w',
    index_document svc doc_id true w = (Ok b, w') /\
    collection w' !! key = Some e.
Proof.
  intros He. rewrite index_document_fresh by discriminate. cbv zeta.
  destruct (fetched_content svc doc_id true w) as [[document content]|].
  - destruct (chunk_policy content) as [chunks|].
    + destruct (for_each _ _ _ _) as [r w1] eqn:Eloop.
      apply index_chunks_writes in Eloop as [Hkeep _].
      destruct r as [b|]; eexists _, _; (split; [reflexivity|]);
        apply Hkeep; exact He.
    + eexists _, _. split; [reflexivity|]. exact He.
  - eexists _, _. split; [reflexivity|]. exact He.
Qed.

Lemma index_one_counts (doc_id : Z) (st : stats) (w : world) :
  exists st' w',
    index_one svc doc_id st w = (Ok st', w') /\
    (indexed st <= indexed st')%Z /\ (skipped st <= skipped st')%Z /\
    (failed st <= failed st')%Z /\
    (indexed st' + skipped st' + failed st'
     = indexed st + skipped st + failed st + 1)%Z.
Proof.
  unfold index_one, bind at 1. rewrite document_exists_run.
  destruct (_ && _).
  - eexists _, _. split; [reflexivity|]. cbn. lia.
  - unfold bind.
    destruct (index_document_run svc doc_id false
                (log (EvCollectionGet (chroma_id_of (IntId doc_id))) w))
      as (b & w' & -> & _).
    destruct b; eexists _, _; (split; [reflexivity|]); cbn; lia.
Qed.

Lemma index_loop_counts (all_documents : list Z) (st : stats) (w : world) :
  exists st' w',
    index_loop svc all_documents st w = (Ok st', w') /\
    (indexed st <= indexed st')%Z /\ (skipped st <= skipped st')%Z /\
    (failed st <= failed st')%Z /\
    (indexed st' + skipped st' + failed st'
     = indexed st + skipped st + failed st + len all_documents)%Z.
Proof.
  revert st w. induction all_documents as [|doc_id rest IH]; intros st w.
  - exists st, w. split; [reflexivity|]. unfold len. simpl. lia.
  - cbn [index_loop]. unfold bind at 1, try_except, bind at 1.
    destruct (index_one_counts doc_id st w) as (st1 & w1 & -> & H1).
    cbn [ret].
    destruct (IH st1 w1) as (st' & w' & -> & H2).
    exists st', w'. split; [reflexivity|]. unfold len in *.
    cbn [length]. lia.
Qed.

(** X14. [index_all_documents] always answers, and every listed document is
    counted once: the three counts are not negative and add up to the
    number of documents the source listed. When the listing fails all
    three are zero and the collection is as it was. *)
Theorem index_all_documents_counts (w : world) :
  exists st w',
    index_all_documents svc w = (Ok st, w') /\
    (0 <= indexed st)%Z /\ (0 <= skipped st)%Z /\ (0 <= failed st)%Z /\
    match paperless_get_all_documents svc (history w) with
    | Ok all_documents =>
        (indexed st + skipped st + failed st = len all_documents)%Z
    | Raise =>
        (indexed st + skipped st + failed st = 0)%Z /\
        collection w' = collection w
    end.
Proof.
  unfold index_all_documents, try_except, bind, ask.
  destruct (paperless_get_all_documents svc (history w)) as [docs|].
  - destruct (index_loop_counts docs
                {| indexed := 0; skipped := 0; failed := 0 |}
                (log EvGetAllDocuments w)) as (st & w' & -> & H).
    exists st, w'. split; [reflexivity|]. cbn in H. lia.
  - eexists _, _. split; [reflexivity|]. cbn. repeat split; lia.
Qed.

End WithServices.

End ReindexFacts.

(** ** The index status, and what every operation keeps *)

Module StatusFacts.

Import Chunker VectorStore Indexer Maintenance.
Import EffectFacts ChunkerFacts IndexerFacts KeyFacts StoreFacts IndexingFacts.
Import ReindexFacts.

Lemma chunk_keys_NoDup (doc_id : Z) (n : nat) : NoDup (chunk_keys doc_id n).
Proof.
  unfold chunk_keys.
  change (NoDup ((fun k => chunk_key doc_id (Z.of_nat k)) <$> seq 0 n)).
  apply NoDup_fmap_2; [|apply NoDup_seq].
  intros a b E. apply chunk_key_inj in E as [_ E]. lia.
Qed.

Lemma chunk_keys_length (doc_id : Z) (n : nat) :
  length (chunk_keys doc_id n) = n.
Proof. unfold chunk_keys. now rewrite length_map, length_seq. Qed.

Lemma indexer_written_empty : indexer_written ∅.
Proof. intros key e H. now rewrite lookup_empty in H. Qed.

Lemma stale_world_written : indexer_written (collection Samples.stale_world).
Proof.
  intros key e H. unfold Samples.stale_world in H. cbn [collection] in H.
  apply lookup_insert_Some in H as [[<- <-]|[_ H]].
  { exists 7%Z, 0%Z. split; [reflexivity|apply chunk_entry_tagged]. }
  apply lookup_insert_Some in H as [[<- <-]|[_ H]].
  { exists 7%Z, 1%Z. split; [reflexivity|apply chunk_entry_tagged]. }
  apply lookup_insert_Some in H as [[<- <-]|[_ H]].
  { exists 8%Z, 0%Z. split; [reflexivity|apply chunk_entry_tagged]. }
  now rewrite lookup_empty in H.
Qed.

Section WithServices.
Variable svc : services.
Variable faults : store_faults.

(** X15. The index status counts chunks. After a document has been indexed
    into an empty collection, [indexed_documents] is the number of its
    chunks, whatever the number of documents the source lists. *)
Theorem index_status_counts_chunks (doc_id : Z) (force_reindex : bool)
  (w w' : world) (directory : str) (all_docs : list Z) :
  collection w = ∅ ->
  index_document svc doc_id force_reindex w = (Ok true, w') ->
  count_raises faults (history w') = false ->
  paperless_get_all_documents svc (history w') = Ok all_docs ->
  exists document content chunks,
    fetched_content svc doc_id force_reindex w = Some (document, content) /\
    chunk_policy content = Some chunks /\
    fst (get_indexing_stats svc faults directory w')
    = Ok (Some {| total_paperless_documents := len all_docs;
                  indexed_documents := len chunks;
                  indexing_progress :=
                    str_of_int (len chunks) ++ of_string "/"
                    ++ str_of_int (len all_docs) |}).
Proof.
  intros Hempty Hrun Hcount Hlist.
  destruct (index_document_stores svc doc_id force_reindex w w')
    as (document & content & chunks & Hfetch & Hchunks & Hall & _ & Hnew);
    [intros _; now rewrite Hempty|exact Hrun|].
  exists document, content, chunks.
  split; [exact Hfetch|]. split; [exact Hchunks|].
  assert (Hsize : Z.of_nat (size (collection w')) = len chunks).
  { unfold len. f_equal.
    rewrite <- (chunk_keys_length doc_id (length chunks)).
    rewrite <- (size_list_to_set (C := gset str))
      by apply chunk_keys_NoDup.
    rewrite <- (size_dom (D := gset str)). f_equal.
    apply set_eq. intros key. rewrite elem_of_dom, elem_of_list_to_set.
    rewrite list_elem_of_In. split.
    - intros [e He]. apply Hnew in He as [He|(n & text & _ & Hn & -> & _)].
      + now rewrite Hempty, lookup_empty in He.
      + apply in_chunk_keys. apply lookup_lt_Some in Hn. lia.
    - apply Hall. }
  unfold get_indexing_stats, try_except, bind at 1, get_stats, bind at 1,
    may_raise.
  rewrite Hcount. unfold bind, get_collection, ret, ask.
  rewrite Hlist. cbn [fst total_documents]. now rewrite Hsize.
Qed.

Lemma index_document_written (doc_id : Z) (force_reindex : bool)
  (w : world) :
  indexer_written (collection w) ->
  indexer_written (collection (snd (index_document svc doc_id force_reindex w))).
Proof.
  intros Hwritten.
  destruct (negb force_reindex
            && (negb (chroma_get_raises svc (chunk_key doc_id 0) (history w))
                && bool_decide (is_Some (collection w !! chunk_key doc_id 0))))
    eqn:Eskip.
  - apply andb_prop in Eskip as [Eforce Eskip].
    apply andb_prop in Eskip as [Eget Efirst].
    apply negb_true_iff in Eforce as ->. apply negb_true_iff in Eget.
    apply bool_decide_eq_true in Efirst.
    rewrite index_document_skips by assumption. exact Hwritten.
  - rewrite index_document_checked
      by (intros ->; exact Eskip). cbv zeta.
    assert (Hasked : collection (log (EvGetDocument doc_id)
                                   (asked_in doc_id force_reindex w))
                     = collection w)
      by (unfold asked_in; now destruct force_reindex).
    destruct (fetched_content svc doc_id force_reindex w)
      as [[document content]|]; [|cbn [snd]; now rewrite Hasked].
    destruct (chunk_policy content) as [chunks|]; [|cbn [snd]; now rewrite Hasked].
    destruct (for_each _ _ _ _) as [r w1] eqn:Eloop.
    apply index_chunks_writes in Eloop as [_ Hnew]. rewrite Hasked in Hnew.
    assert (Hw1 : indexer_written (collection w1)).
    { intros key e He.
      apply Hnew in He as [He|(k & text & emb & _ & -> & ->)].
      - now apply (Hwritten key e).
      - exists doc_id, k. split; [reflexivity|apply chunk_entry_tagged]. }
    now destruct r.
Qed.

Lemma index_loop_written (all_documents : list Z) (st : stats) (w : world) :
  indexer_written (collection w) ->
  indexer_written (collection (snd (index_loop svc all_documents st w))).
Proof.
  revert st w. induction all_documents as [|doc_id rest IH];
    intros st w Hwritten; [exact Hwritten|].
  cbn [index_loop]. unfold bind at 1, try_except, bind at 1.
  assert (Hone : indexer_written
                   (collection (snd (index_one svc doc_id st w)))).
  { unfold index_one, bind at 1. rewrite document_exists_run.
    destruct (_ && _); [exact Hwritten|].
    unfold bind.
    pose proof (index_document_written doc_id false
                  (log (EvCollectionGet (chroma_id_of (IntId doc_id))) w)
                  Hwritten) as H.
    destruct (index_document svc doc_id false _) as [[[|]|] w1];
      exact H. }
  destruct (index_one svc doc_id st w) as [[st1|] w1]; cbn [ret snd] in *.
  - now apply IH.
  - exact Hone.
Qed.

Lemma delete_all_document_chunks_written (doc_id : Z) (w : world) :
  indexer_written (collection w) ->
  indexer_written
    (collection (snd (delete_all_document_chunks faults doc_id w))).
Proof.
  intros Hwritten. rewrite delete_all_document_chunks_shape.
  destruct (get_where_raises faults (str_of_int doc_id) (history w));
    [exact Hwritten|].
  destruct (ids_where_original (str_of_int doc_id) (collection w))
    as [|id ids]; [exact Hwritten|]. cbv zeta.
  destruct (delete_raises faults (id :: ids) (history w)); [exact Hwritten|].
  intros key e He. cbn [snd collection] in He.
  rewrite lookup_collection_delete in He.
  destruct (decide (key ∈ id :: ids)); [discriminate|].
  now apply (Hwritten key e).
Qed.

(** X16. What every indexing operation keeps: a collection written by the
    indexer stays one, through indexing a document, forced or not,
    through the batch, and through a re-index, whatever the
    collaborators answer. *)
Theorem indexer_written_kept (w : world) :
  indexer_written (collection w) ->
  (forall doc_id force_reindex,
     indexer_written
       (collection (snd (index_document svc doc_id force_reindex w)))) /\
  indexer_written (collection (snd (index_all_documents svc w))) /\
  (forall doc_id,
     indexer_written
       (collection (snd (delete_all_document_chunks faults doc_id w)))) /\
  (forall doc_id,
     indexer_written
       (collection (snd (reindex_document svc faults doc_id w)))).
Proof.
  intros Hwritten. split; [|split; [|split]].
  - intros doc_id force_reindex. now apply index_document_written.
  - unfold index_all_documents, try_except, bind, ask.
    destruct (paperless_get_all_documents svc (history w)) as [docs|];
      [|exact Hwritten].
    pose proof (index_loop_written docs
                  {| indexed := 0; skipped := 0; failed := 0 |}
                  (log EvGetAllDocuments w) Hwritten) as H.
    now destruct (index_loop svc docs _ _) as [[st|] w'].
  - intros doc_id. now apply delete_all_document_chunks_written.
  - intros doc_id. unfold reindex_document, bind.
    pose proof (delete_all_document_chunks_written doc_id w Hwritten) as H.
    destruct (delete_all_document_chunks faults doc_id w) as [[b|] w1];
      cbn [snd] in *; [|exact H].
    now apply index_document_written.
Qed.

End WithServices.

Lemma index_status_counts_chunks_witness :
  exists document content chunks,
    fetched_content Samples.archive_services 7 true Fixtures.empty_world
    = Some (document, content) /\
    chunk_policy content = Some chunks /\
    fst (get_indexing_stats Samples.archive_services no_faults
           (of_string "data/chromadb") Samples.archive_world)
    = Ok (Some {| total_paperless_documents := len [7%Z];
                  indexed_documents := len chunks;
                  indexing_progress :=
                    str_of_int (len chunks) ++ of_string "/"
                    ++ str_of_int (len [7%Z]) |}).
Proof.
  apply (index_status_counts_chunks Samples.archive_services no_faults 7 true
           Fixtures.empty_world Samples.archive_world).
  - reflexivity.
  - vm_compute. reflexivity.
  - reflexivity.
  - reflexivity.
Defined.

Lemma indexer_written_kept_witness :
  (forall doc_id force_reindex,
     indexer_written
       (collection (snd (index_document Fixtures.library_services doc_id
                           force_reindex Samples.stale_world)))) /\
  indexer_written
    (collection (snd (index_all_documents Fixtures.library_services
                        Samples.stale_world))) /\
  (forall doc_id,
     indexer_written
       (collection (snd (delete_all_document_chunks no_faults doc_id
                           Samples.stale_world)))) /\
  (forall doc_id,
     indexer_written
       (collection (snd (reindex_document Fixtures.library_services no_faults
                           doc_id Samples.stale_world)))).
Proof.
  apply (indexer_written_kept Fixtures.library_services no_faults
           Samples.stale_world).
  apply stale_world_written.
Defined.

Lemma reindex_document_replaces_witness :
  exists document content chunks,
    fetched_content Fixtures.library_services 7 true Samples.stale_world
    = Some (document, content) /\
    chunk_policy content = Some chunks /\
    (forall k, is_Some (collection Samples.reindexed_world !! chunk_key 7 k) <->
               (0 <= k < len chunks)%Z) /\
    (forall (k : nat) text,
       chunks !! k = Some text ->
       exists embedding,
         collection Samples.reindexed_world !! chunk_key 7 (Z.of_nat k)
         = Some (chunk_entry 7 (len chunks) (document_metadata document)
                   (Z.of_nat k) text embedding)) /\
    (forall doc_id' k,
       doc_id' <> 7%Z ->
       collection Samples.reindexed_world !! chunk_key doc_id' k
       = collection Samples.stale_world !! chunk_key doc_id' k) /\
    indexer_written (collection Samples.reindexed_world).
Proof.
  apply (reindex_document_replaces Fixtures.library_services no_faults 7
           Samples.stale_world Samples.reindexed_world).
  - apply stale_world_written.
  - reflexivity.
  - intros ids. reflexivity.
  - vm_compute. reflexivity.
Defined.

Lemma forced_index_keeps_stale_chunks_witness :
  exists b w',
    index_document Fixtures.library_services 7 true Samples.stale_world
    = (Ok b, w') /\
    collection w' !! chunk_key 7 0 = Some (Samples.stale_entry 7 0).
Proof.
  apply (forced_index_keeps_stale_chunks Fixtures.library_services 7
           Samples.stale_world (chunk_key 7 0) (Samples.stale_entry 7 0)).
  vm_compute. reflexivity.
Defined.

End StatusFacts.

(** ** Retrieval leaves the collection alone *)

Module TraceFacts.

Import VectorStore MetadataExtractor QASystem WebApp Traces.
Import EffectFacts.

Section Keeps.
Context {X : Type} (f : world -> X).

Lemma keeps_ret {A} (a : A) : keeps f (ret a).
Proof. now intros w. Qed.

Lemma keeps_raise {A} : keeps f (@raise A).
Proof. now intros w. Qed.

Lemma keeps_lift_exc {A} (e : exc A) : keeps f (lift_exc e).
Proof. now intros w. Qed.

Lemma keeps_bind {A B} (m : M A) (k : A -> M B) :
  keeps f m -> (forall a, keeps f (k a)) -> keeps f (bind m k).
Proof.
  intros Hm Hk w. unfold bind. specialize (Hm w).
  destruct (m w) as [[a|] w1]; cbn [snd] in *; [|exact Hm].
  now rewrite Hk.
Qed.

Lemma keeps_try_except {A} (m handler : M A) :
  keeps f m -> keeps f handler -> keeps f (try_except m handler).
Proof.
  intros Hm Hh w. unfold try_except. specialize (Hm w).
  destruct (m w) as [[a|] w1]; cbn [snd] in *; [exact Hm|].
  now rewrite Hh.
Qed.

Lemma keeps_ask {A} (ev : event) (oracle : list event -> exc A) :
  (forall w, f (log ev w) = f w) -> keeps f (ask ev oracle).
Proof. intros H w. apply H. Qed.

Lemma keeps_for_each {A S} (items : list A) (body : A -> S -> M S)
  (acc : S) :
  (forall x s, keeps f (body x s)) -> keeps f (for_each items body acc).
Proof.
  intros Hbody. revert acc. induction items as [|x items IH]; intros acc.
  - apply keeps_ret.
  - cbn [for_each]. apply keeps_bind; [apply Hbody|exact IH].
Qed.

Lemma keeps_if {A} (b : bool) (m1 m2 : M A) :
  keeps f m1 -> keeps f m2 -> keeps f (if b then m1 else m2).
Proof. now destruct b. Qed.

End Keeps.

Lemma read_only_get_collection : read_only get_collection.
Proof. now intros w. Qed.

Lemma read_only_ask {A} (ev : event) (oracle : list event -> exc A) :
  read_only (ask ev oracle).
Proof. now apply keeps_ask. Qed.

Lemma no_query_generate {A} (prompt : str) (temperature : Q)
  (oracle : list event -> exc A) :
  no_query (ask (EvGenerate prompt temperature) oracle).
Proof.
  apply keeps_ask. intros w. cbn [history log]. unfold store_queries.
  rewrite flat_map_app. simpl. now rewrite app_nil_r.
Qed.

Lemma no_query_embed {A} (text : str) (oracle : list event -> exc A) :
  no_query (ask (EvEmbed text) oracle).
Proof.
  apply keeps_ask. intros w. cbn [history log]. unfold store_queries.
  rewrite flat_map_app. simpl. now rewrite app_nil_r.
Qed.

Section WithServices.
Variable svc : services.
Variable rt : runtime.

(** The three helpers that talk to the generator only. *)
Lemma extract_filters_keeps {X} (f : world -> X) (query : str) :
  (forall ev w,
     match ev with EvGenerate _ _ => True | _ => False end ->
     f (log ev w) = f w) ->
  keeps f (extract_filters svc rt query).
Proof.
  intros Hgen. unfold extract_filters.
  destruct (_extract_filters_regex rt query) as [created_year created_month].
  apply keeps_try_except; [|apply keeps_ret].
  apply keeps_bind; [|intros; apply keeps_ret].
  unfold _extract_filters_llm.
  apply keeps_try_except; [|apply keeps_ret].
  apply keeps_bind.
  - apply keeps_ask. intros w. now apply Hgen.
  - intros response. repeat apply keeps_if;
      first [apply keeps_ret | apply keeps_lift_exc].
Qed.

Lemma expand_query_keeps {X} (f : world -> X) (query : str) :
  (forall ev w,
     match ev with EvGenerate _ _ => True | _ => False end ->
     f (log ev w) = f w) ->
  keeps f (_expand_query svc rt query).
Proof.
  intros Hgen. unfold _expand_query.
  destruct (matched_synonyms (lower rt query) SYNONYM_MAP);
    [|apply keeps_ret].
  apply keeps_if; [|apply keeps_ret].
  unfold _expand_query_llm.
  apply keeps_try_except; [|apply keeps_ret].
  apply keeps_bind.
  - apply keeps_ask. intros w. now apply Hgen.
  - intros text. apply keeps_if; apply keeps_ret.
Qed.

Lemma generate_multi_queries_keeps {X} (f : world -> X) (query : str)
  (n_variants : Z) :
  (forall ev w,
     match ev with EvGenerate _ _ => True | _ => False end ->
     f (log ev w) = f w) ->
  keeps f (_generate_multi_queries svc rt query n_variants).
Proof.
  intros Hgen. unfold _generate_multi_queries.
  apply keeps_try_except; [|apply keeps_ret].
  apply keeps_bind.
  - apply keeps_ask. intros w. now apply Hgen.
  - intros response. apply keeps_if; apply keeps_ret.
Qed.

Lemma collection_after_generate (ev : event) (w : world) :
  match ev with EvGenerate _ _ => True | _ => False end ->
  collection (log ev w) = collection w.
Proof. reflexivity. Qed.

Lemma queries_after_generate (ev : event) (w : world) :
  match ev with EvGenerate _ _ => True | _ => False end ->
  store_queries (history (log ev w)) = store_queries (history w).
Proof.
  intros Hev. cbn [history log]. unfold store_queries.
  rewrite flat_map_app. destruct ev; try contradiction. simpl.
  now rewrite app_nil_r.
Qed.

Lemma search_read_only (embedding : list Q) (n_results : Z)
  (where_ : option where_clause) :
  read_only (search svc rt embedding n_results where_).
Proof.
  unfold search. apply keeps_try_except; [|apply keeps_ret].
  apply keeps_bind; [apply read_only_get_collection|]. intros c.
  apply keeps_bind; [apply read_only_ask|]. intros results.
  apply keeps_lift_exc.
Qed.

Lemma search_documents_read_only (query : str) (n_results : Z)
  (filters : option where_clause) :
  read_only (search_documents svc rt query n_results filters).
Proof.
  unfold search_documents. apply keeps_try_except; [|apply keeps_ret].
  apply keeps_bind.
  { destruct filters; [apply keeps_ret|].
    apply keeps_bind; [|intros; apply keeps_ret].
    apply extract_filters_keeps, collection_after_generate. }
  intros filters'. apply keeps_bind.
  { apply expand_query_keeps, collection_after_generate. }
  intros expanded. apply keeps_bind; [apply read_only_ask|].
  intros [|x embedding]; [apply keeps_ret|apply search_read_only].
Qed.

Lemma gather_results_read_only (query : str) (n_results : Z)
  (use_multi_query : bool) (filters : option where_clause) :
  read_only (gather_results svc rt query n_results use_multi_query filters).
Proof.
  unfold gather_results. apply keeps_bind.
  { apply keeps_if; [|apply keeps_ret].
    apply generate_multi_queries_keeps, collection_after_generate. }
  intros queries. apply keeps_for_each. intros q acc.
  unfold search_variant. apply keeps_bind; [|intros; apply keeps_ret].
  apply search_documents_read_only.
Qed.

Lemma search_documents_multi_read_only (query : str) (n_results : Z)
  (use_multi_query : bool) (filters : option where_clause) :
  read_only
    (search_documents_multi svc rt query n_results use_multi_query filters).
Proof.
  unfold search_documents_multi.
  apply keeps_try_except; [|apply search_documents_read_only].
  apply keeps_bind; [apply gather_results_read_only|]. intros all_results.
  apply keeps_bind; [apply keeps_lift_exc|]. intros sorted. apply keeps_ret.
Qed.

Lemma relevant_documents_read_only (question : str) (n_context_docs : Z) :
  read_only (relevant_documents svc rt question n_context_docs).
Proof.
  unfold relevant_documents.
  apply keeps_if; [|apply search_documents_read_only].
  apply keeps_bind; [apply search_documents_multi_read_only|].
  intros docs. apply keeps_ret.
Qed.

(** X17. Retrieval and answering never write to the collection: after a
    search, a multi-query search, an answered question or a request to
    the search endpoint the collection is what it was, whatever the
    collaborators answer and whether or not the call succeeds. *)
Theorem retrieval_is_read_only (query : str) (n : Z) (use_multi_query : bool)
  (filters : option where_clause) (include_sources : bool)
  (data : search_request) (w : world) :
  collection (snd (search_documents svc rt query n filters w)) = collection w /\
  collection (snd (search_documents_multi svc rt query n use_multi_query
                     filters w)) = collection w /\
  collection (snd (answer_question svc rt query n include_sources w))
  = collection w /\
  collection (snd (semantic_search svc rt data w)) = collection w.
Proof.
  split; [apply search_documents_read_only|].
  split; [apply search_documents_multi_read_only|]. split.
  - revert w. change (read_only (answer_question svc rt query n include_sources)).
    unfold answer_question. apply keeps_try_except; [|apply keeps_ret].
    apply keeps_bind; [apply relevant_documents_read_only|].
    intros [|doc docs]; [apply keeps_ret|].
    apply keeps_bind; [apply keeps_lift_exc|]. intros [parts srcs].
    apply keeps_bind; [apply read_only_ask|]. intros answer.
    apply keeps_if; [apply keeps_ret|].
    apply keeps_bind; [apply keeps_lift_exc|]. intros c. apply keeps_ret.
  - revert w. change (read_only (semantic_search svc rt data)).
    unfold semantic_search. apply keeps_try_except; [|apply keeps_ret].
    destruct (sr_query data) as [[|x query']|]; try apply keeps_ret.
    apply keeps_bind; [now intros w|]. intros qa.
    apply keeps_if; [apply keeps_ret|].
    apply keeps_bind; [|intros; apply keeps_ret].
    apply keeps_if;
      [apply search_documents_multi_read_only|apply search_documents_read_only].
Qed.

Lemma slice_to_nil {A} (n : Z) : slice_to (@nil A) n = [].
Proof. unfold slice_to, slice. now rewrite skipn_nil, firstn_nil. Qed.

(** With the embedding provider down a search finds nothing and does
    not query the collection. *)
Lemma search_documents_down (query : str) (n_results : Z)
  (filters : option where_clause) (w : world) :
  embedding_down svc ->
  exists w',
    search_documents svc rt query n_results filters w = (Ok [], w') /\
    store_queries (history w') = store_queries (history w).
Proof.
  intros Hdown. unfold search_documents, try_except.
  set (pre := match filters with
              | Some _ => _
              | None => _
              end).
  assert (Hpre : no_query pre).
  { unfold pre. destruct filters; [apply keeps_ret|].
    apply keeps_bind; [|intros; apply keeps_ret].
    apply extract_filters_keeps. intros ev w0.
    apply queries_after_generate. }
  unfold bind at 1. specialize (Hpre w).
  destruct (pre w) as [[filters'|] w1]; cbn [snd] in Hpre;
    [|now exists w1].
  pose proof (expand_query_keeps (fun w => store_queries (history w)) query
                (fun ev w0 => queries_after_generate ev w0) w1) as Hexp.
  unfold bind at 1.
  destruct (_expand_query svc rt query w1) as [[expanded|] w2];
    cbn [snd] in Hexp; [|exists w2; split; [reflexivity|congruence]].
  unfold bind, ask.
  pose proof (no_query_embed expanded (ollama_embedding svc expanded) w2)
    as Hemb. unfold ask in Hemb. cbn [snd] in Hemb.
  destruct (Hdown expanded (history w2)) as [-> | ->];
    eexists; (split; [reflexivity|congruence]).
Qed.

Lemma gather_results_down (queries : list str) (n : Z)
  (filters : option where_clause) (w : world) :
  embedding_down svc ->
  exists w',
    for_each queries (search_variant svc rt n filters) [] w = (Ok [], w') /\
    store_queries (history w') = store_queries (history w).
Proof.
  intros Hdown. revert w. induction queries as [|q queries IH]; intros w.
  - now exists w.
  - rewrite for_each_cons. unfold search_variant at 1, bind at 1.
    destruct (search_documents_down q n filters w Hdown) as (w1 & -> & Hq).
    cbn [ret app].
    destruct (IH w1) as (w2 & -> & Hq'). exists w2.
    split; [reflexivity|congruence].
Qed.

Lemma search_documents_multi_down (query : str) (n_results : Z)
  (use_multi_query : bool) (filters : option where_clause) (w : world) :
  embedding_down svc ->
  exists w',
    search_documents_multi svc rt query n_results use_multi_query filters w
    = (Ok [], w') /\
    store_queries (history w') = store_queries (history w).
Proof.
  intros Hdown. unfold search_documents_multi, try_except, gather_results.
  set (pre := if use_multi_query && USE_MULTI_QUERY svc then _ else _).
  assert (Hpre : no_query pre).
  { unfold pre. apply keeps_if; [|apply keeps_ret].
    apply generate_multi_queries_keeps. intros ev w0.
    apply queries_after_generate. }
  unfold bind at 1 2. specialize (Hpre w).
  destruct (pre w) as [[queries|] w1]; cbn [snd] in Hpre.
  - destruct (gather_results_down queries
                (Z.max (n_results / len queries) 3) filters w1 Hdown)
      as (w2 & -> & Hq).
    exists w2. unfold bind, lift_exc, ret. cbn [dedup sort_by_distance].
    rewrite slice_to_nil. split; [reflexivity|congruence].
  - destruct (search_documents_down query n_results filters w1 Hdown)
      as (w2 & -> & Hq). exists w2. split; [reflexivity|congruence].
Qed.

(** X18. With the embedding provider down (every request raises or comes
    back empty) nothing is found and the collection is never queried:
    both searches return the empty list, and [answer_question] answers
    that it found no documents, with no sources and [low] confidence. *)
Theorem embedding_outage (query : str) (n : Z) (use_multi_query : bool)
  (filters : option where_clause) (include_sources : bool) (w : world) :
  embedding_down svc ->
  (exists w',
     search_documents svc rt query n filters w = (Ok [], w') /\
     store_queries (history w') = store_queries (history w)) /\
  (exists w',
     search_documents_multi svc rt query n use_multi_query filters w
     = (Ok [], w') /\
     store_queries (history w') = store_queries (history w)) /\
  (exists w',
     answer_question svc rt query n include_sources w
     = (Ok {| answer := could_not_find; sources := [];
              confidence_of := low |}, w') /\
     store_queries (history w') = store_queries (history w)).
Proof.
  intros Hdown.
  split; [now apply search_documents_down|].
  split; [now apply search_documents_multi_down|].
  unfold answer_question, try_except, bind at 1, relevant_documents.
  destruct (USE_MULTI_QUERY svc).
  - unfold bind at 1.
    destruct (search_documents_multi_down query (n * 2) true None w Hdown)
      as (w1 & -> & Hq).
    cbn [ret]. rewrite slice_to_nil. exists w1. now split.
  - destruct (search_documents_down query n None w Hdown) as (w1 & -> & Hq).
    exists w1. now split.
Qed.

End WithServices.

Lemma offline_embedding_down : embedding_down Samples.offline_services.
Proof. intros text h. now left. Qed.

Lemma embedding_outage_witness :
  (exists w',
     search_documents Samples.offline_services Fixtures.ascii_runtime
       Fixtures.year_query 5 None Fixtures.empty_world = (Ok [], w') /\
     store_queries (history w')
     = store_queries (history Fixtures.empty_world)) /\
  (exists w',
     search_documents_multi Samples.offline_services Fixtures.ascii_runtime
       Fixtures.year_query 5 true None Fixtures.empty_world = (Ok [], w') /\
     store_queries (history w')
     = store_queries (history Fixtures.empty_world)) /\
  (exists w',
     answer_question Samples.offline_services Fixtures.ascii_runtime
       Fixtures.year_query 5 true Fixtures.empty_world
     = (Ok {| answer := could_not_find; sources := [];
              confidence_of := low |}, w') /\
     store_queries (history w')
     = store_queries (history Fixtures.empty_world)).
Proof.
  apply (embedding_outage Samples.offline_services Fixtures.ascii_runtime
           Fixtures.year_query 5 true None true Fixtures.empty_world).
  apply offline_embedding_down.
Defined.

End TraceFacts.

(** ** Formatting the hits of a store query *)

Module SearchFacts.

Import VectorStore Indexer Maintenance Traces.
Import EffectFacts IndexerFacts KeyFacts.

Lemma startswith_app (p rest : str) : startswith (p ++ rest) p = true.
Proof.
  induction p as [|x p IH]; simpl; [now destruct rest|].
  now rewrite N.eqb_refl, IH.
Qed.

Lemma contains_startswith (s p : str) :
  startswith s p = true -> contains s p = true.
Proof. intros H. destruct s; cbn [contains]; now rewrite H. Qed.

Lemma contains_app (a p b : str) : contains (a ++ p ++ b) p = true.
Proof.
  induction a as [|x a IH].
  - apply contains_startswith. exact (startswith_app p b).
  - cbn [app contains]. rewrite IH. apply orb_true_r.
Qed.

Lemma startswith_head (x y : N) (s p : str) :
  x <> y -> startswith (y :: s) (x :: p) = false.
Proof. intros H. simpl. apply N.eqb_neq in H. now rewrite H. Qed.

(** A text without the first code point of the pattern holds no
    occurrence of it. *)
Lemma contains_none (x : N) (p s : str) :
  ~ In x s -> contains s (x :: p) = false.
Proof.
  induction s as [|y s IH]; intros H; [reflexivity|].
  cbn [contains]. rewrite startswith_head, IH; [reflexivity| |].
  - intros Hin. apply H. now right.
  - intros ->. apply H. now left.
Qed.

Lemma before_first_app (x : N) (p a b : str) :
  ~ In x a -> before_first (x :: p) (a ++ (x :: p) ++ b) = a.
Proof.
  induction a as [|y a IH]; intros H.
  - simpl app. cbn [before_first].
    change (x :: p ++ b) with ((x :: p) ++ b). now rewrite startswith_app.
  - cbn [app before_first]. rewrite startswith_head.
    + f_equal. apply IH. intros Hin. apply H. now right.
    + intros ->. apply H. now left.
Qed.

Lemma remove_all_skip_none (x : N) (p s : str) :
  ~ In x s -> remove_all_skip (x :: p) s 0 = s.
Proof.
  induction s as [|y s IH]; intros H; [reflexivity|].
  cbn [remove_all_skip]. rewrite startswith_head.
  - f_equal. apply IH. intros Hin. apply H. now right.
  - intros ->. apply H. now left.
Qed.

(** [("doc_" + s).replace("doc_", "")] is [s] when [s] has no [d]. *)
Lemma remove_all_doc_prefix (s : str) :
  ~ In 100%N s -> remove_all (of_string "doc_") (of_string "doc_" ++ s) = s.
Proof.
  intros H. unfold remove_all.
  change (of_string "doc_") with [100; 111; 99; 95]%N.
  cbn [app remove_all_skip].
  replace (startswith (100 :: 111 :: 99 :: 95 :: s) [100; 111; 99; 95])%N
    with true by (symmetry; exact (startswith_app [100; 111; 99; 95]%N s)).
  cbn [length Nat.sub remove_all_skip].
  now apply remove_all_skip_none.
Qed.

Lemma str_of_int_chars (n : Z) (c : N) :
  In c (str_of_int n) -> c = 45%N \/ (48 <= c <= 57)%N.
Proof.
  unfold str_of_int. intros H.
  assert (Hd : forall u, In c (uint_chars u) -> (48 <= c <= 57)%N).
  { intros u Hu. pose proof (uint_chars_digits u) as Hf.
    rewrite List.Forall_forall in Hf. now apply Hf. }
  destruct (Z.to_int n) as [u|u].
  - right. now apply (Hd u).
  - destruct H as [<-|H]; [now left|right; now apply (Hd u)].
Qed.

Lemma str_of_int_nonempty (n : Z) : truthy (str_of_int n) = true.
Proof.
  unfold str_of_int.
  destruct n as [|p|p]; simpl; try reflexivity.
  pose proof (DecimalPos.Unsigned.to_uint_nonnil p) as H.
  destruct (Pos.to_uint p); [contradiction|reflexivity..].
Qed.

Lemma chunk_doc_id_no_d (doc_id k : Z) : ~ In 100%N (chunk_doc_id doc_id k).
Proof.
  unfold chunk_doc_id. intros H.
  apply in_app_or in H as [H|H];
    [apply str_of_int_chars in H; lia|].
  apply in_app_or in H as [H|H].
  - simpl in H. repeat (destruct H as [H|H]; [discriminate|]). contradiction.
  - apply str_of_int_chars in H. lia.
Qed.

Section WithRuntime.
Variable svc : services.
Variable rt : runtime.

(** X19. A hit on a chunk the indexer stored is attributed to the document
    the chunk was cut from: by its [doc_id_original], and for an entry
    without that field by the number in its key, for chunk keys and for
    whole-document keys alike. *)
Theorem parse_doc_id_round_trip (doc_id : Z) :
  int_of_str rt (str_of_int doc_id) = Ok doc_id ->
  (forall metadata k total_chunks,
     parse_doc_id rt (chunk_key doc_id k)
       (chunk_metadata metadata k total_chunks doc_id) = Ok doc_id) /\
  (forall metadata k,
     metadata !! of_string "doc_id_original" = None ->
     parse_doc_id rt (chunk_key doc_id k) metadata = Ok doc_id) /\
  (forall metadata,
     metadata !! of_string "doc_id_original" = None ->
     parse_doc_id rt (document_key doc_id) metadata = Ok doc_id).
Proof.
  intros Hint. split; [|split].
  - intros metadata k total_chunks. unfold parse_doc_id, chunk_metadata.
    rewrite lookup_insert_eq. cbn [dict_get].
    now rewrite str_of_int_nonempty, Hint.
  - intros metadata k Hnone. unfold parse_doc_id. rewrite Hnone.
    cbn [dict_get truthy]. unfold chunk_key, chroma_id_of.
    rewrite remove_all_doc_prefix by apply chunk_doc_id_no_d.
    unfold chunk_doc_id. rewrite contains_app.
    change (of_string "_chunk_") with (underscore :: of_string "chunk_").
    rewrite before_first_app by apply str_of_int_no_underscore.
    exact Hint.
  - intros metadata Hnone. unfold parse_doc_id. rewrite Hnone.
    cbn [dict_get truthy]. unfold document_key, chroma_id_of.
    rewrite remove_all_doc_prefix.
    + change (of_string "_chunk_") with (underscore :: of_string "chunk_").
      rewrite contains_none by apply str_of_int_no_underscore.
      exact Hint.
    + intros H. apply str_of_int_chars in H. lia.
Qed.

Lemma format_result_fields (answer : query_result) (i : nat)
  (r : search_result) :
  format_result rt answer i = Ok r ->
  q_ids answer !! i = Some (r_chunk_id r) /\
  q_documents answer !! i = Some (r_text r) /\
  q_metadatas answer !! i = Some (r_metadata r) /\
  parse_doc_id rt (r_chunk_id r) (r_metadata r) = Ok (r_doc_id r).
Proof.
  unfold format_result.
  destruct (q_metadatas answer !! i) as [metadata|]; [|discriminate].
  destruct (q_ids answer !! i) as [id|]; [|discriminate].
  destruct (q_documents answer !! i) as [document|]; [|discriminate].
  destruct (parse_doc_id rt id metadata) as [doc_id|] eqn:Eid; [|discriminate].
  destruct (q_distances answer) as [distances|].
  - destruct (distances !! i); [|discriminate]. now intros [= <-].
  - now intros [= <-].
Qed.

Lemma format_results_fields (answer : query_result) (indices : list nat)
  (results : list search_result) :
  format_results rt answer indices = Ok results ->
  Forall2 (fun i r =>
             q_ids answer !! i = Some (r_chunk_id r) /\
             q_documents answer !! i = Some (r_text r) /\
             q_metadatas answer !! i = Some (r_metadata r) /\
             parse_doc_id rt (r_chunk_id r) (r_metadata r) = Ok (r_doc_id r))
    indices results.
Proof.
  revert results. induction indices as [|i indices IH]; intros results; simpl.
  - intros [= <-]. constructor.
  - destruct (format_result rt answer i) as [r|] eqn:Er; [|discriminate].
    destruct (format_results rt answer indices) as [rs|]; [|discriminate].
    intros [= <-]. constructor; [|now apply IH].
    now apply format_result_fields.
Qed.

Lemma format_results_raise (answer : query_result) (indices : list nat)
  (i : nat) :
  In i indices -> format_result rt answer i = Raise ->
  format_results rt answer indices = Raise.
Proof.
  intros Hin Hraise. induction indices as [|j indices IH]; [contradiction|].
  simpl. destruct Hin as [->|Hin].
  - now rewrite Hraise.
  - destruct (format_result rt answer j); [|reflexivity].
    now rewrite IH.
Qed.

Lemma ids_of_formatted (ids : list str) (results : list search_result)
  (start n : nat) :
  Forall2 (fun i r => ids !! i = Some (r_chunk_id r)) (seq start n) results ->
  map r_chunk_id results = firstn n (skipn start ids).
Proof.
  revert start results. induction n as [|n IH]; intros start results H.
  - inversion H. reflexivity.
  - cbn [seq] in H. inversion H as [|i r idx rs Hhead Htail]; subst.
    cbn [map]. apply IH in Htail.
    rewrite Htail. clear IH Htail H.
    revert start Hhead. induction ids as [|x ids IHids]; intros start Hhead.
    + now destruct start.
    + destruct start as [|start].
      * injection Hhead as <-. reflexivity.
      * cbn [skipn]. apply (IHids start). exact Hhead.
Qed.

(** X20. [search] always answers, after exactly one query to the collection,
    which it leaves as it is. It is all or nothing: a non-empty answer
    holds one hit per id the store returned, in the store's order, each
    with the store's id, text and metadata and the document id read off
    them; and one hit that cannot be formatted empties the whole
    answer. *)
Theorem search_all_or_nothing (query_embedding : list Q) (n_results : Z)
  (where_ : option where_clause) (w : world) :
  exists results,
    search svc rt query_embedding n_results where_ w
    = (Ok results,
       log (EvCollectionQuery query_embedding n_results where_) w) /\
    match chroma_query svc (collection w) query_embedding n_results where_
            (history w) with
    | Raise => results = []
    | Ok answer =>
        (results = [] \/
         (map r_chunk_id results = q_ids answer /\
          Forall2 (fun i r =>
                     q_documents answer !! i = Some (r_text r) /\
                     q_metadatas answer !! i = Some (r_metadata r) /\
                     parse_doc_id rt (r_chunk_id r) (r_metadata r)
                     = Ok (r_doc_id r))
            (seq 0 (length (q_ids answer))) results)) /\
        (forall i, (i < length (q_ids answer))%nat ->
                   format_result rt answer i = Raise -> results = [])
    end.
Proof.
  unfold search, try_except, bind, get_collection, ask, lift_exc.
  destruct (chroma_query svc (collection w) query_embedding n_results where_
              (history w)) as [answer|].
  - destruct (format_results rt answer (seq 0 (length (q_ids answer))))
      as [results|] eqn:Ef.
    + exists results. split; [reflexivity|]. split.
      * right. apply format_results_fields in Ef. split.
        -- rewrite (ids_of_formatted (q_ids answer) results 0
                      (length (q_ids answer))).
           ++ rewrite drop_0. now apply firstn_all.
           ++ eapply List.Forall2_impl; [|exact Ef]. now intros i r [H _].
        -- eapply List.Forall2_impl; [|exact Ef]. now intros i r (_ & H).
      * intros i Hi Hraise.
        rewrite (format_results_raise answer _ i) in Ef; [discriminate| |exact Hraise].
        apply in_seq. lia.
    + exists []. split; [reflexivity|]. split; [now left|reflexivity].
  - exists []. now split.
Qed.

End WithRuntime.

Lemma parse_doc_id_round_trip_witness :
  (forall metadata k total_chunks,
     parse_doc_id Fixtures.ascii_runtime (chunk_key 7 k)
       (chunk_metadata metadata k total_chunks 7) = Ok 7%Z) /\
  (forall metadata k,
     metadata !! of_string "doc_id_original" = None ->
     parse_doc_id Fixtures.ascii_runtime (chunk_key 7 k) metadata = Ok 7%Z) /\
  (forall metadata,
     metadata !! of_string "doc_id_original" = None ->
     parse_doc_id Fixtures.ascii_runtime (document_key 7) metadata = Ok 7%Z).
Proof.
  apply (parse_doc_id_round_trip Fixtures.ascii_runtime 7).
  reflexivity.
Defined.

End SearchFacts.

(** ** Query expansion and query variants *)

Module QueryFacts.

Import VectorStore MetadataExtractor QASystem Traces.
Import PyFacts EffectFacts ChunkerBounds TraceFacts.

Lemma store_queries_app (h1 h2 : list event) :
  store_queries (h1 ++ h2) = store_queries h1 ++ store_queries h2.
Proof. apply flat_map_app. Qed.

Section WithServices.
Variable svc : services.
Variable rt : runtime.

(** X21. [_expand_query] always answers and only appends: the original
    query is a prefix of the expanded one. When a dictionary key
    matches, or the generator-based expansion is switched off, the
    generator is not asked; when the generator fails or says nothing,
    the query comes back as it was. *)
Theorem expand_query_appends (query : str) (w : world) :
  exists expanded w',
    _expand_query svc rt query w = (Ok expanded, w') /\
    (exists suffix, expanded = query ++ suffix) /\
    (matched_synonyms (lower rt query) SYNONYM_MAP <> [] ->
     w' = w /\
     expanded
     = query ++ [space]
       ++ join [space] (matched_synonyms (lower rt query) SYNONYM_MAP)) /\
    (USE_LLM_EXPANSION svc = false -> w' = w) /\
    (matched_synonyms (lower rt query) SYNONYM_MAP = [] ->
     match ollama_generate svc (synonym_prompt rt query) (3 # 10) (history w)
     with
     | Ok (_ :: _) => True
     | _ => expanded = query
     end).
Proof.
  unfold _expand_query.
  destruct (matched_synonyms (lower rt query) SYNONYM_MAP) as [|t terms].
  - destruct (USE_LLM_EXPANSION svc).
    + unfold _expand_query_llm, try_except, bind, ask.
      destruct (ollama_generate svc (synonym_prompt rt query) (3 # 10)
                  (history w)) as [[|c text]|].
      * eexists _, _. split; [reflexivity|].
        split; [exists []; now rewrite app_nil_r|].
        split; [now intros []|]. split; [discriminate|]. reflexivity.
      * eexists _, _. split; [reflexivity|].
        split; [now eexists|].
        split; [now intros []|]. split; [discriminate|]. intros _. exact I.
      * eexists _, _. split; [reflexivity|].
        split; [exists []; now rewrite app_nil_r|].
        split; [now intros []|]. split; [discriminate|]. reflexivity.
    + exists query, w. split; [reflexivity|].
      split; [exists []; now rewrite app_nil_r|].
      split; [now intros []|]. split; [reflexivity|].
      intros _. now destruct (ollama_generate _ _ _ _) as [[|]|].
  - eexists _, w. split; [reflexivity|].
    split; [now eexists|]. split; [now split|]. split; [reflexivity|].
    discriminate.
Qed.

(** X22. [_generate_multi_queries] always answers, after one call to the
    generator. The original query comes first, and for [n_variants >= 0]
    at most [n_variants] variants follow; when the generator fails or
    says nothing the original query stands alone. *)
Theorem generate_multi_queries_shape (original_query : str) (n_variants : Z)
  (w : world) :
  exists variants,
    _generate_multi_queries svc rt original_query n_variants w
    = (Ok (original_query :: variants),
       log (EvGenerate (variants_prompt rt n_variants original_query) (7 # 10))
         w) /\
    ((0 <= n_variants)%Z -> (len variants <= n_variants)%Z) /\
    match ollama_generate svc (variants_prompt rt n_variants original_query)
            (7 # 10) (history w) with
    | Ok (_ :: _) => True
    | _ => variants = []
    end.
Proof.
  unfold _generate_multi_queries, try_except, bind, ask.
  destruct (ollama_generate svc (variants_prompt rt n_variants original_query)
              (7 # 10) (history w)) as [[|c response]|].
  - exists []. split; [reflexivity|]. split; [|reflexivity].
    unfold len. simpl. lia.
  - eexists. split; [reflexivity|]. split; [|exact I].
    intros Hn. unfold slice_to.
    apply (slice_window_length _ 0 n_variants Hn).
  - exists []. split; [reflexivity|]. split; [|reflexivity].
    unfold len. simpl. lia.
Qed.

Lemma generate_multi_queries_run (original_query : str) (n_variants : Z)
  (w : world) :
  exists variants w',
    _generate_multi_queries svc rt original_query n_variants w
    = (Ok (original_query :: variants), w') /\
    ((0 <= n_variants)%Z -> (len variants <= n_variants)%Z) /\
    store_queries (history w') = store_queries (history w).
Proof.
  pose proof (generate_multi_queries_keeps svc rt
                (fun w => store_queries (history w)) original_query n_variants
                (fun ev w0 => queries_after_generate ev w0) w) as Hq.
  revert Hq. unfold _generate_multi_queries, try_except, bind, ask.
  destruct (ollama_generate svc (variants_prompt rt n_variants original_query)
              (7 # 10) (history w)) as [[|c response]|]; cbn [snd ret];
    intros Hq.
  - exists []. eexists. split; [reflexivity|]. split; [|exact Hq].
    unfold len. simpl. lia.
  - eexists _, _. split; [reflexivity|]. split; [|exact Hq].
    intros Hn. unfold slice_to.
    apply (slice_window_length _ 0 n_variants Hn).
  - exists []. eexists. split; [reflexivity|]. split; [|exact Hq].
    unfold len. simpl. lia.
Qed.

(** One search sends at most one query to the collection, and asks it
    for exactly [n_results] hits. *)
Lemma search_documents_queries (query : str) (n_results : Z)
  (filters : option where_clause) (w : world) :
  exists results w',
    search_documents svc rt query n_results filters w = (Ok results, w') /\
    (store_queries (history w') = store_queries (history w) \/
     store_queries (history w') = store_queries (history w) ++ [n_results]).
Proof.
  unfold search_documents, try_except.
  set (pre := match filters with
              | Some _ => _
              | None => _
              end).
  assert (Hpre : no_query pre).
  { unfold pre. destruct filters; [apply keeps_ret|].
    apply keeps_bind; [|intros; apply keeps_ret].
    apply extract_filters_keeps. intros ev w0.
    apply queries_after_generate. }
  unfold bind at 1. specialize (Hpre w).
  destruct (pre w) as [[filters'|] w1]; cbn [snd] in Hpre;
    [|eexists _, _; split; [reflexivity|now left]].
  pose proof (expand_query_keeps svc rt (fun w => store_queries (history w))
                query (fun ev w0 => queries_after_generate ev w0) w1) as Hexp.
  unfold bind at 1.
  destruct (_expand_query svc rt query w1) as [[expanded|] w2];
    cbn [snd] in Hexp;
    [|eexists _, _; split; [reflexivity|left; cbn [ret snd]; congruence]].
  unfold bind at 1, ask.
  pose proof (no_query_embed expanded (ollama_embedding svc expanded) w2)
    as Hemb. unfold ask in Hemb. cbn [snd] in Hemb.
  destruct (ollama_embedding svc expanded (history w2)) as [[|x embedding]|].
  - eexists _, _. split; [reflexivity|left; congruence].
  - unfold search, try_except, bind, get_collection, ask, lift_exc.
    assert (Hq : store_queries
                   (history (log (EvCollectionQuery (x :: embedding) n_results
                                    filters') (log (EvEmbed expanded) w2)))
                 = store_queries (history w) ++ [n_results]).
    { transitivity (store_queries (history (log (EvEmbed expanded) w2))
                    ++ [n_results]).
      - cbn [history log].
        now rewrite (store_queries_app (history w2 ++ [EvEmbed expanded])).
      - f_equal. congruence. }
    destruct (chroma_query svc (collection (log (EvEmbed expanded) w2))
                (x :: embedding) n_results filters'
                (history (log (EvEmbed expanded) w2))) as [answer|].
    + destruct (format_results rt answer _);
        eexists _, _; (split; [reflexivity|right; exact Hq]).
    + eexists _, _. split; [reflexivity|right; exact Hq].
  - eexists _, _. split; [reflexivity|left; congruence].
Qed.

Lemma search_variants_queries (queries : list str) (n : Z)
  (filters : option where_clause) (acc : list search_result) (w : world) :
  exists all_results w' asked,
    for_each queries (search_variant svc rt n filters) acc w
    = (Ok all_results, w') /\
    store_queries (history w') = store_queries (history w) ++ asked /\
    Forall (fun k => k = n) asked /\
    (length asked <= length queries)%nat.
Proof.
  revert acc w. induction queries as [|q queries IH]; intros acc w.
  - exists acc, w, []. split; [reflexivity|]. rewrite app_nil_r.
    repeat split; [constructor|simpl; lia].
  - rewrite for_each_cons. unfold search_variant at 1, bind at 1.
    destruct (search_documents_queries q n filters w)
      as (results & w1 & -> & Hq1). cbn [ret].
    destruct (IH (acc ++ results) w1) as (all & w2 & asked & -> & Hq2 & Hall & Hlen).
    destruct Hq1 as [Hq1|Hq1]; rewrite Hq1 in Hq2.
    + exists all, w2, asked. split; [reflexivity|].
      split; [exact Hq2|]. split; [exact Hall|]. simpl. lia.
    + exists all, w2, (n :: asked). split; [reflexivity|].
      split; [now rewrite Hq2, <- app_assoc|].
      split; [now constructor|]. simpl. lia.
Qed.

(** The queries the first half of the multi-query search sends: the
    query list is the original query and at most two variants, and each
    of them is searched once, for [max(n_results // len(queries), 3)]
    hits. *)
Lemma gather_results_queries (query : str) (n_results : Z)
  (use_multi_query : bool) (filters : option where_clause) (w : world) :
  exists variants w0 all_results w1 asked,
    (if use_multi_query && USE_MULTI_QUERY svc
     then _generate_multi_queries svc rt query 2
     else ret [query]) w = (Ok (query :: variants), w0) /\
    (length variants <= 2)%nat /\
    gather_results svc rt query n_results use_multi_query filters w
    = (Ok all_results, w1) /\
    store_queries (history w1) = store_queries (history w) ++ asked /\
    (length asked <= length (query :: variants))%nat /\
    Forall (fun k => k = Z.max (n_results / len (query :: variants)) 3) asked.
Proof.
  unfold gather_results, bind at 1.
  set (pre := if use_multi_query && USE_MULTI_QUERY svc then _ else _).
  assert (Hpre : exists variants w1,
             pre w = (Ok (query :: variants), w1) /\
             (length variants <= 2)%nat /\
             store_queries (history w1) = store_queries (history w)).
  { unfold pre. destruct (use_multi_query && USE_MULTI_QUERY svc).
    - destruct (generate_multi_queries_run query 2 w)
        as (variants & w1 & -> & Hlen & Hq).
      exists variants, w1. split; [reflexivity|]. split; [|exact Hq].
      assert (H2 : (0 <= 2)%Z) by lia.
      specialize (Hlen H2). unfold len in Hlen. lia.
    - exists [], w. repeat split. simpl. lia. }
  destruct Hpre as (variants & w1 & -> & Hlen & Hq1).
  destruct (search_variants_queries (query :: variants)
              (Z.max (n_results / len (query :: variants)) 3) filters [] w1)
    as (all & w2 & asked & -> & Hq2 & Hall & Hasked).
  exists variants, w1, all, w2, asked.
  split; [reflexivity|]. split; [exact Hlen|]. split; [reflexivity|].
  split; [now rewrite Hq2, Hq1|]. split; [exact Hasked|exact Hall].
Qed.

(** X23. The queries a multi-query search sends to the collection. The
    query list is the original query followed by at most two variants,
    as [_generate_multi_queries] gives them, or the original query alone
    when multi-query is off. Each query of the list is searched once, for
    [max(n_results // len(queries), 3)] hits: never for fewer than three,
    however few were requested. When the sort of the merged results
    raises, and only then, the plain search runs once more, for
    [n_results] hits. *)
Theorem multi_query_budget (query : str) (n_results : Z)
  (use_multi_query : bool) (filters : option where_clause) (w : world) :
  exists variants w0 all_results w1 results w' asked again,
    (if use_multi_query && USE_MULTI_QUERY svc
     then _generate_multi_queries svc rt query 2
     else ret [query]) w = (Ok (query :: variants), w0) /\
    (length variants <= 2)%nat /\
    gather_results svc rt query n_results use_multi_query filters w
    = (Ok all_results, w1) /\
    search_documents_multi svc rt query n_results use_multi_query filters w
    = (Ok results, w') /\
    store_queries (history w')
    = store_queries (history w) ++ asked ++ again /\
    (length asked <= length (query :: variants))%nat /\
    Forall (fun k => k = Z.max (n_results / len (query :: variants)) 3 /\
                     (3 <= k)%Z) asked /\
    match sort_by_distance (dedup all_results ∅) with
    | Ok sorted =>
        again = [] /\ results = slice_to sorted n_results /\ w' = w1
    | Raise =>
        (again = [] \/ again = [n_results]) /\
        search_documents svc rt query n_results filters w1 = (Ok results, w')
    end.
Proof.
  destruct (gather_results_queries query n_results use_multi_query filters w)
    as (variants & w0 & all & w1 & asked & Hpre & Hlen & Hgather & Hq & Hasked
        & Hall).
  assert (Hall3 : Forall (fun k => k = Z.max (n_results
                                               / len (query :: variants)) 3
                                   /\ (3 <= k)%Z) asked).
  { eapply List.Forall_impl; [|exact Hall]. intros k ->.
    split; [reflexivity|lia]. }
  unfold search_documents_multi, try_except, bind at 1. rewrite Hgather.
  unfold bind, lift_exc.
  destruct (sort_by_distance (dedup all ∅)) as [sorted|] eqn:Esort.
  - exists variants, w0, all, w1, (slice_to sorted n_results), w1, asked, [].
    rewrite Esort.
    split; [exact Hpre|]. split; [exact Hlen|]. split; [reflexivity|].
    split; [reflexivity|]. split; [now rewrite app_nil_r|].
    split; [exact Hasked|]. split; [exact Hall3|]. now repeat split.
  - destruct (search_documents_queries query n_results filters w1)
      as (results & w2 & Hsearch & Hq2).
    rewrite Hsearch.
    destruct Hq2 as [Hq2|Hq2].
    + exists variants, w0, all, w1, results, w2, asked, []. rewrite Esort.
      split; [exact Hpre|]. split; [exact Hlen|]. split; [reflexivity|].
      split; [reflexivity|]. split; [now rewrite app_nil_r, Hq2|].
      split; [exact Hasked|]. split; [exact Hall3|].
      split; [now left|exact Hsearch].
    + exists variants, w0, all, w1, results, w2, asked, [n_results].
      rewrite Esort.
      split; [exact Hpre|]. split; [exact Hlen|]. split; [reflexivity|].
      split; [reflexivity|]. split; [now rewrite Hq2, Hq, <- app_assoc|].
      split; [exact Hasked|]. split; [exact Hall3|].
      split; [now right|exact Hsearch].
Qed.

End WithServices.

(** The budget on a store without distances, for two results and a
    generator that gives one variant: two queries for three hits each,
    then the sort raises and the plain search asks for the two. *)
Example multi_query_budget_fallback :
  store_queries
    (history (snd (search_documents_multi Samples.unranked_services
                     Fixtures.ascii_runtime Fixtures.year_query 2 true None
                     Fixtures.empty_world)))
  = [3%Z; 3%Z; 2%Z].
Proof. vm_compute. reflexivity. Qed.

End QueryFacts.

(** ** Confidence at the edges, and an answer that is thrown away *)

Module AnswerPaths.

Import VectorStore QASystem.
Import PyFacts EffectFacts ScoringFacts AnswerFacts.
Import PrimFloat.

(** The order on floats is transitive (on the specification of the
    comparison: sign, exponent, mantissa). *)
Lemma SFltb_trans (a b c : SpecFloat.spec_float) :
  SpecFloat.SFltb a b = true -> SpecFloat.SFltb b c = true ->
  SpecFloat.SFltb a c = true.
Proof.
  unfold SpecFloat.SFltb, SpecFloat.SFcompare.
  destruct a as [sa|sa| |sa ma ea], b as [sb|sb| |sb mb eb],
    c as [sc|sc| |sc mc ec];
    repeat match goal with s : bool |- _ => destruct s end;
    try discriminate; try reflexivity;
    change (PosDef.Pos.compare_cont Eq) with Pos.compare;
    destruct (Z.compare_spec ea eb), (Z.compare_spec eb ec),
      (Z.compare_spec ea ec); try discriminate; try reflexivity; try lia;
    destruct (Pos.compare_spec ma mb), (Pos.compare_spec mb mc),
      (Pos.compare_spec ma mc); try discriminate; try reflexivity; lia.
Qed.

Lemma ltb_trans (x a b : float) :
  (x <? a)%float = true -> (a <? b)%float = true -> (x <? b)%float = true.
Proof. rewrite !FloatAxioms.ltb_spec. apply SFltb_trans. Qed.

(** What is not below a threshold is not below a lower one. *)
Lemma ltb_false_above (x a b : float) :
  (x <? b)%float = false -> (a <? b)%float = true -> (x <? a)%float = false.
Proof.
  intros Hb Hab. destruct (x <? a)%float eqn:E; [|reflexivity].
  now rewrite (ltb_trans x a b E Hab) in Hb.
Qed.

Lemma numbers_none (values : list (option Q)) :
  Exists (fun v => v = None) values -> numbers values = Raise.
Proof.
  intros H. induction H as [v values ->|v values _ IH].
  - reflexivity.
  - cbn [numbers]. rewrite IH. now destruct (number v).
Qed.

(** Without a number for the distance of one of the first three
    documents the estimator raises. *)
Lemma estimate_confidence_raises (rt : runtime) (docs : list search_result)
  (answer : str) :
  Exists (fun doc => r_distance doc = Some None) (firstn 3 docs) ->
  _estimate_confidence rt docs answer = Raise.
Proof.
  intros H. unfold _estimate_confidence, py_sum.
  destruct docs as [|best docs]; [inversion H|].
  rewrite slice_to_firstn by lia. change (Z.to_nat 3) with 3%nat.
  rewrite numbers_none; [reflexivity|].
  apply List.Exists_exists in H as (doc & Hin & Hd).
  apply List.Exists_exists. exists None. split; [|reflexivity].
  apply in_map_iff. exists doc. split; [now rewrite Hd|exact Hin].
Qed.

(** X24. What the confidence table implies at its edges, for results
    whose distances are numbers, with the average and the comparisons as
    the interpreter computes them. With a top-3 average distance that is
    not below 0.7 the estimate is never [high], and it is [low] when the
    best distance is not below 0.6 either. With an average below 0.3, a
    best distance below 0.2 and three results or more it is [high]
    whatever the answer says, a negative phrase included. *)
Theorem confidence_at_the_edges (rt : runtime) (docs : list search_result)
  (best : Q) (rest : list Q) (answer : str) :
  map (fun doc => dict_get (r_distance doc) (Some 1%Q)) docs
  = map Some (best :: rest) ->
  ((Spec.average rt (firstn 3 (best :: rest)) <? 0.7)%float = false ->
   _estimate_confidence rt docs answer <> Ok high /\
   ((PyFloat.of_Q best <? 0.6)%float = false ->
    _estimate_confidence rt docs answer = Ok low)) /\
  ((Spec.average rt (firstn 3 (best :: rest)) <? 0.3)%float = true ->
   (PyFloat.of_Q best <? 0.2)%float = true -> (2 <= length rest)%nat ->
   _estimate_confidence rt docs answer = Ok high).
Proof.
  intros Hds. rewrite (estimate_refines rt docs (best :: rest) answer Hds).
  unfold Spec.estimate. set (avg := Spec.average _ _).
  set (bd := PyFloat.of_Q best). split.
  - intros Havg. unfold Spec.avg_points.
    assert (Havg5 : (avg <? 0.5)%float = false)
      by (apply (ltb_false_above avg 0.5 0.7 Havg); reflexivity).
    assert (Havg3 : (avg <? 0.3)%float = false)
      by (apply (ltb_false_above avg 0.3 0.7 Havg); reflexivity).
    rewrite Havg, Havg5, Havg3. split.
    + unfold Spec.best_points, Spec.count_points, Spec.answer_points,
        Spec.level.
      destruct (bd <? 0.2)%float, (bd <? 0.4)%float, (bd <? 0.6)%float,
        (3 <=? length (best :: rest))%nat,
        (length (best :: rest) =? 2)%nat, (has_negative rt answer),
        (100 <? length answer)%nat, (50 <? length answer)%nat;
        vm_compute; discriminate.
    + intros Hbest. unfold Spec.best_points.
      assert (Hbest4 : (bd <? 0.4)%float = false)
        by (apply (ltb_false_above bd 0.4 0.6 Hbest); reflexivity).
      assert (Hbest2 : (bd <? 0.2)%float = false)
        by (apply (ltb_false_above bd 0.2 0.6 Hbest); reflexivity).
      rewrite Hbest, Hbest4, Hbest2.
      unfold Spec.count_points, Spec.answer_points, Spec.level.
      destruct (3 <=? length (best :: rest))%nat,
        (length (best :: rest) =? 2)%nat, (has_negative rt answer),
        (100 <? length answer)%nat, (50 <? length answer)%nat;
        reflexivity.
  - intros Havg Hbest Hlen. unfold Spec.avg_points, Spec.best_points.
    rewrite Havg, Hbest.
    unfold Spec.count_points.
    replace (3 <=? length (best :: rest))%nat with true
      by (symmetry; apply Nat.leb_le; simpl; lia).
    unfold Spec.answer_points, Spec.level.
    destruct (has_negative rt answer), (100 <? length answer)%nat,
      (50 <? length answer)%nat; reflexivity.
Qed.

Section WithServices.
Variable svc : services.
Variable rt : runtime.

(** X25. A generated answer is thrown away when the store gave no
    distances. If one of the first three retrieved documents has the
    distance [None], the generator is still asked, and then the
    confidence estimate raises: the caller gets the error message with
    no sources and [low], not the generated answer. *)
Theorem answer_question_needs_distances (question : str) (n_context_docs : Z)
  (include_sources : bool) (w w1 : world) (docs : list search_result)
  (parts : list str) (srcs : list source_ref) (answer_text : str) :
  relevant_documents svc rt question n_context_docs w = (Ok docs, w1) ->
  Exists (fun doc => r_distance doc = Some None) (firstn 3 docs) ->
  collect_context include_sources (enumerate 1 docs) = Ok (parts, srcs) ->
  ollama_generate svc
    (rag_prompt rt question (join [newline; newline] parts)) (7 # 10)
    (history w1) = Ok answer_text ->
  truthy answer_text = true ->
  answer_question svc rt question n_context_docs include_sources w
  = (Ok {| answer := of_string "Es ist ein Fehler aufgetreten: "
                     ++ exception_text rt;
           sources := [];
           confidence_of := low |},
     log (EvGenerate (rag_prompt rt question (join [newline; newline] parts))
            (7 # 10)) w1).
Proof.
  intros Hdocs Hnone Hctx Hgen Htruthy.
  unfold answer_question, try_except, bind at 1. rewrite Hdocs.
  destruct docs as [|doc docs]; [inversion Hnone|].
  unfold bind at 1, lift_exc. rewrite Hctx.
  unfold bind at 1, ask. rewrite Hgen, Htruthy. cbn [negb].
  unfold bind, lift_exc.
  now rewrite (estimate_confidence_raises rt (doc :: docs) answer_text Hnone).
Qed.

End WithServices.

Lemma confidence_at_the_edges_witness :
  _estimate_confidence Fixtures.ascii_runtime
    [Fixtures.hit_at (8 # 10); Fixtures.hit_at (9 # 10)]
    Fixtures.long_answer = Ok low /\
  _estimate_confidence Fixtures.ascii_runtime
    [Fixtures.hit_at (1 # 10); Fixtures.hit_at (1 # 10);
     Fixtures.hit_at (1 # 10)]
    (of_string "Das wurde nicht gefunden.") = Ok high.
Proof.
  split.
  - destruct (confidence_at_the_edges Fixtures.ascii_runtime
                [Fixtures.hit_at (8 # 10); Fixtures.hit_at (9 # 10)]
                (8 # 10) [9 # 10] Fixtures.long_answer eq_refl) as [H _].
    apply H; vm_compute; reflexivity.
  - destruct (confidence_at_the_edges Fixtures.ascii_runtime
                [Fixtures.hit_at (1 # 10); Fixtures.hit_at (1 # 10);
                 Fixtures.hit_at (1 # 10)]
                (1 # 10) [1 # 10; 1 # 10]
                (of_string "Das wurde nicht gefunden.") eq_refl) as [_ H].
    apply H; [vm_compute; reflexivity|vm_compute; reflexivity|simpl; lia].
Defined.

Lemma answer_question_needs_distances_witness :
  answer_question Samples.unranked_services Fixtures.ascii_runtime
    Fixtures.year_query 3 true Fixtures.empty_world
  = (Ok {| answer := of_string "Es ist ein Fehler aufgetreten: "
                     ++ exception_text Fixtures.ascii_runtime;
           sources := [];
           confidence_of := low |},
     log (EvGenerate
            (rag_prompt Fixtures.ascii_runtime Fixtures.year_query
               (join [newline; newline] (fst Samples.unranked_context)))
            (7 # 10)) Samples.unranked_world).
Proof.
  apply (answer_question_needs_distances Samples.unranked_services
           Fixtures.ascii_runtime Fixtures.year_query 3 true
           Fixtures.empty_world Samples.unranked_world Samples.unranked_docs
           (fst Samples.unranked_context) (snd Samples.unranked_context)
           (of_string "Der Betrag ist 120 EUR.")).
  - vm_compute. reflexivity.
  - vm_compute. constructor. reflexivity.
  - vm_compute. reflexivity.
  - reflexivity.
  - reflexivity.
Defined.

End AnswerPaths.

(** ** Filter extraction *)

Module FilterFacts.

Import VectorStore MetadataExtractor QASystem.
Import PyFacts EffectFacts.

Lemma last_cons_default {A} (a d : A) (l : list A) :
  List.last (a :: l) d = List.last l a.
Proof.
  revert a d. induction l as [|b l IH]; intros a d; [reflexivity|].
  change (List.last (a :: b :: l) d) with (List.last (b :: l) d).
  now rewrite (IH b d), (IH b a).
Qed.

Section WithRuntime.
Variable svc : services.
Variable rt : runtime.

(** X26. The year the pattern [\b(202\d)\b] finds is a piece of the query:
    four code points, [202] and a decimal digit, with a word boundary on
    either side. *)
Theorem year_search_sound (prev : option N) (query year : str) :
  year_search rt prev query = Some year ->
  exists pre d post,
    query = pre ++ year ++ post /\
    year = [50; 48; 50; d]%N /\
    is_decimal rt d = true /\
    word_boundary rt (List.last (map Some pre) prev) (Some 50%N) = true /\
    word_boundary rt (Some d) (head post) = true.
Proof.
  revert prev. induction query as [|x rest IH]; intros prev; [discriminate|].
  cbn [year_search].
  assert (Hrec : year_search rt (Some x) rest = Some year ->
                 exists pre d post,
                   x :: rest = pre ++ year ++ post /\
                   year = [50; 48; 50; d]%N /\
                   is_decimal rt d = true /\
                   word_boundary rt (List.last (map Some pre) prev)
                     (Some 50%N) = true /\
                   word_boundary rt (Some d) (head post) = true).
  { intros H. apply IH in H as (pre & d & post & -> & -> & Hd & Hb & Ha).
    exists (x :: pre), d, post. split; [reflexivity|]. split; [reflexivity|].
    split; [exact Hd|]. split; [|exact Ha].
    cbn [map]. now rewrite last_cons_default. }
  destruct rest as [|b [|c [|d after]]]; try exact Hrec.
  destruct ((x =? 50)%N && (b =? 48)%N && (c =? 50)%N && is_decimal rt d
            && word_boundary rt prev (Some x)
            && word_boundary rt (Some d) (head after)) eqn:Ematch;
    [|exact Hrec].
  intros [= <-].
  repeat (apply andb_prop in Ematch as [Ematch ?]).
  apply N.eqb_eq in Ematch as ->.
  repeat match goal with H : (_ =? _)%N = true |- _ =>
                           apply N.eqb_eq in H; subst end.
  exists [], d, after. now repeat split.
Qed.

(** X27. [extract_filters] always answers, after one call to the
    generator, with the merge of what the patterns find and what the
    generator's object holds; a key of that object overrides the
    patterns' value, the year and the month included. The object is the
    one [json.loads] reads between the first opening and the last closing
    brace of the generator's answer. When the generator gives nothing
    usable (it raises, answers nothing, answers without a pair of braces,
    or its JSON does not load) the answer is what the patterns found and
    nothing else, and no [where] clause comes of it: the search runs
    unfiltered. *)
Theorem extract_filters_degrades (query : str) (w : world) :
  exists llm,
    extract_filters svc rt query w
    = (Ok {| x_document_type := lf_document_type llm;
             x_correspondent := lf_correspondent llm;
             x_tags := lf_tags llm;
             x_year := lf_year llm;
             x_created_year :=
               merged (year_search rt None query) (lf_created_year llm);
             x_created_month :=
               merged (month_search (lower rt query) months)
                 (lf_created_month llm) |},
       log (EvGenerate (filter_prompt rt query) (1 # 10)) w) /\
    (forall response loaded,
       ollama_generate svc (filter_prompt rt query) (1 # 10) (history w)
       = Ok response ->
       truthy response = true ->
       find 123 response <> (-1)%Z ->
       (find 123 response < rfind 125 response + 1)%Z ->
       json_loads rt
         (slice response (find 123 response) (rfind 125 response + 1))
       = Ok loaded ->
       llm = loaded) /\
    (match ollama_generate svc (filter_prompt rt query) (1 # 10) (history w)
     with
     | Raise => True
     | Ok response =>
         truthy response = false \/
         find 123 response = (-1)%Z \/
         (rfind 125 response + 1 <= find 123 response)%Z \/
         json_loads rt
           (slice response (find 123 response) (rfind 125 response + 1))
         = Raise
     end ->
     llm = no_filters /\
     extract_filters svc rt query w
     = (Ok {| x_document_type := None;
              x_correspondent := None;
              x_tags := None;
              x_year := None;
              x_created_year := year_search rt None query;
              x_created_month := month_search (lower rt query) months |},
        log (EvGenerate (filter_prompt rt query) (1 # 10)) w) /\
     convert_to_chromadb_filter
       {| x_document_type := None;
          x_correspondent := None;
          x_tags := None;
          x_year := None;
          x_created_year := year_search rt None query;
          x_created_month := month_search (lower rt query) months |}
     = None).
Proof.
  unfold extract_filters, _extract_filters_regex, try_except, bind at 1,
    _extract_filters_llm, try_except, bind, ask.
  assert (Hnone : forall y m,
            convert_to_chromadb_filter
              {| x_document_type := None; x_correspondent := None;
                 x_tags := None; x_year := None;
                 x_created_year := y; x_created_month := m |} = None).
  { intros y m. unfold convert_to_chromadb_filter, is_empty. cbn.
    now destruct y, m. }
  destruct (ollama_generate svc (filter_prompt rt query) (1 # 10) (history w))
    as [response|].
  - destruct (truthy response) eqn:Et.
    + destruct (negb (find 123 response =? -1)%Z
                && (find 123 response <? rfind 125 response + 1)%Z) eqn:Eb.
      * unfold lift_exc.
        destruct (json_loads rt _) as [llm|] eqn:Ej.
        -- exists llm. split; [reflexivity|].
           apply andb_prop in Eb as [E1 E2].
           apply negb_true_iff, Z.eqb_neq in E1. apply Z.ltb_lt in E2.
           split.
           ++ intros response' loaded [= <-] _ _ _ Hloaded. congruence.
           ++ intros [H|[H|[H|H]]]; try discriminate; try lia; congruence.
        -- exists no_filters. split; [reflexivity|]. split.
           ++ intros response' loaded [= <-] _ _ _ Hloaded. congruence.
           ++ intros _. split; [reflexivity|]. split; [reflexivity|apply Hnone].
      * exists no_filters. split; [reflexivity|]. split.
        -- intros response' loaded [= <-] _ Hfind Hlt _.
           apply andb_false_iff in Eb as [Eb|Eb].
           ++ apply negb_false_iff, Z.eqb_eq in Eb. contradiction.
           ++ apply Z.ltb_ge in Eb. lia.
        -- intros _. split; [reflexivity|]. split; [reflexivity|apply Hnone].
    + exists no_filters. split; [reflexivity|]. split.
      * intros response' loaded [= <-] Ht. congruence.
      * intros _. split; [reflexivity|]. split; [reflexivity|apply Hnone].
  - exists no_filters. split; [reflexivity|]. split.
    + intros response' loaded [=].
    + intros _. split; [reflexivity|]. split; [reflexivity|apply Hnone].
Qed.

End WithRuntime.

(** A generator that names a year of its own: its [created_year]
    replaces the year the pattern found in the query. *)
Example generator_overrides_year :
  let rt :=
    {| lower := lower Fixtures.ascii_runtime;
       int_of_str := int_of_str Fixtures.ascii_runtime;
       is_decimal := is_decimal Fixtures.ascii_runtime;
       is_word := is_word Fixtures.ascii_runtime;
       json_loads := fun _ =>
         Ok {| lf_document_type := None; lf_correspondent := None;
               lf_tags := None; lf_year := None;
               lf_created_year := Some (of_string "1999");
               lf_created_month := None |};
       float_sum := float_sum Fixtures.ascii_runtime;
       synonym_prompt := synonym_prompt Fixtures.ascii_runtime;
       variants_prompt := variants_prompt Fixtures.ascii_runtime;
       filter_prompt := filter_prompt Fixtures.ascii_runtime;
       rag_prompt := rag_prompt Fixtures.ascii_runtime;
       exception_text := exception_text Fixtures.ascii_runtime |} in
  let svc :=
    {| ollama_generate := fun _ _ _ => Ok (of_string "{}");
       ollama_embedding := ollama_embedding Fixtures.sample_services;
       paperless_get_document :=
         paperless_get_document Fixtures.sample_services;
       paperless_get_all_documents :=
         paperless_get_all_documents Fixtures.sample_services;
       chroma_query := chroma_query Fixtures.sample_services;
       chroma_add_raises := chroma_add_raises Fixtures.sample_services;
       chroma_get_raises := chroma_get_raises Fixtures.sample_services;
       qa_system_ready := qa_system_ready Fixtures.sample_services;
       USE_MULTI_QUERY := true;
       USE_LLM_EXPANSION := false |} in
  year_search rt None Fixtures.year_query = Some (of_string "2024") /\
  option_map x_created_year
    (match fst (extract_filters svc rt Fixtures.year_query
                  Fixtures.empty_world) with
     | Ok extracted => Some extracted
     | Raise => None
     end)
  = Some (Some (of_string "1999")).
Proof. vm_compute. split; reflexivity. Qed.

Lemma year_search_sound_witness :
  exists pre d post,
    Fixtures.year_query = pre ++ of_string "2024" ++ post /\
    of_string "2024" = [50; 48; 50; d]%N /\
    is_decimal Fixtures.ascii_runtime d = true /\
    word_boundary Fixtures.ascii_runtime (List.last (map Some pre) None)
      (Some 50%N) = true /\
    word_boundary Fixtures.ascii_runtime (Some d) (head post) = true.
Proof.
  apply (year_search_sound Fixtures.ascii_runtime None Fixtures.year_query
           (of_string "2024")).
  vm_compute. reflexivity.
Defined.

End FilterFacts.

(** ** The endpoints, and the conversation context *)

Module EndpointFacts.

Import VectorStore QASystem WebApp WebAppAsk Conversation.
Import PyFacts EffectFacts RetrievalFacts WebAppFacts AnswerFacts.

Lemma doc_ids_enumerate (docs : list search_result) (start : Z) :
  map (fun d => r_doc_id (snd d)) (enumerate start docs) = map r_doc_id docs.
Proof.
  revert start. induction docs as [|doc docs IH]; intros start; simpl;
    [reflexivity|]. f_equal. apply IH.
Qed.

Lemma post_filter_all_pass (filters : request_filters)
  (results : list search_result) :
  Forall (fun r =>
            FilterSpec.in_year (option_map str_of_year (rf_year filters)) r
            = true /\
            FilterSpec.has_tag (dict_get (rf_tags filters) []) r = true)
    (post_filter filters results).
Proof.
  rewrite post_filter_passes. apply List.Forall_forall. intros r Hin.
  apply filter_In in Hin as [_ Hpass]. now apply andb_prop in Hpass.
Qed.

Lemma slice_last_three {A} (older recent : list A) :
  length recent = 3%nat ->
  slice (older ++ recent) (-3) (len (older ++ recent)) = recent.
Proof.
  intros Hlen. unfold slice, adjust_index, len. rewrite length_app, Hlen.
  destruct (Z.ltb_spec (-3) 0); [|lia].
  destruct (Z.ltb_spec (Z.of_nat (length older + 3)) 0); [lia|].
  replace (Z.to_nat (Z.max 0 (-3 + Z.of_nat (length older + 3))))
    with (length older) by lia.
  rewrite drop_app_length.
  replace (Z.to_nat _) with (length recent) by lia.
  apply firstn_all.
Qed.

(** X28. Only the last three messages of the history reach the context:
    whatever came before them, well-formed or not, changes nothing. *)
Theorem conversation_context_last_three (older recent : list message)
  (current_question : str) :
  length recent = 3%nat ->
  get_conversation_context (older ++ recent) current_question
  = get_conversation_context recent current_question.
Proof.
  intros Hlen. unfold get_conversation_context.
  rewrite (slice_last_three older recent Hlen).
  pose proof (slice_last_three [] recent Hlen) as H. cbn [app] in H.
  now rewrite H.
Qed.

Section WithServices.
Variable svc : services.
Variable rt : runtime.

Lemma search_documents_multi_answers (query : str) (n_results : Z)
  (use_multi_query : bool) (filters : option where_clause) (w : world) :
  exists results w',
    search_documents_multi svc rt query n_results use_multi_query filters w
    = (Ok results, w').
Proof.
  destruct (search_documents_multi_run svc rt query n_results use_multi_query
              filters w) as (all & w1 & _ & ->).
  destruct (sort_by_distance (dedup all ∅)); [now eexists _, _|].
  apply search_documents_returns.
Qed.


Lemma retrieve_answers (question : str) (n : Z) (filters : request_filters)
  (w : world) :
  exists retrieved w1, retrieve svc rt question n filters w = (Ok retrieved, w1).
Proof.
  unfold retrieve. destruct (USE_MULTI_QUERY svc).
  - unfold bind.
    destruct (search_documents_multi_answers question (n * 2) true
                (if has_keys filters
                 then Some {| w_document_type := rf_document_type filters;
                              w_correspondent := rf_correspondent filters |}
                 else None) w) as (results & w' & ->).
    now eexists _, _.
  - apply search_documents_returns.
Qed.

(** X30. The question endpoint answers from filtered documents only. It
    always responds; with 400 exactly when the question is missing or
    empty; and in an answer the sources are, in order, the retrieved
    documents that pass the caller's year and tag filters, each of which
    does pass them. *)
Theorem ask_question_filters_sources (data : ask_request) (w : world) :
  exists resp w',
    ask_question svc rt data w = (Ok resp, w') /\
    (resp = Rejected 400 <->
     ar_question data = None \/ ar_question data = Some []) /\
    (forall result,
       resp = Answered result ->
       exists question retrieved w1,
         ar_question data = Some question /\
         retrieve svc rt question (dict_get (ar_n_context_docs data) 3%Z)
           (ar_filters data) w = (Ok retrieved, w1) /\
         map s_doc_id (sources result)
         = map r_doc_id (post_filter (ar_filters data) retrieved) /\
         Forall (fun r =>
                   FilterSpec.in_year
                     (option_map str_of_year (rf_year (ar_filters data))) r
                   = true /\
                   FilterSpec.has_tag
                     (dict_get (rf_tags (ar_filters data)) []) r = true)
           (post_filter (ar_filters data) retrieved)).
Proof.
  unfold ask_question, try_except.
  destruct (ar_question data) as [[|x question]|] eqn:Eq.
  - eexists _, _. split; [reflexivity|]. split; [split; auto|discriminate].
  - assert (Hno400 : forall resp : ask_response,
              resp <> Rejected 400 ->
              (resp = Rejected 400 <->
               Some (x :: question) = None \/ Some (x :: question) = Some [])).
    { intros resp Hne. split; [contradiction|]. now intros [|]. }
    unfold bind at 1, get_qa_services.
    destruct (qa_system_ready svc (history w)) as [[|]|]; cbn [negb];
      [|eexists _, _; (split; [reflexivity|]);
        (split; [apply Hno400; discriminate|discriminate])..].
    unfold bind at 1.
    destruct (retrieve_answers (x :: question)
                (dict_get (ar_n_context_docs data) 3%Z) (ar_filters data) w)
      as (retrieved & w1 & Hret). rewrite Hret.
    assert (Hfound : forall result,
              map s_doc_id (sources result)
              = map r_doc_id (post_filter (ar_filters data) retrieved) ->
              exists question0 retrieved0 w0,
                Some (x :: question) = Some question0 /\
                retrieve svc rt question0
                  (dict_get (ar_n_context_docs data) 3%Z) (ar_filters data) w
                = (Ok retrieved0, w0) /\
                map s_doc_id (sources result)
                = map r_doc_id (post_filter (ar_filters data) retrieved0) /\
                Forall (fun r =>
                          FilterSpec.in_year
                            (option_map str_of_year
                               (rf_year (ar_filters data))) r = true /\
                          FilterSpec.has_tag
                            (dict_get (rf_tags (ar_filters data)) []) r
                          = true)
                  (post_filter (ar_filters data) retrieved0)).
    { intros result Hsrc. exists (x :: question), retrieved, w1.
      split; [reflexivity|]. split; [exact Hret|]. split; [exact Hsrc|].
      apply post_filter_all_pass. }
    destruct (post_filter (ar_filters data) retrieved) as [|doc docs] eqn:Ef.
    + eexists _, _. split; [reflexivity|].
      split; [apply Hno400; discriminate|].
      intros result [= <-]. now apply Hfound.
    + destruct (collect_context_returns true (enumerate 1 (doc :: docs)))
        as (parts & srcs & Hctx & Hids).
      specialize (Hids eq_refl). rewrite doc_ids_enumerate in Hids.
      unfold bind at 1, lift_exc. rewrite Hctx.
      unfold bind at 1, ask.
      destruct (ollama_generate svc _ (7 # 10) (history w1)) as [answer|].
      * destruct (truthy answer); cbn [negb].
        -- unfold bind, lift_exc.
           destruct (_estimate_confidence rt (doc :: docs) answer)
             as [confidence|].
           ++ eexists _, _. split; [reflexivity|].
              split; [apply Hno400; discriminate|].
              intros result [= <-]. now apply Hfound.
           ++ eexists _, _. split; [reflexivity|].
              split; [apply Hno400; discriminate|]. discriminate.
        -- eexists _, _. split; [reflexivity|].
           split; [apply Hno400; discriminate|].
           intros result [= <-]. now apply Hfound.
      * eexists _, _. split; [reflexivity|].
        split; [apply Hno400; discriminate|]. discriminate.
  - eexists _, _. split; [reflexivity|]. split; [split; auto|discriminate].
Qed.

End WithServices.

Lemma conversation_context_last_three_witness :
  get_conversation_context
    ([ {| m_role := None; m_content := None |} ]
     ++ [ {| m_role := Some (of_string "user");
             m_content := Some (of_string "Wie hoch war die Rechnung?") |};
          {| m_role := Some (of_string "assistant");
             m_content := Some (of_string "120 EUR.") |};
          {| m_role := Some (of_string "user");
             m_content := Some (of_string "Und von wem?") |} ])
    (of_string "Wann?")
  = get_conversation_context
      [ {| m_role := Some (of_string "user");
           m_content := Some (of_string "Wie hoch war die Rechnung?") |};
        {| m_role := Some (of_string "assistant");
           m_content := Some (of_string "120 EUR.") |};
        {| m_role := Some (of_string "user");
           m_content := Some (of_string "Und von wem?") |} ]
      (of_string "Wann?").
Proof.
  apply (conversation_context_last_three
           [ {| m_role := None; m_content := None |} ]).
  reflexivity.
Defined.

End EndpointFacts.
